(** * push_notifications/models.py: dispatch core and notification log

    A shallow embedding of [src/push_notifications/models.py].

    - The database is two tables, devices and notifications, threaded
      through a state-and-exception monad; an exception leaves the
      state as it is (the source opens no transaction).
    - A queryset is a lazy query, run against the device table each
      time the source evaluates it.
    - The provider clients of [.gcm] and [.apns] are a parameter: a
      call is answered, in the world it is made in, by a value or by an
      exception.  They do not write the tables.
    - [json.dumps] is a parameter.
    - A trace records, in order, each notification saved and each
      provider call made.
    - A call that unpacks [**kwargs] raises [TypeError], before the
      callee is entered, when the mapping repeats a parameter the call
      has bound already.
    - Of the constraints of the database the model has [NOT NULL] on a
      notification's message and [UNIQUE] on a device's [device_id];
      lengths of text columns, the foreign key to the user table and
      failures of the database itself are outside the model.
    - [models.Model.save] is Django's: [GCMDevice.save] and
      [APNSDevice.save] take it as a parameter, which stands for
      [Model.save] applied to the arguments they forward. *)

From Stdlib Require Import ZArith List Lia.
From stdpp Require Import base tactics option list strings gmap sets pretty.

Set Warnings "-register-all".
Open Scope string_scope.
Open Scope list_scope.
Open Scope Z_scope.

(** ** Python values carried by keyword arguments *)

Inductive pyval : Type :=
| PNone
| PBool (b : bool)
| PInt (z : Z)
| PStr (s : string)
| PList (l : list pyval)
| PDict (d : gmap string pyval).

(** [**kwargs] as [send_message(self, message, **kwargs)] receives it: a
    dict from keyword to value.  Python binds [self] and [message] to
    the method's own parameters, so the mapping of a call that was
    entered holds neither, and the calls of lines 56, 91, 136 and 173,
    which pass it on to another [send_message], always bind. *)
Abbreviation Kwargs := (gmap string pyval).

(** ** Models *)

(** [Device] and its two proxy subclasses. *)
Inductive ProxyModel : Type := APNSDevice | GCMDevice.
Inductive Model : Type := Device | Proxy (p : ProxyModel).
Coercion Proxy : ProxyModel >-> Model.

#[global] Instance ProxyModel_eq_dec : EqDecision ProxyModel.
Proof. solve_decision. Defined.
#[global] Instance Model_eq_dec : EqDecision Model.
Proof. solve_decision. Defined.

(** [Device.APNS] and [Device.GCM]. *)
Definition Device_APNS : Z := 0.
Definition Device_GCM : Z := 1.

(** The columns of the device table (lines 71-80). *)
Record Fields : Type := mkFields {
  name : option string;
  active : bool;
  user : option nat;
  date_created : option Z;
  device_id : option string;
  registration_id : string;
  device_type : Z }.

(** A stored row: primary key and columns. *)
Record Row : Type := mkRow { row_pk : nat; row_fields : Fields }.

(** An in-memory model instance: its runtime class ([__class__]), its
    primary key ([None] until first saved) and its attribute values. *)
Record Instance : Type := mkInstance {
  class_ : Model;
  pk : option nat;
  fields : Fields }.

Definition set_class (c : Model) (self : Instance) : Instance :=
  mkInstance c (pk self) (fields self).
Definition set_pk (k : nat) (self : Instance) : Instance :=
  mkInstance (class_ self) (Some k) (fields self).
Definition set_device_type (t : Z) (self : Instance) : Instance :=
  let f := fields self in
  mkInstance (class_ self) (pk self)
    (mkFields (name f) (active f) (user f) (date_created f) (device_id f)
       (registration_id f) t).
Definition set_date_created (t : Z) (f : Fields) : Fields :=
  mkFields (name f) (active f) (user f) (Some t) (device_id f)
    (registration_id f) (device_type f).

(** The columns by name, as [update_fields] lists them. *)
Inductive DeviceField : Type :=
| F_name | F_active | F_user | F_date_created | F_device_id
| F_registration_id | F_device_type.

#[global] Instance DeviceField_eq_dec : EqDecision DeviceField.
Proof. solve_decision. Defined.

(** A [Notification] row (lines 23-26); [devices] is the many-to-many
    relation, a set of device primary keys. *)
Record Notification : Type := mkNotification {
  devices : gset nat;
  message : option string;
  kwargs : string;
  sent_at : Z }.

(** ** Provider clients and the world *)

(** The four functions imported from [.apns] and [.gcm], as calls. *)
Inductive Call : Type :=
| apns_send_message (registration_id : string) (alert : option string)
    (kwargs : Kwargs)
| apns_send_bulk_message (registration_ids : list string)
    (alert : option string) (kwargs : Kwargs)
| gcm_send_message (registration_id : string) (data : pyval)
    (kwargs : Kwargs)
| gcm_send_bulk_message (registration_ids : list string) (data : pyval)
    (kwargs : Kwargs).

(** The keyword arguments a call unpacks ([**kwargs]), and the keywords
    it names itself. *)
Definition call_kwargs (c : Call) : Kwargs :=
  match c with
  | apns_send_message _ _ kw | gcm_send_message _ _ kw
  | apns_send_bulk_message _ _ kw | gcm_send_bulk_message _ _ kw => kw
  end.

Definition call_keywords (c : Call) : list string :=
  match c with
  | apns_send_message _ _ _ => ["registration_id"; "alert"]
  | apns_send_bulk_message _ _ _ => ["registration_ids"; "alert"]
  | gcm_send_message _ _ _ => ["registration_id"; "data"]
  | gcm_send_bulk_message _ _ _ => ["registration_ids"; "data"]
  end.

(** What a send has done so far, in order: notification [id] was saved,
    or a provider client was entered. *)
Inductive Event : Type :=
| Recorded (id : nat)
| Called (c : Call).

Record World : Type := mkWorld {
  w_devices : list Row;
  w_notifications : list Notification;
  w_trace : list Event;
  w_now : Z }.

Definition set_devices (f : list Row → list Row) (w : World) : World :=
  mkWorld (f (w_devices w)) (w_notifications w) (w_trace w) (w_now w).
Definition set_notifications (f : list Notification → list Notification)
    (w : World) : World :=
  mkWorld (w_devices w) (f (w_notifications w)) (w_trace w) (w_now w).
Definition log (e : Event) (w : World) : World :=
  mkWorld (w_devices w) (w_notifications w) (w_trace w ++ [e]) (w_now w).

(** A provider client either returns a value or raises. *)
Inductive Response : Type :=
| Returned (v : pyval)
| Failed (e : string).

(** ** Exceptions and the monad *)

Inductive exn : Type :=
| AttributeError          (* attribute access on None *)
| TypeError               (* a parameter bound twice; item assignment on a
                             value that is no dict; super() on an instance
                             of another class *)
| ValueError              (* relating an instance that has no primary key;
                             a forced update without a primary key *)
| IntegrityError          (* a NOT NULL or UNIQUE constraint *)
| DatabaseError           (* a forced update that found no row *)
| RecursionError          (* the interpreter's recursion limit *)
| ProviderError (e : string).

Inductive result (A : Type) : Type :=
| Ok (a : A)
| Raise (e : exn).
Arguments Ok {A} a.
Arguments Raise {A} e.

(** State is kept when an exception propagates: nothing is rolled back. *)
Definition M (A : Type) : Type := World → World * result A.

Definition ret {A} (a : A) : M A := λ w, (w, Ok a).
Definition raise {A} (e : exn) : M A := λ w, (w, Raise e).
Definition bind {A B} (m : M A) (k : A → M B) : M B :=
  λ w, match m w with
       | (w', Ok a) => k a w'
       | (w', Raise e) => (w', Raise e)
       end.
Definition get : M World := λ w, (w, Ok w).
Definition modify (f : World → World) : M unit := λ w, (f w, Ok tt).

#[global] Instance M_ret : MRet M := @ret.
#[global] Instance M_bind : MBind M := λ A B k m, bind m k.

(** ** Binding of keyword arguments

    [f(a, k=v, **kwargs)] raises [TypeError] while its arguments are
    bound, before [f] is entered, when [kwargs] holds a keyword the call
    has bound already: a parameter filled by position, or a keyword the
    call names itself. *)

Definition repeats (bound : list string) (kwargs : Kwargs) : bool :=
  existsb (λ k, bool_decide (is_Some (kwargs !! k))) bound.

Definition bind_keywords (bound : list string) (kwargs : Kwargs) : M unit :=
  if repeats bound kwargs then raise TypeError else mret tt.

(** The parameters of [create_notification_for(cls, devices, message,
    **kwargs)] that the calls of lines 84, 109 and 154 fill by
    position. *)
Definition record_parameters : list string := ["cls"; "devices"; "message"].

(** ** Querysets *)

(** A queryset is a lazy query: the model whose instances it yields and
    the [WHERE] clause accumulated by [filter].  It is run against the
    device table each time it is evaluated. *)
Record QuerySet : Type := mkQuerySet {
  qs_model : Model;
  qs_where : Row → bool }.

Definition qs_filter (p : Row → bool) (qs : QuerySet) : QuerySet :=
  mkQuerySet (qs_model qs) (λ r, qs_where qs r && p r).

(** The lookups the source filters with. *)
Definition device_type_is (t : Z) (r : Row) : bool :=
  bool_decide (device_type (row_fields r) = t).
Definition active_is (b : bool) (r : Row) : bool :=
  bool_decide (active (row_fields r) = b).
Definition id__in (ids : list nat) (r : Row) : bool :=
  bool_decide (row_pk r ∈ ids).

Definition fetch (qs : QuerySet) : M (list Row) :=
  λ w, (w, Ok (List.filter (qs_where qs) (w_devices w))).

(** [if self:] on a queryset, and Python truth of a list. *)
Definition truthy {A} (l : list A) : bool :=
  match l with [] => false | _ :: _ => true end.

(** The instance a queryset yields for a row. *)
Definition instance_of (model : Model) (r : Row) : Instance :=
  mkInstance model (Some (row_pk r)) (row_fields r).

(** [Device.objects], and the managers of lines 99-101 and 144-146. *)
Definition Device_objects : QuerySet := mkQuerySet Device (λ _, true).
Definition GCMDevice_objects : QuerySet :=
  qs_filter (device_type_is Device_GCM) (mkQuerySet GCMDevice (λ _, true)).
Definition APNSDevice_objects : QuerySet :=
  qs_filter (device_type_is Device_APNS) (mkQuerySet APNSDevice (λ _, true)).

Definition objects (model : ProxyModel) : QuerySet :=
  match model with
  | APNSDevice => APNSDevice_objects
  | GCMDevice => GCMDevice_objects
  end.

(** [values_list('pk', 'device_type')] over fetched rows. *)
Definition values_list_pk_device_type (rows : list Row) : list (nat * Z) :=
  map (λ r, (row_pk r, device_type (row_fields r))) rows.

(** Lines 13-19. *)
Definition get_device_model_by_type (device_type : Z) : option ProxyModel :=
  if decide (device_type = Device_APNS) then Some APNSDevice
  else if decide (device_type = Device_GCM) then Some GCMDevice
  else None.

(** ** A Python dict keyed by provider tag

    Kept as an association list in insertion order, which is also the
    order [keys()] yields here.  The statements on the grouped dispatch
    do not depend on which group is served first. *)

Fixpoint dict_get {V} (d : list (Z * V)) (key : Z) (dflt : V) : V :=
  match d with
  | [] => dflt
  | (k, v) :: d' => if decide (k = key) then v else dict_get d' key dflt
  end.

Fixpoint dict_set {V} (d : list (Z * V)) (key : Z) (v : V) : list (Z * V) :=
  match d with
  | [] => [(key, v)]
  | (k, v') :: d' =>
      if decide (k = key) then (k, v) :: d' else (k, v') :: dict_set d' key v
  end.

Definition dict_keys {V} (d : list (Z * V)) : list Z := map fst d.

(** Lines 49-52: [devices[device_type] = devices.get(device_type, []) + [id]]
    for every [(id, device_type)] pair. *)
Definition group_by_type (pairs : list (nat * Z)) : list (Z * list nat) :=
  fold_left
    (λ devices p,
       let '(id, device_type) := p in
       dict_set devices device_type (dict_get devices device_type [] ++ [id]))
    pairs [].

(** ** The [extra] keyword *)

(** [kwargs.pop("extra", {})]: the value, and [kwargs] without the key. *)
Definition pop_extra (kwargs : Kwargs) : pyval * Kwargs :=
  (default (PDict ∅) (kwargs !! "extra"), delete "extra" kwargs).

(** [data[key] = v]. *)
Definition setitem (data : pyval) (key : string) (v : pyval) : M pyval :=
  match data with
  | PDict d => mret (PDict (<[key := v]> d))
  | _ => raise TypeError
  end.

(** Lines 112-113 and 139-140. *)
Definition merge_message (data : pyval) (message : option string) : M pyval :=
  match message with
  | Some m => setitem data "message" (PStr m)
  | None => mret data
  end.

(** [data] is the very object the caller passed as [extra], so the
    assignment shows in the caller's mapping. *)
Definition seen_by_caller (kwargs : Kwargs) (data : pyval) : Kwargs :=
  match kwargs !! "extra" with
  | Some _ => <["extra" := data]> kwargs
  | None => kwargs
  end.

(** First argument of [create_notification_for]: one instance, or an
    iterable (a queryset). *)
Inductive Target : Type :=
| One (d : Instance)
| Many (qs : QuerySet).

Definition with_devices (pks : list nat) (n : Notification) : Notification :=
  mkNotification (devices n ∪ list_to_set pks) (message n) (kwargs n)
    (sent_at n).

Section Core.

(** [json.dumps] on keyword mappings. *)
Variable json_dumps : Kwargs → string.

(** The provider clients: what a call answers in a given world. *)
Variable client : World → Call → Response.

(** The client is entered: it answers, or raises. *)
Definition enter (c : Call) : M pyval :=
  λ w, match client w c with
       | Returned v => (log (Called c) w, Ok v)
       | Failed e => (log (Called c) w, Raise (ProviderError e))
       end.

(** A call of a provider client (lines 116, 141, 157, 174): the client
    is entered only when the unpacked keywords repeat none of the
    keywords the call names. *)
Definition call (c : Call) : M pyval :=
  _ ← bind_keywords (call_keywords c) (call_kwargs c);
  enter c.

(** ** Notification (lines 22-36) *)

(** [notification = cls(...); notification.save()]: the new row's id.
    The [message] column is [NOT NULL]: no row is stored for [None]. *)
Definition Notification_save (message : option string) (kwargs : string)
    : M nat :=
  match message with
  | None => raise IntegrityError
  | Some _ =>
      λ w, let id := length (w_notifications w) in
           (log (Recorded id)
              (set_notifications
                 (λ ns, ns ++ [mkNotification ∅ message kwargs (w_now w)]) w),
            Ok id)
  end.

(** [notification.devices.add( *objs )]. *)
Definition devices_add (id : nat) (objs : list Instance) : M unit :=
  match mapM pk objs with
  | None => raise ValueError
  | Some pks => modify (set_notifications (alter (with_devices pks) id))
  end.

(** Lines 28-36, entered by [create_notification_for(self, message,
    **kwargs)]: the arguments are bound first. *)
Definition create_notification_for (devices : Target)
    (message : option string) (kwargs : Kwargs) : M unit :=
  _ ← bind_keywords record_parameters kwargs;
  id ← Notification_save message (json_dumps kwargs);
  objs ← match devices with
         | Many qs =>
             rows ← fetch qs; mret (map (instance_of (qs_model qs)) rows)
         | One d => mret [d]
         end;
  devices_add id objs.

(** ** Bulk sends of the proxy querysets (lines 104-116, 149-157)

    The first component of the result is the caller's keyword mapping as
    it stands after the call. *)

Definition reg_ids_of (rows : list Row) : list string :=
  map (λ r, registration_id (row_fields r)) rows.

Definition GCMDeviceQuerySet_send_message (self : QuerySet)
    (message : option string) (kwargs : Kwargs) : M (Kwargs * pyval) :=
  rows ← fetch self;
  if truthy rows then
    _ ← create_notification_for (Many self) message kwargs;
    let '(data, rest) := pop_extra kwargs in
    data ← merge_message data message;
    active_rows ← fetch (qs_filter (active_is true) self);
    v ← call (gcm_send_bulk_message (reg_ids_of active_rows) data rest);
    mret (seen_by_caller kwargs data, v)
  else mret (kwargs, PNone).

Definition APNSDeviceQuerySet_send_message (self : QuerySet)
    (message : option string) (kwargs : Kwargs) : M (Kwargs * pyval) :=
  rows ← fetch self;
  if truthy rows then
    _ ← create_notification_for (Many self) message kwargs;
    active_rows ← fetch (qs_filter (active_is true) self);
    v ← call (apns_send_bulk_message (reg_ids_of active_rows) message kwargs);
    mret (kwargs, v)
  else mret (kwargs, PNone).

Definition proxy_bulk_send_message (model : ProxyModel)
    : QuerySet → option string → Kwargs → M (Kwargs * pyval) :=
  match model with
  | APNSDevice => APNSDeviceQuerySet_send_message
  | GCMDevice => GCMDeviceQuerySet_send_message
  end.

(** ** DeviceQuerySet.send_message (lines 46-56) *)

(** Lines 54-56: the loop over [devices.keys()].  Each iteration unpacks
    the same [kwargs], whose values are shared objects: a later group
    sees [extra] as an earlier Google-style send left it. *)
Fixpoint dispatch_groups (devices : list (Z * list nat)) (keys : list Z)
    (message : option string) (kwargs : Kwargs) : M unit :=
  match keys with
  | [] => mret tt
  | key :: keys' =>
      match get_device_model_by_type key with
      | None => raise AttributeError
      | Some device_model =>
          r ← proxy_bulk_send_message device_model
                 (qs_filter (id__in (dict_get devices key []))
                    (objects device_model))
                 message kwargs;
          dispatch_groups devices keys' message (fst r)
      end
  end.

Definition DeviceQuerySet_send_message (self : QuerySet)
    (message : option string) (kwargs : Kwargs) : M pyval :=
  rows ← fetch self;
  if truthy rows then
    rows ← fetch self;
    let devices := group_by_type (values_list_pk_device_type rows) in
    _ ← dispatch_groups devices (dict_keys devices) message kwargs;
    mret PNone
  else mret PNone.

(** ** Single-device sends (lines 82-91, 133-141, 171-174)

    Line 87 or 89 retypes the caller's object in place and line 140
    writes into the caller's [extra]; nothing in this module reads
    either afterwards, so the sends return their value only. *)

Definition method : Type := Instance → option string → Kwargs → M pyval.

(** [Device.send_message]; [virtual] is what [self.send_message] of line
    91 resolves to. *)
Definition Device_send_message (virtual : method) : method :=
  λ self message kwargs,
    if decide (class_ self ≠ Device) then
      _ ← create_notification_for (One self) message kwargs; mret PNone
    else
      let self :=
        if decide (device_type (fields self) = Device_APNS)
        then set_class APNSDevice self
        else set_class GCMDevice self in
      _ ← virtual self message kwargs;
      mret PNone.

Definition GCMDevice_send_message (virtual : method) : method :=
  λ self message kwargs,
    _ ← Device_send_message virtual self message kwargs;
    let '(data, rest) := pop_extra kwargs in
    data ← merge_message data message;
    call (gcm_send_message (registration_id (fields self)) data rest).

Definition APNSDevice_send_message (virtual : method) : method :=
  λ self message kwargs,
    _ ← Device_send_message virtual self message kwargs;
    call (apns_send_message (registration_id (fields self)) message kwargs).

(** Method resolution by the runtime class of [self]. *)
Definition resolve (virtual : method) : method :=
  λ self,
    match class_ self with
    | Device => Device_send_message virtual self
    | Proxy GCMDevice => GCMDevice_send_message virtual self
    | Proxy APNSDevice => APNSDevice_send_message virtual self
    end.

(** [self.send_message(...)], with the interpreter's bound on nested
    calls. *)
Fixpoint send_message_at (depth : nat) : method :=
  match depth with
  | O => λ _ _ _, raise RecursionError
  | S d => resolve (send_message_at d)
  end.

Definition recursion_limit : nat := 1000.

Definition send_message : method := send_message_at recursion_limit.

End Core.

(** ** save (lines 129-131, 167-169)

    [super_save] stands for [super(...).save( *args, **kwargs)]:
    [models.Model.save] applied to the arguments the caller gave.
    [super(GCMDevice, self)] raises [TypeError] unless [self] is an
    instance of [GCMDevice]; line 130 has run by then, on the object in
    memory only. *)

Definition GCMDevice_save (super_save : Instance → M Instance)
    (self : Instance) : M Instance :=
  let self := set_device_type Device_GCM self in
  if decide (class_ self = GCMDevice) then super_save self
  else raise TypeError.

Definition APNSDevice_save (super_save : Instance → M Instance)
    (self : Instance) : M Instance :=
  let self := set_device_type Device_APNS self in
  if decide (class_ self = APNSDevice) then super_save self
  else raise TypeError.

(** *** [models.Model.save]

    Two of the ways Django's [save] can be called, on the device table:
    with its default arguments, and with [update_fields]. *)

Definition has_pk (k : nat) (r : Row) : bool := (row_pk r =? k)%nat.

Definition next_pk (table : list Row) : nat :=
  S (list_max (map row_pk table)).

Definition insert_row (k : nat) (self : Instance) : M Instance :=
  λ w, let f := set_date_created (w_now w) (fields self) in
       (set_devices (λ t, t ++ [mkRow k f]) w,
        Ok (mkInstance (class_ self) (Some k) f)).

(** [device_id] is [unique=True]: a row of another key holds the same
    value (two [NULL]s do not clash). *)
Definition device_id_taken (k : nat) (f : Fields) (table : list Row) : bool :=
  match device_id f with
  | Some d =>
      existsb
        (λ r, negb (has_pk k r) &&
              bool_decide (device_id (row_fields r) = Some d))
        table
  | None => false
  end.

(** [save()]: update the row of this primary key, or insert one;
    [date_created] is [auto_now_add]. *)
Definition Model_save (self : Instance) : M Instance :=
  w ← get;
  match pk self with
  | Some k =>
      if device_id_taken k (fields self) (w_devices w) then
        raise IntegrityError
      else if existsb (has_pk k) (w_devices w) then
        _ ← modify (set_devices
               (map (λ r, if has_pk k r then mkRow k (fields self) else r)));
        mret self
      else insert_row k self
  | None =>
      let k := next_pk (w_devices w) in
      if device_id_taken k (fields self) (w_devices w) then
        raise IntegrityError
      else insert_row k self
  end.




(** ** Text of a device and of a notification (lines 38-43, 93-96) *)

Definition class_name (c : Model) : string :=
  match c with
  | Device => "Device"
  | Proxy GCMDevice => "GCMDevice"
  | Proxy APNSDevice => "APNSDevice"
  end.

(** [a or b] on strings: [a] unless it is empty. *)
Definition str_or (a b : string) : string :=
  if decide (a = "") then b else a.

(** [x or ""] for a nullable text: [None] and the empty text are both
    falsy. *)
Definition or_empty (x : option string) : string := default "" x.

Section Text.

(** The text of the user model's instances. *)
Variable user_str : nat → string.

(** Lines 93-96. *)
Definition Device___str__ (self : Instance) : string :=
  str_or (or_empty (name (fields self)))
    (str_or (or_empty (device_id (fields self)))
       (class_name (class_ self) +:+ " for " +:+
          match user (fields self) with
          | Some u => user_str u
          | None => "unknown user"
          end)).

(** The rows behind [self.devices]: the devices related to a
    notification. *)
Definition related_devices (w : World) (n : Notification) : list Row :=
  List.filter (λ r, bool_decide (row_pk r ∈ devices n)) (w_devices w).

(** [first()] on an unordered queryset: the row of least primary key. *)
Fixpoint first_by_pk (rows : list Row) : option Row :=
  match rows with
  | [] => None
  | r :: rows' =>
      match first_by_pk rows' with
      | None => Some r
      | Some r' => if (row_pk r <=? row_pk r')%nat then Some r else Some r'
      end
  end.

(** [u'%s' % x] for a device or [None], and for a message. *)
Definition device_text (d : option Row) : string :=
  match d with
  | Some r => Device___str__ (instance_of Device r)
  | None => "None"
  end.

(** Lines 38-43. *)
Definition Notification___unicode__ (w : World) (self : Notification)
    : string :=
  let count := length (related_devices w self) in
  let others_text :=
    if (1 <? count)%nat
    then " and " +:+ pretty (count - 1)%nat +:+ " other"
    else "" in
  device_text (first_by_pk (related_devices w self)) +:+ others_text +:+
    ": " +:+ default "None" (message self).

End Text.

(** ** Vocabulary of the statements *)

(** The rows a queryset selects in a world. *)
Definition rows_of (qs : QuerySet) (w : World) : list Row :=
  List.filter (qs_where qs) (w_devices w).

(** The world once a notification for the devices [ds] is on record. *)
Definition recorded (json_dumps : Kwargs → string) (ds : gset nat)
    (message : option string) (kwargs : Kwargs) (w : World) : World :=
  mkWorld (w_devices w)
    (w_notifications w ++
       [mkNotification ds message (json_dumps kwargs) (w_now w)])
    (w_trace w ++ [Recorded (length (w_notifications w))])
    (w_now w).

(** The keyword arguments bind at the call that makes the record: they
    repeat none of its parameters. *)
Definition record_binds (kwargs : Kwargs) : bool :=
  negb (repeats record_parameters kwargs).

(** The keywords the four provider calls name themselves. *)
Definition client_keywords : list string :=
  ["registration_id"; "registration_ids"; "alert"; "data"].

(** The keyword arguments bind at every call of a send: at the call that
    makes the record and at the call of the provider client. *)
Definition keywords_bind (kwargs : Kwargs) : bool :=
  record_binds kwargs && negb (repeats client_keywords kwargs).

(** [extra] is absent or a dict, and the dict it stands for. *)
Definition extra_is_dict (kwargs : Kwargs) : bool :=
  match kwargs !! "extra" with
  | Some (PDict _) | None => true
  | Some _ => false
  end.

Definition extra_dict (kwargs : Kwargs) : gmap string pyval :=
  match kwargs !! "extra" with
  | Some (PDict d) => d
  | _ => ∅
  end.

(** The payload the Google-style client receives for a text message. *)
Definition gcm_payload (m : string) (kwargs : Kwargs) : pyval :=
  PDict (<["message" := PStr m]> (extra_dict kwargs)).

Definition active_rows (rows : list Row) : list Row :=
  List.filter (active_is true) rows.

Definition pks_of (rows : list Row) : gset nat :=
  list_to_set (map row_pk rows).

(** The spec's reading of the payload: [extra] is taken out of the
    keyword arguments that travel with the call. *)
Definition extra_extracted (kwargs : Kwargs) (c : Call) : Prop :=
  call_kwargs c = delete "extra" kwargs.

(** Audit first: the send found the world [w]; when the provider client
    [c] is consulted, in world [w1], the notification [n] is already on
    record there; the final world is [w1] with the call logged, whatever
    the client answers; a failure of the client is the send's failure. *)
Definition audit_first {A} (client : World → Call → Response) (w : World)
    (out : World * result A) : Prop :=
  ∃ w1 n c,
    w_notifications w1 = w_notifications w ++ [n] ∧
    w_trace w1 = w_trace w ++ [Recorded (length (w_notifications w))] ∧
    fst out = log (Called c) w1 ∧
    match client w1 c with
    | Returned _ => ∃ a, snd out = Ok a
    | Failed e => snd out = Raise (ProviderError e)
    end.

(** What a send adds to the notification table and to the trace:
    nothing; one record; or one record and then one provider call.
    [id] is the key of the new record. *)
Definition record_then_call (id : nat) (ns : list Notification)
    (t : list Event) : Prop :=
  (ns = [] ∧ t = []) ∨
  ∃ n, ns = [n] ∧ (t = [Recorded id] ∨ ∃ c, t = [Recorded id; Called c]).

(** The save a provider class defines, called with default arguments. *)
Definition save_of (p : ProxyModel) : Instance → M Instance :=
  match p with
  | GCMDevice => GCMDevice_save Model_save
  | APNSDevice => APNSDevice_save Model_save
  end.

(** The save of [self], found the world [w] and left the world [w'] and
    the instance [self']: the instance has a key, the one it had if it
    had one; its class is unchanged; its columns are those of [self]
    but for the tag, which is [t], and the creation date, which is set
    when the row is new; the table holds that row under the key, and
    the rows of other keys are as they were. *)
Definition stored_with_type (t : Z) (self : Instance) (w w' : World)
    (self' : Instance) : Prop :=
  ∃ k,
    pk self' = Some k ∧
    (∀ k0, pk self = Some k0 → k0 = k) ∧
    class_ self' = class_ self ∧
    name (fields self') = name (fields self) ∧
    active (fields self') = active (fields self) ∧
    user (fields self') = user (fields self) ∧
    device_id (fields self') = device_id (fields self) ∧
    registration_id (fields self') = registration_id (fields self) ∧
    device_type (fields self') = t ∧
    date_created (fields self') =
      (if existsb (has_pk k) (w_devices w)
       then date_created (fields self) else Some (w_now w)) ∧
    In (mkRow k (fields self')) (w_devices w') ∧
    (∀ r, In r (w_devices w') → row_pk r = k → r = mkRow k (fields self')) ∧
    (∀ r, row_pk r ≠ k → (In r (w_devices w') ↔ In r (w_devices w))).

(** The ids of the pairs carrying the tag [t], in order. *)
Definition ids_of_type (t : Z) (pairs : list (nat * Z)) : list nat :=
  map fst (List.filter (λ p, bool_decide (snd p = t)) pairs).

(** The tag each proxy model stands for. *)
Definition tag_of (model : ProxyModel) : Z :=
  match model with
  | APNSDevice => Device_APNS
  | GCMDevice => Device_GCM
  end.

Definition rows_of_type (t : Z) (rows : list Row) : list Row :=
  List.filter (device_type_is t) rows.

(** [c] is the bulk call of [model]'s client and carries [regs]. *)
Definition bulk_call_of (model : ProxyModel) (regs : list string) (c : Call)
    : Prop :=
  match model, c with
  | APNSDevice, apns_send_bulk_message rs _ _ => rs = regs
  | GCMDevice, gcm_send_bulk_message rs _ _ => rs = regs
  | _, _ => False
  end.

(** Every provider call returns. *)
Definition client_returns (client : World → Call → Response) : Prop :=
  ∀ w c, ∃ v, client w c = Returned v.

(** The instance line 91 dispatches on, once lines 86-89 have set its
    class. *)
Definition provider_resolved (self : Instance) : Instance :=
  if decide (device_type (fields self) = Device_APNS)
  then set_class APNSDevice self
  else set_class GCMDevice self.

(** A computation that leaves the device table as it found it. *)
Definition keeps_devices {A} (m : M A) : Prop :=
  ∀ w, w_devices (fst (m w)) = w_devices w.

Definition is_bulk_call (c : Call) : bool :=
  match c with
  | apns_send_bulk_message _ _ _ | gcm_send_bulk_message _ _ _ => true
  | _ => false
  end.

(** The registration ids a provider call carries. *)
Definition call_registration_ids (c : Call) : list string :=
  match c with
  | apns_send_message r _ _ | gcm_send_message r _ _ => [r]
  | apns_send_bulk_message rs _ _ | gcm_send_bulk_message rs _ _ => rs
  end.

(** The device set a single-device send relates: the instance's key, if
    it has one. *)
Definition own_key (self : Instance) : gset nat :=
  match pk self with
  | Some k => {[k]}
  | None => ∅
  end.

(** The devices [create_notification_for] relates to the record, and
    how relating them ends: an instance without a key cannot be
    related. *)
Definition target_keys (target : Target) (w : World) : gset nat :=
  match target with
  | One d => own_key d
  | Many qs => pks_of (rows_of qs w)
  end.

Definition related (target : Target) : result unit :=
  match target with
  | One d => match pk d with Some _ => Ok tt | None => Raise ValueError end
  | Many _ => Ok tt
  end.

(** The call a single-device send of class [model] makes for a text
    message. *)
Definition single_call (model : ProxyModel) (f : Fields) (m : string)
    (kwargs : Kwargs) : Call :=
  match model with
  | APNSDevice => apns_send_message (registration_id f) (Some m) kwargs
  | GCMDevice =>
      gcm_send_message (registration_id f) (gcm_payload m kwargs)
        (delete "extra" kwargs)
  end.

(** The bulk call a send of [model]'s queryset makes for a text
    message. *)
Definition bulk_call (model : ProxyModel) (regs : list string) (m : string)
    (kwargs : Kwargs) : Call :=
  match model with
  | APNSDevice => apns_send_bulk_message regs (Some m) kwargs
  | GCMDevice =>
      gcm_send_bulk_message regs (gcm_payload m kwargs)
        (delete "extra" kwargs)
  end.

(** The keywords a call unpacks repeat none of the keywords it names. *)
Definition call_binds (c : Call) : bool :=
  negb (repeats (call_keywords c) (call_kwargs c)).

(** Every provider call in the trace comes right after a record that no
    other call has used; [armed] says such a record is pending. *)
Fixpoint record_first (armed : bool) (t : list Event) : bool :=
  match t with
  | [] => true
  | Recorded _ :: t' => record_first true t'
  | Called _ :: t' => armed && record_first false t'
  end.

Definition calls_of (t : list Event) : list Call :=
  omap (λ e, match e with Called c => Some c | Recorded _ => None end) t.

(** The tag has a model. *)
Definition known_tag (t : Z) : bool :=
  match get_device_model_by_type t with
  | Some _ => true
  | None => false
  end.

(** The other provider class. *)
Definition other_model (p : ProxyModel) : ProxyModel :=
  match p with
  | APNSDevice => GCMDevice
  | GCMDevice => APNSDevice
  end.

(** In the world [w'] the manager of [p] selects a row of the key of
    [self'], with the name, the flag, the user, the device id and the
    registration id of [self]; it selects no other row of that key, and
    the other manager selects no row of that key. *)
Definition found_by (p : ProxyModel) (self : Instance) (w' : World)
    (self' : Instance) : Prop :=
  ∃ k r,
    pk self' = Some k ∧ row_pk r = k ∧
    In r (rows_of (objects p) w') ∧
    name (row_fields r) = name (fields self) ∧
    active (row_fields r) = active (fields self) ∧
    user (row_fields r) = user (fields self) ∧
    device_id (row_fields r) = device_id (fields self) ∧
    registration_id (row_fields r) = registration_id (fields self) ∧
    (∀ r', In r' (rows_of (objects p) w') → row_pk r' = k → r' = r) ∧
    (∀ r', In r' (rows_of (objects (other_model p)) w') → row_pk r' ≠ k).

(** ** A small registry to run the code on *)

Definition ex_fields (nm reg : string) (act : bool) (t : Z) : Fields :=
  mkFields (Some nm) act None None None reg t.

(** Device 1: APNS, active; device 2: GCM, active; device 3: APNS,
    inactive. *)
Definition ex_world : World :=
  mkWorld
    [mkRow 1 (ex_fields "A" "reg-a" true Device_APNS);
     mkRow 2 (ex_fields "B" "reg-b" true Device_GCM);
     mkRow 3 (ex_fields "C" "reg-c" false Device_APNS)]
    [] [] 100.

Definition ex_empty_world : World := mkWorld [] [] [] 100.

(** A serialiser that lists the keywords, and clients that answer
    [None]. *)
Definition ex_json_dumps (kwargs : Kwargs) : string :=
  String.concat "," (map fst (map_to_list kwargs)).

Definition ex_client (w : World) (c : Call) : Response := Returned PNone.

Definition ex_failing_client (w : World) (c : Call) : Response :=
  Failed "timeout".

(** A client that answers with a value of its own. *)
Definition ex_answering_client (w : World) (c : Call) : Response :=
  Returned (PStr "sent").

(** A device carrying a tag that is neither APNS nor GCM, and a registry
    holding it. *)
Definition ex_stray_fields : Fields := ex_fields "D" "reg-d" true 7.

Definition ex_stray : Instance := mkInstance Device (Some 4%nat) ex_stray_fields.

Definition ex_stray_world : World :=
  mkWorld (w_devices ex_world ++ [mkRow 4 ex_stray_fields]) [] [] 100.

Definition ex_kwargs : Kwargs :=
  <["extra" := PDict (<["badge" := PInt 1]> ∅)]> (<["sound" := PStr "x"]> ∅).

(** Keyword arguments whose [extra] is no dict. *)
Definition ex_bad_kwargs : Kwargs := <["extra" := PStr "x"]> ∅.

(** Keyword arguments that repeat a parameter of
    [create_notification_for], and ones that repeat a keyword of the
    Apple-style calls. *)
Definition ex_devices_kwargs : Kwargs := <["devices" := PInt 1]> ∅.

Definition ex_alert_kwargs : Kwargs := <["alert" := PStr "x"]> ∅.

(** The stray device as an instance of the Google-style class. *)
Definition ex_stray_gcm : Instance :=
  mkInstance GCMDevice (Some 4%nat) ex_stray_fields.

(** The stored fields of device 2. *)
Definition ex_gcm_fields : Fields := ex_fields "B" "reg-b" true Device_GCM.

(** The text of a user, for the examples. *)
Definition ex_user_str (u : nat) : string := "user".

(** The stored row of device 3, and the collection holding it alone. *)
Definition ex_inactive_fields : Fields :=
  ex_fields "C" "reg-c" false Device_APNS.

Definition ex_inactive_only : QuerySet :=
  qs_filter (id__in [3%nat]) Device_objects.

(** ** Running the monad *)

Lemma bind_unfold {A B} (m : M A) (k : A → M B) (w : World) :
  (m ≫= k) w = match m w with
               | (w', Ok a) => k a w'
               | (w', Raise e) => (w', Raise e)
               end.
Proof. reflexivity. Qed.

Ltac run_monad :=
  unfold mbind, M_bind, bind, mret, M_ret, ret, raise, get, modify, fetch.

Lemma filter_andb {A} (p q : A → bool) (l : list A) :
  List.filter (λ x, p x && q x) l = List.filter q (List.filter p l).
Proof.
  induction l as [|x l IH]; [reflexivity|].
  cbn. destruct (p x); cbn; [destruct (q x)|]; rewrite IH; reflexivity.
Qed.

Lemma truthy_nonempty {A} (l : list A) : l ≠ [] → truthy l = true.
Proof. destruct l; [congruence | reflexivity]. Qed.

Lemma mapM_pk_instance_of (model : Model) (rows : list Row) :
  mapM pk (map (instance_of model) rows) = Some (map row_pk rows).
Proof.
  induction rows as [|r rows IH]; [reflexivity|].
  cbn. cbn in IH. rewrite IH. reflexivity.
Qed.

Lemma alter_last (f : Notification → Notification)
    (ns : list Notification) (n : Notification) :
  alter f (length ns) (ns ++ [n]) = ns ++ [f n].
Proof.
  induction ns as [|x ns IH]; [reflexivity|].
  cbn. f_equal. exact IH.
Qed.

Lemma with_devices_new (pks : list nat) (m : option string) (kw : string)
    (now : Z) :
  with_devices pks (mkNotification ∅ m kw now) =
  mkNotification (list_to_set pks) m kw now.
Proof. unfold with_devices; cbn. f_equal. apply (left_id_L ∅ (∪)). Qed.

Lemma merge_message_world (data : pyval) (message : option string)
    (w w1 : World) (r : result pyval) :
  merge_message data message w = (w1, r) → w1 = w.
Proof.
  unfold merge_message, setitem. destruct message, data; run_monad;
    intros [= <- _]; reflexivity.
Qed.

Lemma extra_is_dict_merge (m : string) (kwargs : Kwargs) :
  extra_is_dict kwargs = true →
  merge_message (fst (pop_extra kwargs)) (Some m) = mret (gcm_payload m kwargs).
Proof.
  unfold extra_is_dict, gcm_payload, extra_dict, pop_extra. cbn.
  destruct (kwargs !! "extra") as [[]|]; cbn; congruence.
Qed.

Lemma extra_is_dict_seen (m : string) (kwargs : Kwargs) :
  extra_is_dict (seen_by_caller kwargs (gcm_payload m kwargs)) = true.
Proof.
  unfold seen_by_caller, extra_is_dict.
  destruct (kwargs !! "extra") as [v|] eqn:E.
  - rewrite lookup_insert_eq. reflexivity.
  - rewrite E. reflexivity.
Qed.

Lemma bind_ret_bind {A B C} (m : M A) (b : B) (k : B → M C) (w : World) :
  ((m ≫= λ _, mret b) ≫= k) w = (m ≫= λ _, k b) w.
Proof.
  unfold mbind, M_bind, bind, mret, M_ret, ret.
  destruct (m w) as [w1 [a|e]]; reflexivity.
Qed.

Lemma merge_message_raises data message w e :
  snd (merge_message data message w) = Raise e → e = TypeError.
Proof.
  unfold merge_message, setitem. destruct message, data; cbn; congruence.
Qed.

(** *** Keyword binding *)

Lemma repeats_false (bound : list string) (kwargs : Kwargs) :
  repeats bound kwargs = false ↔ ∀ k, In k bound → kwargs !! k = None.
Proof.
  unfold repeats. rewrite <- not_true_iff_false, existsb_exists. split.
  - intros H k Hk. destruct (kwargs !! k) as [v|] eqn:E; [|reflexivity].
    exfalso. apply H. exists k. split; [exact Hk|].
    apply bool_decide_eq_true. rewrite E. eauto.
  - intros H (k & Hk & Hb). apply bool_decide_eq_true in Hb.
    rewrite (H k Hk) in Hb. destruct Hb as [v Hv]. discriminate.
Qed.

Lemma record_binds_true (kwargs : Kwargs) :
  record_binds kwargs = true → repeats record_parameters kwargs = false.
Proof. unfold record_binds. apply negb_true_iff. Qed.

Lemma record_binds_false (kwargs : Kwargs) :
  record_binds kwargs = false → repeats record_parameters kwargs = true.
Proof. unfold record_binds. apply negb_false_iff. Qed.

Lemma keywords_bind_record (kwargs : Kwargs) :
  keywords_bind kwargs = true → record_binds kwargs = true.
Proof. unfold keywords_bind. intros [H _]%andb_true_iff. exact H. Qed.

(** The keywords bind at each of the four provider calls, which unpack
    [kwargs] as given or without [extra]. *)
Lemma keywords_bind_call (kwargs : Kwargs) (c : Call) :
  keywords_bind kwargs = true →
  call_kwargs c = kwargs ∨ call_kwargs c = delete "extra" kwargs →
  repeats (call_keywords c) (call_kwargs c) = false.
Proof.
  unfold keywords_bind. intros [_ Hb%negb_true_iff]%andb_true_iff Hc.
  apply repeats_false. intros k Hk.
  assert (Hn : kwargs !! k = None).
  { apply (proj1 (repeats_false client_keywords kwargs) Hb).
    destruct c; cbn in Hk; destruct Hk as [<-|[<-|[]]]; cbn; tauto. }
  destruct Hc as [-> | ->]; [exact Hn|].
  apply lookup_delete_None. right. exact Hn.
Qed.

Lemma repeats_seen (bound : list string) (kwargs : Kwargs) (d : pyval) :
  repeats bound (seen_by_caller kwargs d) = repeats bound kwargs.
Proof.
  unfold seen_by_caller.
  destruct (kwargs !! "extra") as [x|] eqn:E; [|reflexivity].
  unfold repeats. induction bound as [|k bound IH]; [reflexivity|].
  cbn. rewrite IH. f_equal. apply bool_decide_ext.
  destruct (decide (k = "extra")) as [->|Hn].
  - rewrite lookup_insert_eq, E. split; eauto.
  - rewrite lookup_insert_ne by congruence. reflexivity.
Qed.

Lemma keywords_bind_seen (kwargs : Kwargs) (d : pyval) :
  keywords_bind (seen_by_caller kwargs d) = keywords_bind kwargs.
Proof. unfold keywords_bind, record_binds. rewrite !repeats_seen. reflexivity. Qed.

(** *** Grouping by provider tag *)

Lemma dict_keys_set {V} (d : list (Z * V)) (key : Z) (v : V) :
  dict_keys (dict_set d key v) =
  if decide (key ∈ dict_keys d) then dict_keys d else dict_keys d ++ [key].
Proof.
  unfold dict_keys.
  induction d as [|[k v'] d IH]; cbn.
  - rewrite decide_False; [reflexivity|]. apply not_elem_of_nil.
  - destruct (decide (k = key)) as [->|Hne]; cbn.
    + rewrite decide_True; [reflexivity|]. left.
    + rewrite IH.
      destruct (decide (key ∈ map fst d)) as [Hi|Hi].
      * rewrite decide_True; [reflexivity|]. right. exact Hi.
      * rewrite decide_False; [reflexivity|].
        intros [?|?]%elem_of_cons; [congruence|contradiction].
Qed.

Lemma dict_get_set {V} (d : list (Z * V)) (key key' : Z) (v dflt : V) :
  dict_get (dict_set d key v) key' dflt =
  if decide (key = key') then v else dict_get d key' dflt.
Proof.
  induction d as [|[k v'] d IH]; cbn.
  - destruct (decide (key = key')); reflexivity.
  - destruct (decide (k = key)) as [->|Hne]; cbn.
    + destruct (decide (key = key')); reflexivity.
    + rewrite IH. destruct (decide (k = key')) as [->|];
        destruct (decide (key = key')); congruence.
Qed.

Lemma group_by_type_snoc pairs id t :
  group_by_type (pairs ++ [(id, t)]) =
  dict_set (group_by_type pairs) t
    (dict_get (group_by_type pairs) t [] ++ [id]).
Proof. unfold group_by_type. rewrite fold_left_app. reflexivity. Qed.

Lemma group_by_type_get pairs t :
  dict_get (group_by_type pairs) t [] = ids_of_type t pairs.
Proof.
  induction pairs as [|[id t'] pairs IH] using rev_ind; [reflexivity|].
  rewrite group_by_type_snoc, dict_get_set. unfold ids_of_type.
  rewrite List.filter_app, List.map_app. cbn.
  destruct (decide (t' = t)) as [->|Hne].
  - rewrite bool_decide_eq_true_2 by reflexivity. cbn.
    rewrite IH. reflexivity.
  - rewrite bool_decide_eq_false_2 by exact Hne. cbn.
    rewrite app_nil_r. exact IH.
Qed.

Lemma group_by_type_keys pairs t :
  In t (dict_keys (group_by_type pairs)) ↔ In t (map snd pairs).
Proof.
  induction pairs as [|[id t'] pairs IH] using rev_ind; [reflexivity|].
  rewrite group_by_type_snoc, dict_keys_set, List.map_app, in_app_iff. cbn.
  destruct (decide _) as [Hi|Hi].
  - rewrite IH. split; [tauto|]. intros [H|[<-|[]]]; [exact H|].
    apply IH, list_elem_of_In. exact Hi.
  - rewrite in_app_iff, IH. cbn. tauto.
Qed.

Lemma group_by_type_NoDup pairs : NoDup (dict_keys (group_by_type pairs)).
Proof.
  induction pairs as [|[id t'] pairs IH] using rev_ind; [constructor|].
  rewrite group_by_type_snoc, dict_keys_set.
  destruct (decide _) as [Hi|Hi]; [exact IH|].
  apply NoDup_app; repeat split.
  - exact IH.
  - intros x Hx Hx'. apply list_elem_of_singleton in Hx' as ->. exact (Hi Hx).
  - apply NoDup_singleton.
Qed.

Lemma get_device_model_by_type_tag model :
  get_device_model_by_type (tag_of model) = Some model.
Proof. destruct model; reflexivity. Qed.

Lemma get_device_model_by_type_Some t model :
  get_device_model_by_type t = Some model → t = tag_of model.
Proof.
  unfold get_device_model_by_type.
  destruct (decide (t = Device_APNS)); [intros [= <-]; assumption|].
  destruct (decide (t = Device_GCM)); [intros [= <-]; assumption|].
  discriminate.
Qed.

Lemma get_device_model_by_type_None t :
  get_device_model_by_type t = None ↔ t ≠ Device_APNS ∧ t ≠ Device_GCM.
Proof.
  unfold get_device_model_by_type.
  destruct (decide (t = Device_APNS)); [split; [discriminate|tauto]|].
  destruct (decide (t = Device_GCM)); [split; [discriminate|tauto]|].
  tauto.
Qed.

Lemma pk_inj table r r' :
  NoDup (map row_pk table) → In r table → In r' table →
  row_pk r = row_pk r' → r = r'.
Proof.
  induction table as [|x table IH]; [intros _ []|].
  cbn. intros [Hx Hnd]%NoDup_cons [->|Hr] [->|Hr'] Hpk.
  - reflexivity.
  - exfalso. apply Hx. rewrite Hpk. apply list_elem_of_In, in_map, Hr'.
  - exfalso. apply Hx. rewrite <- Hpk. apply list_elem_of_In, in_map, Hr.
  - exact (IH Hnd Hr Hr' Hpk).
Qed.

Lemma ids_of_type_pairs t rows k :
  In k (ids_of_type t (values_list_pk_device_type rows)) ↔
  ∃ r, In r rows ∧ device_type (row_fields r) = t ∧ row_pk r = k.
Proof.
  unfold ids_of_type, values_list_pk_device_type. rewrite in_map_iff. split.
  - intros ([k' t'] & <- & H). apply filter_In in H as [H Ht].
    apply in_map_iff in H as (r & [= <- <-] & Hr).
    apply bool_decide_eq_true in Ht. exists r. cbn in *. tauto.
  - intros (r & Hr & <- & <-).
    exists (row_pk r, device_type (row_fields r)). split; [reflexivity|].
    apply filter_In. split; [|apply bool_decide_eq_true; reflexivity].
    apply in_map_iff. exists r. tauto.
Qed.

Lemma types_of_pairs t rows :
  In t (map snd (values_list_pk_device_type rows)) ↔
  ∃ r, In r rows ∧ device_type (row_fields r) = t.
Proof.
  unfold values_list_pk_device_type. rewrite List.map_map. cbn. rewrite in_map_iff.
  split; intros (r & H1 & H2); exists r; tauto.
Qed.

Lemma rows_of_type_In t rows r :
  In r (rows_of_type t rows) ↔ In r rows ∧ device_type (row_fields r) = t.
Proof.
  unfold rows_of_type, device_type_is.
  rewrite filter_In, bool_decide_eq_true. reflexivity.
Qed.

(** The rows a group's queryset selects are the rows of that type in
    the collection the ids were drawn from. *)
Lemma group_rows qs w w' model :
  NoDup (map row_pk (w_devices w)) →
  w_devices w' = w_devices w →
  rows_of
    (qs_filter
       (id__in (dict_get (group_by_type (values_list_pk_device_type (rows_of qs w)))
                  (tag_of model) []))
       (objects model)) w' =
  rows_of_type (tag_of model) (rows_of qs w).
Proof.
  intros Hnd Hw. rewrite group_by_type_get.
  unfold rows_of at 1, rows_of_type. rewrite Hw.
  unfold rows_of at 2. rewrite <- filter_andb.
  apply filter_ext_in. intros r Hr.
  assert (E : qs_where (objects model) r = device_type_is (tag_of model) r)
    by (destruct model; reflexivity).
  cbn [qs_filter qs_where]. rewrite E.
  destruct (device_type_is (tag_of model) r) eqn:Ht;
    [|rewrite andb_false_r; reflexivity].
  rewrite andb_true_r. cbn [andb]. unfold id__in.
  apply bool_decide_eq_true in Ht.
  destruct (qs_where qs r) eqn:Hq.
  - apply bool_decide_eq_true, list_elem_of_In, ids_of_type_pairs.
    exists r. repeat split; [|exact Ht].
    apply filter_In. split; assumption.
  - apply bool_decide_eq_false. intros Hin.
    apply list_elem_of_In, ids_of_type_pairs in Hin as (r' & Hr' & _ & Hpk).
    apply filter_In in Hr' as [Hr' Hq'].
    assert (r' = r) by exact (pk_inj _ _ _ Hnd Hr' Hr Hpk). congruence.
Qed.

Lemma two_keys (keys : list Z) :
  NoDup keys →
  (∀ t, In t keys ↔ t = Device_APNS ∨ t = Device_GCM) →
  keys = [Device_APNS; Device_GCM] ∨ keys = [Device_GCM; Device_APNS].
Proof.
  unfold Device_APNS, Device_GCM. intros Hnd Hk.
  assert (H0 : In 0 keys) by (apply Hk; tauto).
  assert (H1 : In 1 keys) by (apply Hk; tauto).
  destruct keys as [|a [|b [|c keys]]].
  - destruct H0.
  - cbn in H0, H1. lia.
  - apply NoDup_cons in Hnd as [Hab _].
    rewrite list_elem_of_singleton in Hab. cbn in H0, H1.
    assert (a = 0 ∧ b = 1 ∨ a = 1 ∧ b = 0) as [[-> ->]|[-> ->]] by lia;
      tauto.
  - exfalso.
    apply NoDup_cons in Hnd as [Ha Hnd]. apply NoDup_cons in Hnd as [Hb Hnd].
    assert (a ≠ b) by (intros ->; apply Ha; left).
    assert (a ≠ c) by (intros ->; apply Ha; right; left).
    assert (b ≠ c) by (intros ->; apply Hb; left).
    assert (A : a = 0 ∨ a = 1) by (apply Hk; cbn; tauto).
    assert (B : b = 0 ∨ b = 1) by (apply Hk; cbn; tauto).
    assert (C : c = 0 ∨ c = 1) by (apply Hk; cbn; tauto).
    lia.
Qed.

(** *** The device table as a frame *)

Lemma keeps_ret {A} (a : A) : keeps_devices (mret a).
Proof. intros w. reflexivity. Qed.

Lemma keeps_raise {A} (e : exn) : keeps_devices (@raise A e).
Proof. intros w. reflexivity. Qed.

Lemma keeps_bind {A B} (m : M A) (k : A → M B) :
  keeps_devices m → (∀ a, keeps_devices (k a)) → keeps_devices (m ≫= k).
Proof.
  intros Hm Hk w. rewrite bind_unfold. specialize (Hm w).
  destruct (m w) as [w' [a|e]]; cbn in *; [|exact Hm].
  rewrite Hk. exact Hm.
Qed.

Lemma keeps_fetch qs : keeps_devices (fetch qs).
Proof. intros w. reflexivity. Qed.

Lemma keeps_merge_message data message :
  keeps_devices (merge_message data message).
Proof.
  intros w. destruct (merge_message data message w) as [w1 r] eqn:E.
  apply merge_message_world in E. subst. reflexivity.
Qed.

Create HintDb frame discriminated.
#[global] Hint Resolve keeps_ret keeps_raise keeps_fetch keeps_merge_message
  : frame.

Ltac frame_steps :=
  repeat first
    [ solve [eauto with frame]
    | apply keeps_bind; [| intros ?] ].

Lemma keeps_bind_keywords bound kwargs :
  keeps_devices (bind_keywords bound kwargs).
Proof. intros w. unfold bind_keywords. destruct (repeats _ _); reflexivity. Qed.

#[global] Hint Resolve keeps_bind_keywords : frame.

Section CoreFacts.

Variable json_dumps : Kwargs → string.
Variable client : World → Call → Response.

(** *** Provider calls *)

Lemma call_run (c : Call) (w : World) :
  call client c w =
  if repeats (call_keywords c) (call_kwargs c) then (w, Raise TypeError)
  else (log (Called c) w,
        match client w c with
        | Returned v => Ok v
        | Failed e => Raise (ProviderError e)
        end).
Proof.
  unfold call, bind_keywords, enter.
  destruct (repeats _ _); [reflexivity|].
  rewrite bind_unfold. cbn. destruct (client w c); reflexivity.
Qed.

Lemma call_bound (c : Call) (w : World) :
  repeats (call_keywords c) (call_kwargs c) = false →
  call client c w =
  (log (Called c) w,
   match client w c with
   | Returned v => Ok v
   | Failed e => Raise (ProviderError e)
   end).
Proof. intros H. rewrite call_run, H. reflexivity. Qed.

Lemma call_then_ret {A} (c : Call) (g : pyval → A) (w : World) :
  repeats (call_keywords c) (call_kwargs c) = false →
  (call client c ≫= λ v, mret (g v)) w =
  (log (Called c) w,
   match client w c with
   | Returned v => Ok (g v)
   | Failed e => Raise (ProviderError e)
   end).
Proof.
  intros H. rewrite bind_unfold, (call_bound c w H).
  destruct (client w c); reflexivity.
Qed.

(** *** The record *)

(** [create_notification_for]: nothing is stored when the keywords do
    not bind or the message is [None]; otherwise the record is stored,
    also when relating the devices fails. *)
Lemma create_run target message kwargs w :
  create_notification_for json_dumps target message kwargs w =
  if repeats record_parameters kwargs then (w, Raise TypeError)
  else match message with
       | None => (w, Raise IntegrityError)
       | Some m =>
           (recorded json_dumps (target_keys target w) (Some m) kwargs w,
            related target)
       end.
Proof.
  unfold create_notification_for, bind_keywords.
  destruct (repeats record_parameters kwargs); [reflexivity|].
  destruct message as [m|]; [|reflexivity].
  destruct target as [[c [k|] f]|qs];
    unfold Notification_save, devices_add; run_monad.
  - cbn -[alter]. unfold set_notifications, log, recorded, own_key.
    cbn -[alter]. rewrite alter_last, with_devices_new. cbn.
    rewrite (right_id_L ∅ (∪)). reflexivity.
  - reflexivity.
  - cbn -[alter mapM]. rewrite mapM_pk_instance_of.
    unfold set_notifications, log, recorded, rows_of, pks_of. cbn -[alter].
    rewrite alter_last, with_devices_new. reflexivity.
Qed.

Lemma create_text target (m : string) kwargs w :
  record_binds kwargs = true →
  create_notification_for json_dumps target (Some m) kwargs w =
  (recorded json_dumps (target_keys target w) (Some m) kwargs w,
   related target).
Proof. intros H. rewrite create_run, (record_binds_true _ H). reflexivity. Qed.

Lemma create_clash target message kwargs w :
  record_binds kwargs = false →
  create_notification_for json_dumps target message kwargs w =
  (w, Raise TypeError).
Proof. intros H. rewrite create_run, (record_binds_false _ H). reflexivity. Qed.

Lemma create_None target kwargs w :
  record_binds kwargs = true →
  create_notification_for json_dumps target None kwargs w =
  (w, Raise IntegrityError).
Proof. intros H. rewrite create_run, (record_binds_true _ H). reflexivity. Qed.

(** The two ways a record can end: nothing stored, or the record of a
    text message. *)
Lemma create_cases target message kwargs w :
  (∃ e, create_notification_for json_dumps target message kwargs w =
        (w, Raise e) ∧
        (e = TypeError ∨ e = IntegrityError) ∧
        (record_binds kwargs = false ∨ message = None)) ∨
  (∃ m, message = Some m ∧ record_binds kwargs = true ∧
        create_notification_for json_dumps target message kwargs w =
        (recorded json_dumps (target_keys target w) (Some m) kwargs w,
         related target)).
Proof.
  destruct (record_binds kwargs) eqn:Hb.
  - destruct message as [m|].
    + right. exists m. repeat split. apply create_text, Hb.
    + left. exists IntegrityError. rewrite create_None by exact Hb. tauto.
  - left. exists TypeError. rewrite create_clash by exact Hb. tauto.
Qed.

Lemma create_devices target message kwargs w :
  w_devices (fst (create_notification_for json_dumps target message kwargs w))
  = w_devices w.
Proof.
  rewrite create_run. destruct (repeats _ _); [reflexivity|].
  destruct message; reflexivity.
Qed.

Lemma create_ext target target' message kwargs w :
  target_keys target w = target_keys target' w →
  related target = related target' →
  create_notification_for json_dumps target message kwargs w =
  create_notification_for json_dumps target' message kwargs w.
Proof. intros E1 E2. rewrite !create_run, E1, E2. reflexivity. Qed.

(** *** Bulk sends of one provider *)

(** The Google-style bulk send on a non-empty collection. *)
Lemma GCM_bulk_run qs message kwargs w :
  rows_of qs w ≠ [] →
  GCMDeviceQuerySet_send_message json_dumps client qs message kwargs w =
  (_ ← create_notification_for json_dumps (Many qs) message kwargs;
   data ← merge_message (fst (pop_extra kwargs)) message;
   v ← call client
         (gcm_send_bulk_message (reg_ids_of (active_rows (rows_of qs w)))
            data (delete "extra" kwargs));
   mret (seen_by_caller kwargs data, v)) w.
Proof.
  intros Hne. unfold GCMDeviceQuerySet_send_message.
  rewrite bind_unfold. unfold fetch at 1. cbn beta iota.
  fold (rows_of qs w). rewrite (truthy_nonempty _ Hne).
  rewrite !(bind_unfold (create_notification_for _ _ _ _)).
  pose proof (create_devices (Many qs) message kwargs w) as Hd.
  destruct (create_notification_for _ _ _ _ w) as [w1 [[]|e]]; [|reflexivity].
  cbn [fst] in Hd. unfold pop_extra. cbn [fst snd].
  rewrite !(bind_unfold (merge_message _ _)).
  destruct (merge_message _ message w1) as [w2 [data|e]] eqn:E; [|reflexivity].
  assert (w2 = w1) as -> by exact (merge_message_world _ _ _ _ _ E).
  rewrite bind_unfold. unfold fetch at 1.
  cbn [qs_filter qs_where]. rewrite Hd, filter_andb. reflexivity.
Qed.

Lemma APNS_bulk_run qs message kwargs w :
  rows_of qs w ≠ [] →
  APNSDeviceQuerySet_send_message json_dumps client qs message kwargs w =
  (_ ← create_notification_for json_dumps (Many qs) message kwargs;
   v ← call client
         (apns_send_bulk_message (reg_ids_of (active_rows (rows_of qs w)))
            message kwargs);
   mret (kwargs, v)) w.
Proof.
  intros Hne. unfold APNSDeviceQuerySet_send_message.
  rewrite bind_unfold. unfold fetch at 1. cbn beta iota.
  fold (rows_of qs w). rewrite (truthy_nonempty _ Hne).
  rewrite !(bind_unfold (create_notification_for _ _ _ _)).
  pose proof (create_devices (Many qs) message kwargs w) as Hd.
  destruct (create_notification_for _ _ _ _ w) as [w1 [[]|e]]; [|reflexivity].
  cbn [fst] in Hd.
  rewrite bind_unfold. unfold fetch at 1.
  cbn [qs_filter qs_where]. rewrite Hd, filter_andb. reflexivity.
Qed.

(** Bulk sends on a non-empty collection, for a text message, keywords
    that bind and a well-formed [extra]. *)
Lemma GCM_bulk_text qs m kwargs w :
  rows_of qs w ≠ [] →
  keywords_bind kwargs = true →
  extra_is_dict kwargs = true →
  let w1 := recorded json_dumps (pks_of (rows_of qs w)) (Some m) kwargs w in
  let c := gcm_send_bulk_message (reg_ids_of (active_rows (rows_of qs w)))
             (gcm_payload m kwargs) (delete "extra" kwargs) in
  GCMDeviceQuerySet_send_message json_dumps client qs (Some m) kwargs w =
  (log (Called c) w1,
   match client w1 c with
   | Returned v => Ok (seen_by_caller kwargs (gcm_payload m kwargs), v)
   | Failed e => Raise (ProviderError e)
   end).
Proof.
  intros Hne Hb Hx w1 c. rewrite GCM_bulk_run by exact Hne.
  rewrite bind_unfold, create_text by exact (keywords_bind_record _ Hb).
  cbn [related target_keys].
  rewrite (extra_is_dict_merge m kwargs Hx).
  change (mret (gcm_payload m kwargs) ≫= ?k) with (k (gcm_payload m kwargs)).
  apply (call_then_ret c (λ v, (seen_by_caller kwargs (gcm_payload m kwargs), v))).
  apply (keywords_bind_call kwargs c Hb). right. reflexivity.
Qed.

Lemma GCM_bulk_bad_extra qs m kwargs w :
  rows_of qs w ≠ [] →
  record_binds kwargs = true →
  extra_is_dict kwargs = false →
  GCMDeviceQuerySet_send_message json_dumps client qs (Some m) kwargs w =
  (recorded json_dumps (pks_of (rows_of qs w)) (Some m) kwargs w,
   Raise TypeError).
Proof.
  intros Hne Hb Hx. rewrite GCM_bulk_run by exact Hne.
  rewrite bind_unfold, create_text by exact Hb.
  cbn [related target_keys].
  rewrite bind_unfold. unfold extra_is_dict in Hx.
  unfold pop_extra, merge_message, setitem. cbn [fst].
  destruct (kwargs !! "extra") as [[]|]; cbn; try discriminate; reflexivity.
Qed.

Lemma APNS_bulk_text qs m kwargs w :
  rows_of qs w ≠ [] →
  keywords_bind kwargs = true →
  let w1 := recorded json_dumps (pks_of (rows_of qs w)) (Some m) kwargs w in
  let c := apns_send_bulk_message (reg_ids_of (active_rows (rows_of qs w)))
             (Some m) kwargs in
  APNSDeviceQuerySet_send_message json_dumps client qs (Some m) kwargs w =
  (log (Called c) w1,
   match client w1 c with
   | Returned v => Ok (kwargs, v)
   | Failed e => Raise (ProviderError e)
   end).
Proof.
  intros Hne Hb w1 c. rewrite APNS_bulk_run by exact Hne.
  rewrite bind_unfold, create_text by exact (keywords_bind_record _ Hb).
  cbn [related target_keys].
  apply (call_then_ret c (λ v, (kwargs, v))).
  apply (keywords_bind_call kwargs c Hb). left. reflexivity.
Qed.

Lemma proxy_bulk_empty model qs message kwargs w :
  rows_of qs w = [] →
  proxy_bulk_send_message json_dumps client model qs message kwargs w =
  (w, Ok (kwargs, PNone)).
Proof.
  intros He. destruct model; cbn [proxy_bulk_send_message];
    unfold GCMDeviceQuerySet_send_message, APNSDeviceQuerySet_send_message;
    rewrite bind_unfold; unfold fetch; cbn beta iota;
    fold (rows_of qs w); rewrite He; reflexivity.
Qed.

(** Every way a bulk send of one provider over a non-empty collection
    can end: without a record and with the world untouched; or with the
    record of all the rows, after which it raised before the client was
    entered, or entered the provider's bulk client with the registration
    ids of the active rows and ended as the client did. *)
Lemma proxy_bulk_outcome p qs message kwargs w :
  rows_of qs w ≠ [] →
  let out := proxy_bulk_send_message json_dumps client p qs message kwargs w in
  (fst out = w ∧
   (snd out = Raise TypeError ∨ snd out = Raise IntegrityError) ∧
   (record_binds kwargs = false ∨ message = None)) ∨
  (∃ m, message = Some m ∧ record_binds kwargs = true ∧
     let w1 := recorded json_dumps (pks_of (rows_of qs w)) (Some m) kwargs w in
     ((fst out = w1 ∧ snd out = Raise TypeError) ∨
      (∃ c, bulk_call_of p (reg_ids_of (active_rows (rows_of qs w))) c ∧
            fst out = log (Called c) w1 ∧
            match client w1 c with
            | Returned v => ∃ kwargs', snd out = Ok (kwargs', v)
            | Failed e => snd out = Raise (ProviderError e)
            end))).
Proof.
  intros Hne out. unfold out. clear out.
  assert (Hrun :
    proxy_bulk_send_message json_dumps client p qs message kwargs w =
    (_ ← create_notification_for json_dumps (Many qs) message kwargs;
     match p with
     | APNSDevice =>
         v ← call client
               (apns_send_bulk_message
                  (reg_ids_of (active_rows (rows_of qs w))) message kwargs);
         mret (kwargs, v)
     | GCMDevice =>
         data ← merge_message (fst (pop_extra kwargs)) message;
         v ← call client
               (gcm_send_bulk_message
                  (reg_ids_of (active_rows (rows_of qs w))) data
                  (delete "extra" kwargs));
         mret (seen_by_caller kwargs data, v)
     end) w).
  { destruct p; cbn [proxy_bulk_send_message];
      [apply APNS_bulk_run | apply GCM_bulk_run]; exact Hne. }
  rewrite Hrun, bind_unfold. clear Hrun.
  destruct (create_cases (Many qs) message kwargs w)
    as [(e & -> & He & Hwhy)|(m & -> & Hb & ->)].
  - left. cbn. repeat split; [|exact Hwhy].
    destruct He as [-> | ->]; tauto.
  - right. exists m. split; [reflexivity|]. split; [exact Hb|].
    cbn [related target_keys]. cbv zeta.
    set (w1 := recorded json_dumps (pks_of (rows_of qs w)) (Some m) kwargs w).
    destruct p.
    + rewrite bind_unfold, call_run.
      destruct (repeats _ _); [left; split; reflexivity|].
      right.
      exists (apns_send_bulk_message
                (reg_ids_of (active_rows (rows_of qs w))) (Some m) kwargs).
      split; [reflexivity|]. cbn [fst snd].
      destruct (client w1 _); cbn; eauto.
    + rewrite bind_unfold.
      destruct (merge_message _ _ w1) as [w2 [d|e]] eqn:Em.
      * apply merge_message_world in Em as ->.
        rewrite bind_unfold, call_run.
        destruct (repeats _ _); [left; split; reflexivity|].
        right.
        exists (gcm_send_bulk_message
                  (reg_ids_of (active_rows (rows_of qs w))) d
                  (delete "extra" kwargs)).
        split; [reflexivity|]. cbn [fst snd].
        destruct (client w1 _); cbn; eauto.
      * pose proof (merge_message_raises _ _ _ e
                      ltac:(rewrite Em; reflexivity)) as ->.
        apply merge_message_world in Em as ->.
        left. split; reflexivity.
Qed.

(** What a bulk send of one provider adds, whatever the message and
    the keyword arguments. *)
Lemma proxy_bulk_added p qs message kwargs w :
  let out := proxy_bulk_send_message json_dumps client p qs message kwargs w in
  ∃ ns t,
    w_notifications (fst out) = w_notifications w ++ ns ∧
    w_trace (fst out) = w_trace w ++ t ∧
    record_then_call (length (w_notifications w)) ns t ∧
    (∀ n, In n ns → devices n = pks_of (rows_of qs w)) ∧
    (∀ c, In (Called c) t →
          bulk_call_of p (reg_ids_of (active_rows (rows_of qs w))) c).
Proof.
  intros out. unfold out. clear out.
  destruct (rows_of qs w) as [|r0 rows0] eqn:E.
  - rewrite (proxy_bulk_empty p qs message kwargs w E).
    exists [], []. cbn. rewrite !app_nil_r.
    repeat split; [left; tauto | intros n [] | intros c []].
  - assert (Hne : rows_of qs w ≠ []) by (rewrite E; discriminate).
    pose proof (proxy_bulk_outcome p qs message kwargs w Hne) as H.
    cbv zeta in H. rewrite E in H.
    destruct H as [(-> & _)|(m & _ & _ & [(-> & _)|(c & Hc & -> & _)])].
    + exists [], []. rewrite !app_nil_r.
      repeat split; [left; tauto | intros n [] | intros c []].
    + cbn. eexists [_], [_].
      split; [reflexivity | split; [reflexivity|]]. split; [|split].
      * right. eexists. split; [reflexivity|]. left. reflexivity.
      * intros n [<-|[]]. reflexivity.
      * intros c [[=]|[]].
    + cbn. eexists [_], [_; _]. rewrite <- !app_assoc.
      split; [reflexivity | split; [reflexivity|]]. split; [|split].
      * right. eexists. split; [reflexivity|]. right. eauto.
      * intros n [<-|[]]. reflexivity.
      * intros c' [[=]|[[= <-]|[]]]. exact Hc.
Qed.

(** *** Bulk sends of one provider: the claims *)

(** C3. Whatever the message and the keyword arguments, a bulk send of
    either provider records at most one notification and makes at most
    one provider call after it; a notification it records holds every
    device of the collection, active or not, and a call it makes is the
    provider's bulk call with the registration ids of exactly the
    active devices.  Over a non-empty collection, for a text message
    and keywords that bind, the record is made and the Apple-style call
    is made; the Google-style call is made unless [extra] is given and
    is no dict: then the assignment of line 113 raises after the
    record. *)
Theorem bulk_records_all_sends_active (p : ProxyModel) qs message
    (m : string) kwargs w :
  let rows := rows_of qs w in
  let n := mkNotification (pks_of rows) (Some m) (json_dumps kwargs)
             (w_now w) in
  let regs := reg_ids_of (active_rows rows) in
  let id := length (w_notifications w) in
  let out := proxy_bulk_send_message json_dumps client p qs message
               kwargs w in
  let outg := GCMDeviceQuerySet_send_message json_dumps client qs
                (Some m) kwargs w in
  let outa := APNSDeviceQuerySet_send_message json_dumps client qs
                (Some m) kwargs w in
  (∀ k, k ∈ pks_of rows ↔ ∃ r, In r rows ∧ row_pk r = k) ∧
  (∀ s, In s regs ↔
        ∃ r, In r rows ∧ active (row_fields r) = true ∧
             registration_id (row_fields r) = s) ∧
  (∃ ns t,
     w_notifications (fst out) = w_notifications w ++ ns ∧
     w_trace (fst out) = w_trace w ++ t ∧
     record_then_call id ns t ∧
     (∀ n', In n' ns → devices n' = pks_of rows) ∧
     (∀ c, In (Called c) t → bulk_call_of p regs c)) ∧
  (rows ≠ [] → keywords_bind kwargs = true →
   w_notifications (fst outg) = w_notifications w ++ [n] ∧
   (if extra_is_dict kwargs
    then ∃ data rest,
           w_trace (fst outg) =
           w_trace w ++
             [Recorded id; Called (gcm_send_bulk_message regs data rest)]
    else w_trace (fst outg) = w_trace w ++ [Recorded id] ∧
         snd outg = Raise TypeError) ∧
   w_notifications (fst outa) = w_notifications w ++ [n] ∧
   (∃ alert rest,
      w_trace (fst outa) =
      w_trace w ++
        [Recorded id; Called (apns_send_bulk_message regs alert rest)])).
Proof.
  intros rows n regs id out outg outa.
  split; [|split; [|split]].
  - intros k. unfold pks_of.
    rewrite elem_of_list_to_set, list_elem_of_In, in_map_iff.
    split; intros (r & H1 & H2); exists r; tauto.
  - intros s. unfold regs, reg_ids_of, active_rows.
    rewrite in_map_iff. split.
    + intros (r & <- & Hr). apply filter_In in Hr as [Hr Ha].
      exists r. repeat split; [exact Hr|].
      unfold active_is in Ha. apply bool_decide_eq_true in Ha. exact Ha.
    + intros (r & Hr & Ha & <-). exists r. split; [reflexivity|].
      apply filter_In. split; [exact Hr|].
      unfold active_is. apply bool_decide_eq_true. exact Ha.
  - exact (proxy_bulk_added p qs message kwargs w).
  - intros Hne Hb. unfold outg, outa.
    rewrite (APNS_bulk_text qs m kwargs w Hne Hb).
    destruct (extra_is_dict kwargs) eqn:Hx.
    + rewrite (GCM_bulk_text qs m kwargs w Hne Hb Hx).
      cbn. rewrite <- !app_assoc. cbn. repeat split; eauto.
    + rewrite (GCM_bulk_bad_extra qs m kwargs w Hne
                 (keywords_bind_record _ Hb) Hx).
      cbn. rewrite <- !app_assoc. cbn. repeat split; eauto.
Qed.

(** C5, as the code has it. For a text message, a non-empty collection
    and keywords that bind: the Google-style bulk send takes [extra] (an
    empty dict when absent) out of the keyword arguments, stores the
    message in it under the key [message] and forwards the other
    keywords; the Apple-style bulk send takes nothing out: the message
    travels as [alert] and every keyword, [extra] included, is forwarded
    as given. *)
Theorem bulk_payload qs (m : string) kwargs w :
  rows_of qs w ≠ [] →
  keywords_bind kwargs = true →
  extra_is_dict kwargs = true →
  let regs := reg_ids_of (active_rows (rows_of qs w)) in
  let id := length (w_notifications w) in
  w_trace (fst (GCMDeviceQuerySet_send_message json_dumps client qs
                  (Some m) kwargs w)) =
    w_trace w ++
      [Recorded id;
       Called (gcm_send_bulk_message regs
                 (PDict (<["message" := PStr m]> (extra_dict kwargs)))
                 (delete "extra" kwargs))] ∧
  w_trace (fst (APNSDeviceQuerySet_send_message json_dumps client qs
                  (Some m) kwargs w)) =
    w_trace w ++
      [Recorded id; Called (apns_send_bulk_message regs (Some m) kwargs)].
Proof.
  intros Hne Hb Hx regs id.
  rewrite (GCM_bulk_text qs m kwargs w Hne Hb Hx).
  rewrite (APNS_bulk_text qs m kwargs w Hne Hb).
  cbn. rewrite <- !app_assoc. cbn. split; reflexivity.
Qed.

(** C6. A send over an empty collection does nothing: the world (and so
    the notification table and the trace of provider calls) is as
    before and the value is [None]. *)
Theorem empty_collection_noop qs message kwargs w :
  rows_of qs w = [] →
  DeviceQuerySet_send_message json_dumps client qs message kwargs w =
    (w, Ok PNone) ∧
  GCMDeviceQuerySet_send_message json_dumps client qs message kwargs w =
    (w, Ok (kwargs, PNone)) ∧
  APNSDeviceQuerySet_send_message json_dumps client qs message kwargs w =
    (w, Ok (kwargs, PNone)).
Proof.
  intros He. split; [|split].
  - unfold DeviceQuerySet_send_message.
    rewrite bind_unfold. unfold fetch. cbn beta iota.
    fold (rows_of qs w). rewrite He. reflexivity.
  - exact (proxy_bulk_empty GCMDevice qs message kwargs w He).
  - exact (proxy_bulk_empty APNSDevice qs message kwargs w He).
Qed.

(** *** No send writes the device table *)

Lemma keeps_call c : keeps_devices (call client c).
Proof.
  intros w. rewrite call_run. destruct (repeats _ _); reflexivity.
Qed.

Lemma keeps_create_notification_for target message kwargs :
  keeps_devices (create_notification_for json_dumps target message kwargs).
Proof. intros w. apply create_devices. Qed.

Hint Resolve keeps_call keeps_create_notification_for : frame.

Lemma keeps_GCM_bulk qs message kwargs :
  keeps_devices
    (GCMDeviceQuerySet_send_message json_dumps client qs message kwargs).
Proof.
  unfold GCMDeviceQuerySet_send_message.
  apply keeps_bind; [apply keeps_fetch|]. intros rows.
  destruct (truthy rows); [|apply keeps_ret].
  unfold pop_extra. frame_steps.
Qed.

Lemma keeps_APNS_bulk qs message kwargs :
  keeps_devices
    (APNSDeviceQuerySet_send_message json_dumps client qs message kwargs).
Proof.
  unfold APNSDeviceQuerySet_send_message.
  apply keeps_bind; [apply keeps_fetch|]. intros rows.
  destruct (truthy rows); [|apply keeps_ret].
  frame_steps.
Qed.

Lemma keeps_dispatch_groups devices keys message kwargs :
  keeps_devices
    (dispatch_groups json_dumps client devices keys message kwargs).
Proof.
  revert kwargs. induction keys as [|key keys IH]; intros kwargs; cbn.
  - apply keeps_ret.
  - destruct (get_device_model_by_type key) as [[]|]; [| |apply keeps_raise];
      (apply keeps_bind; [|intros r; apply IH]); cbn.
    + apply keeps_APNS_bulk.
    + apply keeps_GCM_bulk.
Qed.

Lemma keeps_DeviceQuerySet qs message kwargs :
  keeps_devices
    (DeviceQuerySet_send_message json_dumps client qs message kwargs).
Proof.
  unfold DeviceQuerySet_send_message.
  apply keeps_bind; [apply keeps_fetch|]. intros rows.
  destruct (truthy rows); [|apply keeps_ret].
  apply keeps_bind; [apply keeps_fetch|]. intros rows'.
  apply keeps_bind; [apply keeps_dispatch_groups|]. intros _. apply keeps_ret.
Qed.

Lemma keeps_Device_send_message (virtual : method) self message kwargs :
  (∀ s m kw, keeps_devices (virtual s m kw)) →
  keeps_devices (Device_send_message json_dumps virtual self message kwargs).
Proof.
  intros Hv. unfold Device_send_message.
  destruct (decide (class_ self ≠ Device)); frame_steps.
Qed.

Lemma keeps_resolve (virtual : method) self message kwargs :
  (∀ s m kw, keeps_devices (virtual s m kw)) →
  keeps_devices (resolve json_dumps client virtual self message kwargs).
Proof.
  intros Hv. unfold resolve.
  destruct (class_ self) as [|[]].
  - apply keeps_Device_send_message, Hv.
  - unfold APNSDevice_send_message.
    apply keeps_bind; [apply keeps_Device_send_message, Hv|].
    intros _. apply keeps_call.
  - unfold GCMDevice_send_message, pop_extra.
    apply keeps_bind; [apply keeps_Device_send_message, Hv|].
    intros _. frame_steps.
Qed.

Lemma keeps_send_message_at depth self message kwargs :
  keeps_devices (send_message_at json_dumps client depth self message kwargs).
Proof.
  revert self message kwargs.
  induction depth as [|d IH]; intros self message kwargs.
  - apply keeps_raise.
  - change (send_message_at json_dumps client (S d))
      with (resolve json_dumps client (send_message_at json_dumps client d)).
    apply keeps_resolve, IH.
Qed.

(** C9. No send path writes the device table: after a send on one
    instance (whatever its class) or on a collection (generic or of one
    provider), finished or failed, every stored device row is what it
    was. *)
Theorem send_keeps_device_table self qs message kwargs :
  keeps_devices (send_message json_dumps client self message kwargs) ∧
  keeps_devices
    (DeviceQuerySet_send_message json_dumps client qs message kwargs) ∧
  keeps_devices
    (GCMDeviceQuerySet_send_message json_dumps client qs message kwargs) ∧
  keeps_devices
    (APNSDeviceQuerySet_send_message json_dumps client qs message kwargs).
Proof.
  repeat split.
  - apply keeps_send_message_at.
  - apply keeps_DeviceQuerySet.
  - apply keeps_GCM_bulk.
  - apply keeps_APNS_bulk.
Qed.

(** *** Single-device sends *)

Lemma send_message_unfold :
  send_message json_dumps client =
  resolve json_dumps client
    (resolve json_dumps client (send_message_at json_dumps client 998)).
Proof. reflexivity. Qed.

Lemma Device_send_message_proxy virtual self message kwargs :
  class_ self ≠ Device →
  Device_send_message json_dumps virtual self message kwargs =
  (_ ← create_notification_for json_dumps (One self) message kwargs;
   mret PNone).
Proof.
  intros Hc. unfold Device_send_message.
  destruct (decide (class_ self ≠ Device)); [reflexivity | contradiction].
Qed.

Lemma resolve_proxy v1 v2 self message kwargs :
  class_ self ≠ Device →
  resolve json_dumps client v1 self message kwargs =
  resolve json_dumps client v2 self message kwargs.
Proof.
  intros Hc. unfold resolve.
  destruct (class_ self) as [|[]] eqn:E; [congruence| |];
    unfold APNSDevice_send_message, GCMDevice_send_message;
    rewrite !Device_send_message_proxy by congruence; reflexivity.
Qed.

Lemma class_provider_resolved self : class_ (provider_resolved self) ≠ Device.
Proof. unfold provider_resolved. destruct (decide _); cbn; congruence. Qed.

(** The generic path: retype, then the provider-specific send; the
    value of the inner send is dropped. *)
Lemma send_message_generic self message kwargs :
  class_ self = Device →
  send_message json_dumps client self message kwargs =
  (_ ← send_message json_dumps client (provider_resolved self) message kwargs;
   mret PNone).
Proof.
  intros Hc. rewrite send_message_unfold.
  unfold resolve at 1. rewrite Hc.
  unfold Device_send_message.
  destruct (decide (class_ self ≠ Device)); [congruence|].
  fold (provider_resolved self).
  rewrite (resolve_proxy _
             (resolve json_dumps client (send_message_at json_dumps client 998)))
    by apply class_provider_resolved.
  reflexivity.
Qed.

(** A send on an instance of a provider class. *)
Lemma send_message_proxy_run (p : ProxyModel) self message kwargs w :
  class_ self = Proxy p →
  send_message json_dumps client self message kwargs w =
  (_ ← create_notification_for json_dumps (One self) message kwargs;
   match p with
   | APNSDevice =>
       call client
         (apns_send_message (registration_id (fields self)) message kwargs)
   | GCMDevice =>
       data ← merge_message (fst (pop_extra kwargs)) message;
       call client
         (gcm_send_message (registration_id (fields self)) data
            (delete "extra" kwargs))
   end) w.
Proof.
  intros Hc. rewrite send_message_unfold. unfold resolve at 1. rewrite Hc.
  destruct p; unfold APNSDevice_send_message, GCMDevice_send_message;
    rewrite Device_send_message_proxy by congruence;
    exact (bind_ret_bind _ PNone (λ _, _) w).
Qed.

Lemma provider_resolved_proxy self :
  ∃ p : ProxyModel,
    provider_resolved self = set_class p self ∧
    (device_type (fields self) = Device_APNS → p = APNSDevice) ∧
    (device_type (fields self) ≠ Device_APNS → p = GCMDevice).
Proof.
  unfold provider_resolved.
  destruct (decide (device_type (fields self) = Device_APNS)).
  - exists APNSDevice. repeat split; tauto.
  - exists GCMDevice. repeat split; tauto.
Qed.

Lemma provider_resolved_Device k f :
  provider_resolved (mkInstance Device (Some k) f) =
  mkInstance
    (if decide (device_type f = Device_APNS) then APNSDevice else GCMDevice)
    (Some k) f.
Proof. unfold provider_resolved. cbn. destruct (decide _); reflexivity. Qed.

Lemma fst_bind_ret {A B} (m : M A) (b : B) (w : World) :
  fst ((m ≫= λ _, mret b) w) = fst (m w).
Proof. rewrite bind_unfold. destruct (m w) as [w' [a|e]]; reflexivity. Qed.

(** A send of a text message on a saved instance of a provider class,
    with keywords that bind and a well-formed [extra]. *)
Lemma proxy_single_text (p : ProxyModel) k f (m : string) kwargs w :
  keywords_bind kwargs = true →
  extra_is_dict kwargs = true →
  let w1 := recorded json_dumps {[k]} (Some m) kwargs w in
  let c := single_call p f m kwargs in
  send_message json_dumps client (mkInstance p (Some k) f) (Some m) kwargs w =
  (log (Called c) w1,
   match client w1 c with
   | Returned v => Ok v
   | Failed e => Raise (ProviderError e)
   end).
Proof.
  intros Hb Hx w1 c.
  rewrite (send_message_proxy_run p) by reflexivity.
  rewrite bind_unfold, create_text by exact (keywords_bind_record _ Hb).
  cbn [related target_keys own_key pk fields]. fold w1.
  destruct p; cbn [single_call] in c.
  - apply call_bound. apply (keywords_bind_call kwargs c Hb).
    left. reflexivity.
  - rewrite (extra_is_dict_merge m kwargs Hx).
    change (mret (gcm_payload m kwargs) ≫= ?g) with (g (gcm_payload m kwargs)).
    apply call_bound. apply (keywords_bind_call kwargs c Hb).
    right. reflexivity.
Qed.

(** The generic send on a saved device whose tag resolves to [p]. *)
Lemma generic_single_text (p : ProxyModel) k f (m : string) kwargs w :
  provider_resolved (mkInstance Device (Some k) f) =
    mkInstance p (Some k) f →
  keywords_bind kwargs = true →
  extra_is_dict kwargs = true →
  let w1 := recorded json_dumps {[k]} (Some m) kwargs w in
  let c := single_call p f m kwargs in
  send_message json_dumps client (mkInstance Device (Some k) f) (Some m)
    kwargs w =
  (log (Called c) w1,
   match client w1 c with
   | Returned _ => Ok PNone
   | Failed e => Raise (ProviderError e)
   end).
Proof.
  intros Hp Hb Hx w1 c. rewrite send_message_generic by reflexivity.
  rewrite Hp, bind_unfold, (proxy_single_text p k f m kwargs w Hb Hx).
  fold w1 c. destruct (client w1 c); reflexivity.
Qed.

Lemma provider_resolved_tag (p : ProxyModel) k f :
  device_type f = tag_of p →
  provider_resolved (mkInstance Device (Some k) f) = mkInstance p (Some k) f.
Proof.
  intros Ht. unfold provider_resolved, set_class. cbn [fields class_ pk].
  rewrite Ht. destruct p; reflexivity.
Qed.

Lemma provider_resolved_unknown k f :
  device_type f ≠ Device_APNS →
  provider_resolved (mkInstance Device (Some k) f) =
  mkInstance GCMDevice (Some k) f.
Proof.
  intros Ht. unfold provider_resolved, set_class. cbn [fields class_ pk].
  destruct (decide _); [contradiction | reflexivity].
Qed.

(** Every way a send on an instance of a provider class can end:
    without a record and with the world untouched; or with the record
    for the instance's key (for no device when it has none), after
    which it raised before the client was entered, or entered the
    provider's single-device client with the instance's registration id
    and ended as the client did. *)
Lemma proxy_single_outcome (p : ProxyModel) self message kwargs w :
  class_ self = Proxy p →
  let out := send_message json_dumps client self message kwargs w in
  (fst out = w ∧
   (snd out = Raise TypeError ∨ snd out = Raise IntegrityError) ∧
   (record_binds kwargs = false ∨ message = None)) ∨
  (∃ m, message = Some m ∧ record_binds kwargs = true ∧
     let w1 := recorded json_dumps (own_key self) (Some m) kwargs w in
     ((fst out = w1 ∧
       (snd out = Raise TypeError ∨ snd out = Raise ValueError)) ∨
      (∃ c k, pk self = Some k ∧
              call_registration_ids c = [registration_id (fields self)] ∧
              is_bulk_call c = false ∧
              fst out = log (Called c) w1 ∧
              snd out = match client w1 c with
                        | Returned v => Ok v
                        | Failed e => Raise (ProviderError e)
                        end))).
Proof.
  intros Hc out. unfold out. clear out.
  rewrite (send_message_proxy_run p) by exact Hc.
  rewrite bind_unfold.
  destruct (create_cases (One self) message kwargs w)
    as [(e & -> & He & Hwhy)|(m & -> & Hb & ->)].
  - left. cbn. repeat split; [|exact Hwhy].
    destruct He as [-> | ->]; tauto.
  - right. exists m. split; [reflexivity|]. split; [exact Hb|].
    cbn [related target_keys]. cbv zeta.
    set (w1 := recorded json_dumps (own_key self) (Some m) kwargs w).
    destruct (pk self) as [k|] eqn:Hk; [|left; split; [reflexivity|tauto]].
    destruct p.
    + rewrite call_run.
      destruct (repeats _ _); [left; split; [reflexivity|tauto]|].
      right.
      exists (apns_send_message (registration_id (fields self)) (Some m)
                kwargs), k.
      repeat split.
    + rewrite bind_unfold.
      destruct (merge_message _ _ w1) as [w2 [d|e]] eqn:Em.
      * apply merge_message_world in Em as ->.
        rewrite call_run.
        destruct (repeats _ _); [left; split; [reflexivity|tauto]|].
        right.
        exists (gcm_send_message (registration_id (fields self)) d
                  (delete "extra" kwargs)), k.
        repeat split.
      * pose proof (merge_message_raises _ _ _ e
                      ltac:(rewrite Em; reflexivity)) as ->.
        apply merge_message_world in Em as ->.
        left. split; [reflexivity|tauto].
Qed.

(** What a single-device send adds, whatever the instance, the message
    and the keyword arguments. *)
Lemma single_added self message kwargs w :
  let out := send_message json_dumps client self message kwargs w in
  ∃ ns t,
    w_notifications (fst out) = w_notifications w ++ ns ∧
    w_trace (fst out) = w_trace w ++ t ∧
    record_then_call (length (w_notifications w)) ns t ∧
    (∀ n, In n ns → devices n = own_key self) ∧
    (∀ c, In (Called c) t →
          is_bulk_call c = false ∧
          call_registration_ids c = [registration_id (fields self)]).
Proof.
  intros out. unfold out. clear out.
  assert (HP : ∀ (p : ProxyModel) s, class_ s = Proxy p →
    ∃ ns t,
      w_notifications
        (fst (send_message json_dumps client s message kwargs w)) =
        w_notifications w ++ ns ∧
      w_trace (fst (send_message json_dumps client s message kwargs w)) =
        w_trace w ++ t ∧
      record_then_call (length (w_notifications w)) ns t ∧
      (∀ n, In n ns → devices n = own_key s) ∧
      (∀ c, In (Called c) t →
            is_bulk_call c = false ∧
            call_registration_ids c = [registration_id (fields s)])).
  { intros p s Hc.
    pose proof (proxy_single_outcome p s message kwargs w Hc) as H.
    cbv zeta in H.
    destruct H as [(-> & _)|(m & _ & _ & [(-> & _)|(c & k & _ & Hr & Hk & -> & _)])].
    - exists [], []. rewrite !app_nil_r.
      split; [reflexivity | split; [reflexivity|]].
      split; [left; tauto|]. split; [intros n [] | intros c []].
    - cbn. eexists [_], [_].
      split; [reflexivity | split; [reflexivity|]]. split; [|split].
      + right. eexists. split; [reflexivity|]. left. reflexivity.
      + intros n [<-|[]]. reflexivity.
      + intros c [[=]|[]].
    - cbn. eexists [_], [_; _]. rewrite <- !app_assoc.
      split; [reflexivity | split; [reflexivity|]]. split; [|split].
      + right. eexists. split; [reflexivity|]. right. eauto.
      + intros n [<-|[]]. reflexivity.
      + intros c' [[=]|[[= <-]|[]]]. split; assumption. }
  destruct (class_ self) as [|p] eqn:Hc; [|exact (HP p self Hc)].
  rewrite send_message_generic by exact Hc.
  destruct (provider_resolved_proxy self) as (p & -> & _).
  rewrite fst_bind_ret. exact (HP p (set_class p self) eq_refl).
Qed.

(** *** Order of record and call *)

Lemma recorded_audit_first {A} ds message kwargs w c (out : World * result A) :
  fst out = log (Called c) (recorded json_dumps ds message kwargs w) →
  match client (recorded json_dumps ds message kwargs w) c with
  | Returned _ => ∃ a, snd out = Ok a
  | Failed e => snd out = Raise (ProviderError e)
  end →
  audit_first client w out.
Proof.
  intros H1 H2.
  exists (recorded json_dumps ds message kwargs w),
    (mkNotification ds message (json_dumps kwargs) (w_now w)), c.
  repeat split; assumption.
Qed.

(** C4. Whatever the instance, the collection, the message and the
    keyword arguments, a single-device send (generic or of a provider
    class) and a bulk send of one provider keep the notifications that
    were there and add nothing, or one record, or one record and then
    one provider call: no call is made without the record before it.
    On each of the five send paths (generic single, Google-style single,
    Apple-style single, Google-style bulk, Apple-style bulk), for a
    saved device or a non-empty collection, a text message and keywords
    that bind, the provider client is entered in a world that holds the
    new record, and the final world is that world with the call in the
    trace, also when the client raises. *)
Theorem record_precedes_provider_call self (p : ProxyModel) k f qs message
    (m : string) kwargs w :
  (∀ w', w' = fst (send_message json_dumps client self message kwargs w) ∨
         w' = fst (proxy_bulk_send_message json_dumps client p qs message
                     kwargs w) →
     ∃ ns t,
       w_notifications w' = w_notifications w ++ ns ∧
       w_trace w' = w_trace w ++ t ∧
       record_then_call (length (w_notifications w)) ns t) ∧
  (rows_of qs w ≠ [] →
   keywords_bind kwargs = true →
   extra_is_dict kwargs = true →
   audit_first client w
     (send_message json_dumps client (mkInstance Device (Some k) f)
        (Some m) kwargs w) ∧
   audit_first client w
     (send_message json_dumps client (mkInstance GCMDevice (Some k) f)
        (Some m) kwargs w) ∧
   audit_first client w
     (send_message json_dumps client (mkInstance APNSDevice (Some k) f)
        (Some m) kwargs w) ∧
   audit_first client w
     (GCMDeviceQuerySet_send_message json_dumps client qs (Some m) kwargs w) ∧
   audit_first client w
     (APNSDeviceQuerySet_send_message json_dumps client qs (Some m) kwargs w)).
Proof.
  split.
  { intros w' [-> | ->].
    - destruct (single_added self message kwargs w)
        as (ns & t & H1 & H2 & H3 & _). eauto.
    - destruct (proxy_bulk_added p qs message kwargs w)
        as (ns & t & H1 & H2 & H3 & _). eauto. }
  intros Hne Hb Hx.
  assert (HP : ∀ q : ProxyModel,
            audit_first client w
              (send_message json_dumps client (mkInstance q (Some k) f)
                 (Some m) kwargs w)).
  { intros q. rewrite (proxy_single_text q k f m kwargs w Hb Hx).
    eapply recorded_audit_first; [reflexivity|].
    cbn. destruct (client _ _); eauto. }
  split; [|split; [exact (HP GCMDevice) | split; [exact (HP APNSDevice) | split]]].
  - destruct (provider_resolved_proxy (mkInstance Device (Some k) f))
      as (q & Hq & _).
    rewrite (generic_single_text q k f m kwargs w Hq Hb Hx).
    eapply recorded_audit_first; [reflexivity|].
    cbn. destruct (client _ _); eauto.
  - rewrite (GCM_bulk_text qs m kwargs w Hne Hb Hx).
    eapply recorded_audit_first; [reflexivity|].
    cbn. destruct (client _ _); eauto.
  - rewrite (APNS_bulk_text qs m kwargs w Hne Hb).
    eapply recorded_audit_first; [reflexivity|].
    cbn. destruct (client _ _); eauto.
Qed.

(** *** The generic path *)

(** C2, as the code has it. A saved device whose provider tag is neither
    APNS nor GCM, sent a text message by the generic path with keywords
    that bind, is treated as a Google-style device: one notification for
    that device is recorded, then the Google-style single-device client
    is called once with its registration id; the send returns [None]
    unless that client raises. *)
Theorem unknown_provider_sent_as_gcm k f (m : string) kwargs w :
  device_type f ≠ Device_APNS →
  device_type f ≠ Device_GCM →
  keywords_bind kwargs = true →
  extra_is_dict kwargs = true →
  let w1 := recorded json_dumps {[k]} (Some m) kwargs w in
  let c := gcm_send_message (registration_id f) (gcm_payload m kwargs)
             (delete "extra" kwargs) in
  send_message json_dumps client (mkInstance Device (Some k) f)
    (Some m) kwargs w =
  (log (Called c) w1,
   match client w1 c with
   | Returned _ => Ok PNone
   | Failed e => Raise (ProviderError e)
   end).
Proof.
  intros Ha _ Hb Hx w1 c.
  exact (generic_single_text GCMDevice k f m kwargs w
           (provider_resolved_unknown k f Ha) Hb Hx).
Qed.

(** C7. For a device whose tag is recognised, the generic path leaves
    the same notification table as the send on the instance of the
    matching provider class, whatever the message and the keyword
    arguments; for a saved device and a text message that table is the
    old one plus one record holding this device, the message and the
    serialised keyword arguments when the keywords bind at the call that
    makes the record, and the old one when they do not. *)
Theorem generic_records_as_resolved self p message (m : string) kwargs w :
  class_ self = Device →
  get_device_model_by_type (device_type (fields self)) = Some p →
  w_notifications
    (fst (send_message json_dumps client self message kwargs w)) =
  w_notifications
    (fst (send_message json_dumps client (set_class p self) message
            kwargs w)) ∧
  ∀ k, pk self = Some k →
    w_notifications
      (fst (send_message json_dumps client self (Some m) kwargs w)) =
    if record_binds kwargs
    then w_notifications w ++
           [mkNotification {[k]} (Some m) (json_dumps kwargs) (w_now w)]
    else w_notifications w.
Proof.
  intros Hc Hp.
  assert (Hr : provider_resolved self = set_class p self).
  { unfold provider_resolved, get_device_model_by_type in *.
    destruct (decide (device_type (fields self) = Device_APNS));
      [congruence|].
    destruct (decide (device_type (fields self) = Device_GCM)); congruence. }
  split.
  - rewrite send_message_generic by exact Hc.
    rewrite fst_bind_ret, Hr. reflexivity.
  - intros k Hk.
    rewrite send_message_generic by exact Hc.
    rewrite fst_bind_ret, Hr.
    pose proof (proxy_single_outcome p (set_class p self) (Some m) kwargs w
                  eq_refl) as H.
    cbv zeta in H. unfold own_key in H.
    change (pk (set_class p self)) with (pk self) in H. rewrite Hk in H.
    destruct H as [(-> & _ & [Hb|[=]])|(m' & [= <-] & Hb & H)]; rewrite Hb.
    + reflexivity.
    + destruct H as [(-> & _)|(c & k' & _ & _ & _ & -> & _)]; reflexivity.
Qed.

End CoreFacts.

(** ** The grouped dispatch *)

Section GroupedDispatch.

Variable json_dumps : Kwargs → string.
Variable client : World → Call → Response.

Lemma proxy_bulk_step model qs rows m kwargs w :
  client_returns client →
  rows_of qs w = rows → rows ≠ [] →
  keywords_bind kwargs = true →
  extra_is_dict kwargs = true →
  ∃ c kwargs' v,
    bulk_call_of model (reg_ids_of (active_rows rows)) c ∧
    keywords_bind kwargs' = true ∧
    extra_is_dict kwargs' = true ∧
    proxy_bulk_send_message json_dumps client model qs (Some m) kwargs w =
    (log (Called c) (recorded json_dumps (pks_of rows) (Some m) kwargs w),
     Ok (kwargs', v)).
Proof.
  intros Hc <- Hne Hb Hx. destruct model; cbn [proxy_bulk_send_message].
  - rewrite (APNS_bulk_text json_dumps client qs m kwargs w Hne Hb).
    cbv zeta.
    destruct (Hc (recorded json_dumps (pks_of (rows_of qs w)) (Some m) kwargs w)
                (apns_send_bulk_message
                   (reg_ids_of (active_rows (rows_of qs w))) (Some m) kwargs))
      as [v ->].
    exists (apns_send_bulk_message
              (reg_ids_of (active_rows (rows_of qs w))) (Some m) kwargs),
      kwargs, v.
    split; [reflexivity | split; [exact Hb | split; [exact Hx | reflexivity]]].
  - rewrite (GCM_bulk_text json_dumps client qs m kwargs w Hne Hb Hx).
    cbv zeta.
    destruct (Hc (recorded json_dumps (pks_of (rows_of qs w)) (Some m) kwargs w)
                (gcm_send_bulk_message
                   (reg_ids_of (active_rows (rows_of qs w)))
                   (gcm_payload m kwargs) (delete "extra" kwargs)))
      as [v ->].
    exists (gcm_send_bulk_message
              (reg_ids_of (active_rows (rows_of qs w)))
              (gcm_payload m kwargs) (delete "extra" kwargs)),
      (seen_by_caller kwargs (gcm_payload m kwargs)), v.
    split; [reflexivity|]. split; [rewrite keywords_bind_seen; exact Hb|].
    split; [apply extra_is_dict_seen | reflexivity].
Qed.

Lemma proxy_bulk_succeeds model qs m kwargs w :
  client_returns client →
  keywords_bind kwargs = true →
  extra_is_dict kwargs = true →
  ∃ w' kwargs' v,
    keywords_bind kwargs' = true ∧
    extra_is_dict kwargs' = true ∧
    proxy_bulk_send_message json_dumps client model qs (Some m) kwargs w =
    (w', Ok (kwargs', v)).
Proof.
  intros Hc Hb Hx. destruct (rows_of qs w) as [|r rows] eqn:E.
  - exists w, kwargs, PNone. split; [exact Hb|]. split; [exact Hx|].
    exact (proxy_bulk_empty json_dumps client model qs (Some m) kwargs w E).
  - destruct (proxy_bulk_step model qs (r :: rows) m kwargs w Hc E
                ltac:(discriminate) Hb Hx)
      as (c & kw' & v & _ & Hb' & Hx' & ->).
    eauto 6.
Qed.

Lemma proxy_bulk_not_AttributeError model qs message kwargs w :
  snd (proxy_bulk_send_message json_dumps client model qs message kwargs w) ≠
  Raise AttributeError.
Proof.
  destruct (rows_of qs w) as [|r rows] eqn:E.
  - rewrite (proxy_bulk_empty json_dumps client model qs message kwargs w E).
    discriminate.
  - assert (Hne : rows_of qs w ≠ []) by (rewrite E; discriminate).
    pose proof (proxy_bulk_outcome json_dumps client model qs message kwargs w
                  Hne) as H.
    cbv zeta in H.
    destruct H as [(_ & [-> | ->] & _)|(m & _ & _ & [(_ & ->)|(c & _ & _ & H)])];
      try discriminate.
    destruct (client _ c); [destruct H as (kw' & ->) | rewrite H];
      discriminate.
Qed.

Lemma dispatch_unknown_raises devices keys message kwargs w :
  (∃ t, In t keys ∧ get_device_model_by_type t = None) →
  ∃ e, snd (dispatch_groups json_dumps client devices keys message kwargs w) =
       Raise e.
Proof.
  revert kwargs w. induction keys as [|key keys IH]; intros kwargs w.
  - intros (t & [] & _).
  - intros (t & Ht & Hn). cbn [dispatch_groups].
    destruct (get_device_model_by_type key) as [model|] eqn:Ek.
    + rewrite bind_unfold.
      destruct (proxy_bulk_send_message _ _ _ _ _ _ _) as [w1 [r|e]];
        [|eauto].
      apply IH. exists t. split; [|exact Hn].
      destruct Ht as [->|Ht]; [congruence | exact Ht].
    + exists AttributeError. reflexivity.
Qed.

Lemma dispatch_unknown_AttributeError devices keys m kwargs w :
  client_returns client →
  keywords_bind kwargs = true →
  extra_is_dict kwargs = true →
  (∃ t, In t keys ∧ get_device_model_by_type t = None) →
  snd (dispatch_groups json_dumps client devices keys (Some m) kwargs w) =
  Raise AttributeError.
Proof.
  intros Hc. revert kwargs w.
  induction keys as [|key keys IH]; intros kwargs w Hb Hx.
  - intros (t & [] & _).
  - intros (t & Ht & Hn). cbn [dispatch_groups].
    destruct (get_device_model_by_type key) as [model|] eqn:Ek;
      [|reflexivity].
    rewrite bind_unfold.
    destruct (proxy_bulk_succeeds model
                (qs_filter (id__in (dict_get devices key [])) (objects model))
                m kwargs w Hc Hb Hx) as (w' & kw' & v & Hb' & Hx' & ->).
    cbn [fst]. apply IH; [exact Hb' | exact Hx'|].
    exists t. split; [|exact Hn].
    destruct Ht as [->|Ht]; [congruence | exact Ht].
Qed.

Lemma dispatch_known_no_AttributeError devices keys message kwargs w :
  (∀ t, In t keys → get_device_model_by_type t ≠ None) →
  snd (dispatch_groups json_dumps client devices keys message kwargs w) ≠
  Raise AttributeError.
Proof.
  revert kwargs w. induction keys as [|key keys IH]; intros kwargs w Hk.
  - discriminate.
  - cbn [dispatch_groups].
    destruct (get_device_model_by_type key) as [model|] eqn:Ek.
    + rewrite bind_unfold.
      pose proof (proxy_bulk_not_AttributeError model
                    (qs_filter (id__in (dict_get devices key []))
                       (objects model)) message kwargs w) as Hb.
      destruct (proxy_bulk_send_message _ _ _ _ _ _ _) as [w1 [r|e]].
      * apply IH. intros t Ht. apply Hk. right. exact Ht.
      * cbn in *. intros [= ->]. apply Hb. reflexivity.
    + exfalso. apply (Hk key); [left; reflexivity | exact Ek].
Qed.


Lemma dispatch_two p1 p2 qs (m : string) kwargs w :
  NoDup (map row_pk (w_devices w)) →
  client_returns client →
  keywords_bind kwargs = true →
  extra_is_dict kwargs = true →
  let rows := rows_of qs w in
  let rows1 := rows_of_type (tag_of p1) rows in
  let rows2 := rows_of_type (tag_of p2) rows in
  rows1 ≠ [] → rows2 ≠ [] →
  let out := dispatch_groups json_dumps client
               (group_by_type (values_list_pk_device_type rows))
               [tag_of p1; tag_of p2] (Some m) kwargs w in
  snd out = Ok tt ∧
  ∃ n1 n2 c1 c2,
    w_notifications (fst out) = w_notifications w ++ [n1; n2] ∧
    w_trace (fst out) =
      w_trace w ++
        [Recorded (length (w_notifications w)); Called c1;
         Recorded (S (length (w_notifications w))); Called c2] ∧
    message n1 = Some m ∧ message n2 = Some m ∧
    devices n1 = pks_of rows1 ∧
    bulk_call_of p1 (reg_ids_of (active_rows rows1)) c1 ∧
    devices n2 = pks_of rows2 ∧
    bulk_call_of p2 (reg_ids_of (active_rows rows2)) c2.
Proof.
  intros Hnd Hc Hb Hx rows rows1 rows2 Hne1 Hne2 out. unfold out.
  subst rows.
  cbn [dispatch_groups]. rewrite !get_device_model_by_type_tag.
  rewrite bind_unfold.
  destruct (proxy_bulk_step p1 _ rows1 m kwargs w Hc
              (group_rows qs w w p1 Hnd eq_refl) Hne1 Hb Hx)
    as (c1 & kw1 & v1 & Hc1 & Hb1 & Hx1 & ->).
  cbn [fst]. rewrite bind_unfold.
  set (w1 := log (Called c1) (recorded json_dumps (pks_of rows1) (Some m) kwargs w)).
  destruct (proxy_bulk_step p2 _ rows2 m kw1 w1 Hc
              (group_rows qs w w1 p2 Hnd eq_refl) Hne2 Hb1 Hx1)
    as (c2 & kw2 & v2 & Hc2 & Hb2 & Hx2 & ->).
  cbn. split; [reflexivity|].
  eexists _, _, c1, c2.
  rewrite <- !app_assoc, length_app. cbn.
  rewrite Nat.add_1_r.
  repeat split; try reflexivity; assumption.
Qed.

Lemma DeviceQuerySet_run qs message kwargs w :
  rows_of qs w ≠ [] →
  let devices := group_by_type (values_list_pk_device_type (rows_of qs w)) in
  DeviceQuerySet_send_message json_dumps client qs message kwargs w =
  (_ ← dispatch_groups json_dumps client devices (dict_keys devices)
         message kwargs;
   mret PNone) w.
Proof.
  intros Hne devices. unfold DeviceQuerySet_send_message.
  rewrite bind_unfold. unfold fetch at 1. cbn beta iota. fold (rows_of qs w).
  rewrite (truthy_nonempty _ Hne). reflexivity.
Qed.

(** C1, as the code has it. A bulk send of a text message over a mixed
    collection with both APNS and GCM devices (distinct primary keys,
    keywords that bind, a well-formed [extra], provider calls that
    return) records two notifications, one per provider group and each
    holding that group's devices only, each followed by that provider's
    one bulk call with the registration ids of the group's active
    devices, and makes no other call; the two groups are served one
    after the other, in either order. *)
Theorem mixed_bulk_records_per_provider qs (m : string) kwargs w :
  NoDup (map row_pk (w_devices w)) →
  client_returns client →
  keywords_bind kwargs = true →
  extra_is_dict kwargs = true →
  let rows := rows_of qs w in
  let rowsA := rows_of_type Device_APNS rows in
  let rowsG := rows_of_type Device_GCM rows in
  (∀ r, In r rows →
        device_type (row_fields r) = Device_APNS ∨
        device_type (row_fields r) = Device_GCM) →
  rowsA ≠ [] → rowsG ≠ [] →
  let out := DeviceQuerySet_send_message json_dumps client qs (Some m)
               kwargs w in
  snd out = Ok PNone ∧
  ∃ n1 n2 c1 c2,
    w_notifications (fst out) = w_notifications w ++ [n1; n2] ∧
    w_trace (fst out) =
      w_trace w ++
        [Recorded (length (w_notifications w)); Called c1;
         Recorded (S (length (w_notifications w))); Called c2] ∧
    message n1 = Some m ∧ message n2 = Some m ∧
    ((devices n1 = pks_of rowsA ∧
      bulk_call_of APNSDevice (reg_ids_of (active_rows rowsA)) c1 ∧
      devices n2 = pks_of rowsG ∧
      bulk_call_of GCMDevice (reg_ids_of (active_rows rowsG)) c2) ∨
     (devices n1 = pks_of rowsG ∧
      bulk_call_of GCMDevice (reg_ids_of (active_rows rowsG)) c1 ∧
      devices n2 = pks_of rowsA ∧
      bulk_call_of APNSDevice (reg_ids_of (active_rows rowsA)) c2)).
Proof.
  intros Hnd Hc Hb Hx rows rowsA rowsG Htags HA HG out.
  assert (Hrows : rows ≠ []).
  { intros E. apply HA. unfold rowsA. rewrite E. reflexivity. }
  assert (Hkeys : dict_keys (group_by_type (values_list_pk_device_type rows))
                  = [Device_APNS; Device_GCM] ∨
                  dict_keys (group_by_type (values_list_pk_device_type rows))
                  = [Device_GCM; Device_APNS]).
  { apply two_keys; [apply group_by_type_NoDup|].
    intros t. rewrite group_by_type_keys, types_of_pairs. split.
    - intros (r & Hr & <-). apply Htags, Hr.
    - intros [-> | ->].
      + destruct rowsA as [|r ?] eqn:E; [congruence|].
        assert (Hr : In r (rows_of_type Device_APNS rows))
          by (fold rowsA; rewrite E; left; reflexivity).
        apply rows_of_type_In in Hr. exists r. exact Hr.
      + destruct rowsG as [|r ?] eqn:E; [congruence|].
        assert (Hr : In r (rows_of_type Device_GCM rows))
          by (fold rowsG; rewrite E; left; reflexivity).
        apply rows_of_type_In in Hr. exists r. exact Hr. }
  unfold out. rewrite (DeviceQuerySet_run qs (Some m) kwargs w Hrows).
  cbv zeta. fold rows. rewrite bind_unfold.
  destruct Hkeys as [-> | ->].
  - destruct (dispatch_two APNSDevice GCMDevice qs m kwargs w Hnd Hc Hb Hx
                HA HG)
      as (Hok & n1 & n2 & c1 & c2 & H1 & H2 & H3 & H4 & H5 & H6 & H7 & H8).
    fold rows in Hok, H1, H2. cbn [tag_of] in Hok, H1, H2.
    destruct (dispatch_groups _ _ _ _ _ _ _) as [w' r].
    cbn [fst snd] in Hok, H1, H2. subst r. cbn.
    split; [reflexivity|]. exists n1, n2, c1, c2.
    do 4 (split; [assumption|]). left. repeat split; assumption.
  - destruct (dispatch_two GCMDevice APNSDevice qs m kwargs w Hnd Hc Hb Hx
                HG HA)
      as (Hok & n1 & n2 & c1 & c2 & H1 & H2 & H3 & H4 & H5 & H6 & H7 & H8).
    fold rows in Hok, H1, H2. cbn [tag_of] in Hok, H1, H2.
    destruct (dispatch_groups _ _ _ _ _ _ _) as [w' r].
    cbn [fst snd] in Hok, H1, H2. subst r. cbn.
    split; [reflexivity|]. exists n1, n2, c1, c2.
    do 4 (split; [assumption|]). right. repeat split; assumption.
Qed.



Lemma unknown_tag_key qs w :
  (∃ r, In r (rows_of qs w) ∧
        device_type (row_fields r) ≠ Device_APNS ∧
        device_type (row_fields r) ≠ Device_GCM) →
  ∃ t, In t (dict_keys
               (group_by_type (values_list_pk_device_type (rows_of qs w)))) ∧
       get_device_model_by_type t = None.
Proof.
  intros (r & Hr & Ha & Hg). exists (device_type (row_fields r)). split.
  - apply group_by_type_keys, types_of_pairs. exists r. tauto.
  - apply get_device_model_by_type_None. tauto.
Qed.

(** C10. The lookup yields the Apple-style model for tag 0, the
    Google-style model for tag 1 and [None] for any other tag.  The
    grouped dispatch never fails on a null model when every device of
    the collection carries one of the two tags; when some device carries
    another tag the dispatch raises, and it is the null model's
    [AttributeError] that it raises whenever the sends of the groups
    served before go through (a text message, keywords that bind, a
    well-formed [extra], provider calls that return). *)
Theorem grouped_dispatch_needs_known_tags qs message (m : string) kwargs w :
  (get_device_model_by_type Device_APNS = Some APNSDevice ∧
   get_device_model_by_type Device_GCM = Some GCMDevice ∧
   ∀ t, t ≠ Device_APNS → t ≠ Device_GCM →
        get_device_model_by_type t = None) ∧
  ((∀ r, In r (rows_of qs w) →
         device_type (row_fields r) = Device_APNS ∨
         device_type (row_fields r) = Device_GCM) →
   snd (DeviceQuerySet_send_message json_dumps client qs message kwargs w) ≠
   Raise AttributeError) ∧
  ((∃ r, In r (rows_of qs w) ∧
         device_type (row_fields r) ≠ Device_APNS ∧
         device_type (row_fields r) ≠ Device_GCM) →
   (∃ e, snd (DeviceQuerySet_send_message json_dumps client qs message
                kwargs w) = Raise e) ∧
   (client_returns client → keywords_bind kwargs = true →
    extra_is_dict kwargs = true →
    snd (DeviceQuerySet_send_message json_dumps client qs (Some m) kwargs w) =
    Raise AttributeError)).
Proof.
  split; [|split].
  - repeat split. intros t Ha Hg.
    apply get_device_model_by_type_None. tauto.
  - intros Htags. destruct (rows_of qs w) as [|r0 rows0] eqn:E.
    + unfold DeviceQuerySet_send_message.
      rewrite bind_unfold. unfold fetch. cbn beta iota.
      fold (rows_of qs w). rewrite E. discriminate.
    + assert (Hne : rows_of qs w ≠ []) by (rewrite E; discriminate).
      rewrite (DeviceQuerySet_run qs message kwargs w Hne). cbv zeta.
      rewrite bind_unfold.
      pose proof (dispatch_known_no_AttributeError
                    (group_by_type (values_list_pk_device_type (rows_of qs w)))
                    (dict_keys
                       (group_by_type
                          (values_list_pk_device_type (rows_of qs w))))
                    message kwargs w) as Hd.
      destruct (dispatch_groups _ _ _ _ _ _ _) as [w' [[]|e]];
        [discriminate|].
      cbn in *. intros [= ->]. apply Hd; [|reflexivity].
      intros t Ht. apply group_by_type_keys, types_of_pairs in Ht
        as (r & Hr & <-).
      rewrite E in Hr.
      destruct (Htags r Hr) as [-> | ->]; discriminate.
  - intros Hun.
    assert (Hne : rows_of qs w ≠ []).
    { destruct Hun as (r & Hr & _). intros E. rewrite E in Hr. exact Hr. }
    pose proof (unknown_tag_key qs w Hun) as Hkey.
    split.
    + rewrite (DeviceQuerySet_run qs message kwargs w Hne). cbv zeta.
      rewrite bind_unfold.
      destruct (dispatch_unknown_raises
                  (group_by_type (values_list_pk_device_type (rows_of qs w)))
                  _ message kwargs w Hkey) as (e & He).
      destruct (dispatch_groups _ _ _ _ _ _ _) as [w' r]. cbn in He.
      subst r. exists e. reflexivity.
    + intros Hc Hb Hx.
      rewrite (DeviceQuerySet_run qs (Some m) kwargs w Hne). cbv zeta.
      rewrite bind_unfold.
      pose proof (dispatch_unknown_AttributeError
                    (group_by_type (values_list_pk_device_type (rows_of qs w)))
                    _ m kwargs w Hc Hb Hx Hkey) as He.
      destruct (dispatch_groups _ _ _ _ _ _ _) as [w' r]. cbn in He.
      subst r. reflexivity.
Qed.

End GroupedDispatch.

(** ** save *)

Lemma has_pk_true k r : has_pk k r = true ↔ row_pk r = k.
Proof. unfold has_pk. apply Nat.eqb_eq. Qed.

Lemma next_pk_fresh table r : In r table → row_pk r ≠ next_pk table.
Proof.
  intros Hr. unfold next_pk.
  assert (H : (row_pk r <= list_max (map row_pk table))%nat).
  { pose proof (proj1 (list_max_le (map row_pk table)
                         (list_max (map row_pk table))) (le_n _)) as HF.
    rewrite Forall_forall in HF. apply HF. apply list_elem_of_In.
    apply in_map. exact Hr. }
  lia.
Qed.

Lemma device_id_taken_update k f f' (table : list Row) :
  device_id_taken k f
    (map (λ r, if has_pk k r then mkRow k f' else r) table) =
  device_id_taken k f table.
Proof.
  unfold device_id_taken. destruct (device_id f) as [d|]; [|reflexivity].
  induction table as [|r table IH]; [reflexivity|].
  cbn [map existsb]. rewrite IH. f_equal.
  assert (E' : has_pk k (mkRow k f') = true)
    by (apply has_pk_true; reflexivity).
  destruct (has_pk k r) eqn:E; [rewrite E' | rewrite E]; reflexivity.
Qed.

Lemma device_id_taken_insert k f f' (table : list Row) :
  device_id_taken k f (table ++ [mkRow k f']) = device_id_taken k f table.
Proof.
  unfold device_id_taken. destruct (device_id f) as [d|]; [|reflexivity].
  rewrite existsb_app. cbn [existsb].
  assert (E' : has_pk k (mkRow k f') = true)
    by (apply has_pk_true; reflexivity).
  rewrite E'. cbn. rewrite orb_false_r. reflexivity.
Qed.

(** The ways [save()] can end: the unique constraint fails and nothing
    is written; the row of the instance's key is updated; a row is
    inserted under a key no row has. *)
Lemma Model_save_cases self w :
  Model_save self w = (w, Raise IntegrityError) ∨
  (∃ k, pk self = Some k ∧
        device_id_taken k (fields self) (w_devices w) = false ∧
        existsb (has_pk k) (w_devices w) = true ∧
        Model_save self w =
        (set_devices
           (map (λ r, if has_pk k r then mkRow k (fields self) else r)) w,
         Ok self)) ∨
  (∃ k, device_id_taken k (fields self) (w_devices w) = false ∧
        existsb (has_pk k) (w_devices w) = false ∧
        (∀ k0, pk self = Some k0 → k0 = k) ∧
        Model_save self w = insert_row k self w).
Proof.
  unfold Model_save. rewrite bind_unfold. cbn [get].
  destruct (pk self) as [k|] eqn:Hpk.
  - destruct (device_id_taken k (fields self) (w_devices w)) eqn:Hu;
      [left; reflexivity|].
    destruct (existsb (has_pk k) (w_devices w)) eqn:Hex.
    + right. left. exists k. repeat split; assumption.
    + right. right. exists k. repeat split; try assumption. congruence.
  - cbv zeta.
    destruct (device_id_taken (next_pk (w_devices w)) (fields self)
                (w_devices w)) eqn:Hu; [left; reflexivity|].
    right. right. exists (next_pk (w_devices w)).
    repeat split; [exact Hu | | discriminate].
    destruct (existsb _ _) eqn:Hex; [|reflexivity].
    apply existsb_exists in Hex as (r & Hr & Hk). apply has_pk_true in Hk.
    exfalso. exact (next_pk_fresh _ r Hr Hk).
Qed.

Lemma no_row_of_key k (table : list Row) :
  existsb (has_pk k) table = false → ∀ r, In r table → row_pk r ≠ k.
Proof.
  intros Hex r Hr Hk.
  assert (existsb (has_pk k) table = true); [|congruence].
  apply existsb_exists. exists r. split; [exact Hr|].
  apply has_pk_true. exact Hk.
Qed.

(** What a [save()] that went through has stored. *)
Lemma Model_save_stored self w self' :
  snd (Model_save self w) = Ok self' →
  stored_with_type (device_type (fields self)) self w
    (fst (Model_save self w)) self'.
Proof.
  destruct (Model_save_cases self w)
    as [E|[(k & Hpk & _ & Hex & E)|(k & _ & Hex & Hk & E)]];
    rewrite E; cbn [fst snd insert_row]; [discriminate| |];
    intros [= <-]; exists k; cbn [pk class_ fields set_devices w_devices].
  - rewrite Hex. repeat split; try reflexivity; try assumption.
    + intros k0 Hk0. congruence.
    + apply existsb_exists in Hex as (r0 & Hr0 & Hk0).
      apply in_map_iff. exists r0. rewrite Hk0. tauto.
    + intros r Hr Hkr. apply in_map_iff in Hr as (r0 & <- & _).
      destruct (has_pk k r0) eqn:E0; [reflexivity|].
      apply has_pk_true in Hkr. congruence.
    + intros Hr. apply in_map_iff in Hr as (r0 & E0 & Hr0).
      destruct (has_pk k r0); [subst r; cbn in *; congruence|].
      subst r0. exact Hr0.
    + intros Hr. apply in_map_iff. exists r. split; [|exact Hr].
      destruct (has_pk k r) eqn:E0; [|reflexivity].
      apply has_pk_true in E0. congruence.
  - rewrite Hex. repeat split; try reflexivity; try assumption.
    + apply in_or_app. right. left. reflexivity.
    + intros r Hr Hkr. apply in_app_or in Hr as [Hr|[<-|[]]]; [|reflexivity].
      exfalso. exact (no_row_of_key k _ Hex r Hr Hkr).
    + intros Hr. apply in_app_or in Hr as [Hr|[<-|[]]]; [exact Hr|].
      cbn in *. congruence.
    + intros Hr. apply in_or_app. left. exact Hr.
Qed.

(** A save through a provider class that went through was made on an
    instance of that class, and [Model.save] was given the instance
    with the class's tag. *)
Lemma save_of_run (p : ProxyModel) self w self' :
  snd (save_of p self w) = Ok self' →
  class_ self = Proxy p ∧
  save_of p self w = Model_save (set_device_type (tag_of p) self) w.
Proof.
  destruct p; unfold save_of, GCMDevice_save, APNSDevice_save; cbv zeta;
    cbn [set_device_type class_ tag_of];
    destruct (decide _) as [Hc|Hc]; try discriminate;
    intros _; split; [exact Hc | reflexivity | exact Hc | reflexivity].
Qed.

Lemma save_of_stored (p : ProxyModel) self w self' :
  snd (save_of p self w) = Ok self' →
  class_ self = Proxy p ∧
  stored_with_type (tag_of p) self w (fst (save_of p self w)) self'.
Proof.
  intros Hok. destruct (save_of_run p self w self' Hok) as [Hc E].
  split; [exact Hc|]. rewrite E in Hok |- *.
  destruct (Model_save_stored _ w self' Hok) as (k & H).
  exists k. cbn [set_device_type pk class_ fields name active user
                 date_created device_id registration_id device_type] in H.
  exact H.
Qed.

(** A save through the class of another provider, or through a provider
    class on a plain [Device], raises and writes nothing, whatever
    [Model.save] would do. *)
Lemma save_other_class (p : ProxyModel) (super_save : Instance → M Instance)
    self w :
  class_ self ≠ Proxy p →
  match p with
  | GCMDevice => GCMDevice_save super_save self w
  | APNSDevice => APNSDevice_save super_save self w
  end = (w, Raise TypeError).
Proof.
  intros Hc. destruct p; unfold GCMDevice_save, APNSDevice_save; cbv zeta;
    cbn [set_device_type class_];
    destruct (decide _) as [Hc'|_]; try contradiction; reflexivity.
Qed.


(** ** The code on the small registry *)

Lemma bulk_records_all_sends_active_witness :
  rows_of APNSDevice_objects ex_world ≠ [] ∧
  keywords_bind ex_kwargs = true ∧
  w_notifications
    (fst (APNSDeviceQuerySet_send_message ex_json_dumps ex_client
            APNSDevice_objects (Some "hi") ex_kwargs ex_world)) =
  [mkNotification (pks_of (rows_of APNSDevice_objects ex_world)) (Some "hi")
     (ex_json_dumps ex_kwargs) 100].
Proof.
  assert (H1 : rows_of APNSDevice_objects ex_world ≠ [])
    by (vm_compute; congruence).
  assert (H2 : keywords_bind ex_kwargs = true) by (vm_compute; reflexivity).
  split; [exact H1 | split; [exact H2|]].
  pose proof (bulk_records_all_sends_active ex_json_dumps ex_client
                APNSDevice APNSDevice_objects (Some "hi") "hi" ex_kwargs
                ex_world) as H.
  cbv zeta in H. destruct H as (_ & _ & _ & H).
  destruct (H H1 H2) as (_ & _ & H3 & _). exact H3.
Defined.

Lemma ex_client_returns : client_returns ex_client.
Proof. intros w c. exists PNone. reflexivity. Qed.

(** C1 as stated fails on the registry of three devices (two APNS, one
    GCM): the generic bulk send records two notifications, neither
    holding all three devices, and the Apple-style bulk call carries one
    registration id although two of the devices are APNS. *)
Lemma mixed_bulk_counterexample :
  let out := DeviceQuerySet_send_message ex_json_dumps ex_client
               Device_objects (Some "hi") ∅ ex_world in
  length (rows_of_type Device_APNS (rows_of Device_objects ex_world)) = 2%nat ∧
  length (rows_of_type Device_GCM (rows_of Device_objects ex_world)) = 1%nat ∧
  map devices (w_notifications (fst out)) =
    [({[1%nat; 3%nat]} : gset nat); ({[2%nat]} : gset nat)] ∧
  w_trace (fst out) =
    [Recorded 0; Called (apns_send_bulk_message ["reg-a"] (Some "hi") ∅);
     Recorded 1;
     Called (gcm_send_bulk_message ["reg-b"]
               (PDict (<["message" := PStr "hi"]> ∅)) ∅)].
Proof. vm_compute. repeat split; reflexivity. Qed.

Lemma mixed_bulk_records_per_provider_witness :
  keywords_bind ex_kwargs = true ∧
  extra_is_dict ex_kwargs = true ∧
  snd (DeviceQuerySet_send_message ex_json_dumps ex_client Device_objects
         (Some "hi") ex_kwargs ex_world) = Ok PNone.
Proof.
  assert (H1 : keywords_bind ex_kwargs = true) by (vm_compute; reflexivity).
  assert (H2 : extra_is_dict ex_kwargs = true) by (vm_compute; reflexivity).
  split; [exact H1 | split; [exact H2|]].
  refine (proj1 (mixed_bulk_records_per_provider ex_json_dumps ex_client
                   Device_objects "hi" ex_kwargs ex_world _ _ H1 H2 _ _ _)).
  - apply (bool_decide_unpack _). vm_compute. exact I.
  - exact ex_client_returns.
  - intros r Hr. cbn in Hr.
    destruct Hr as [<-|[<-|[<-|[]]]]; cbn; tauto.
  - vm_compute. discriminate.
  - vm_compute. discriminate.
Defined.

(** C2 as stated fails on a device tagged 7: the generic path raises
    nothing, records a notification for the device and calls the
    Google-style client. *)
Lemma unknown_provider_counterexample :
  let out := send_message ex_json_dumps ex_client ex_stray (Some "hi") ∅
               ex_stray_world in
  get_device_model_by_type (device_type (fields ex_stray)) = None ∧
  snd out = Ok PNone ∧
  w_notifications (fst out) =
    [mkNotification {[4%nat]} (Some "hi") (ex_json_dumps ∅) 100] ∧
  w_trace (fst out) =
    [Recorded 0;
     Called (gcm_send_message "reg-d"
               (PDict (<["message" := PStr "hi"]> ∅)) ∅)].
Proof. vm_compute. repeat split; reflexivity. Qed.

Lemma unknown_provider_sent_as_gcm_witness :
  device_type ex_stray_fields ≠ Device_APNS ∧
  device_type ex_stray_fields ≠ Device_GCM ∧
  keywords_bind ex_kwargs = true ∧
  extra_is_dict ex_kwargs = true ∧
  send_message ex_json_dumps ex_failing_client ex_stray (Some "hi") ex_kwargs
    ex_stray_world =
  (log (Called (gcm_send_message "reg-d" (gcm_payload "hi" ex_kwargs)
                  (delete "extra" ex_kwargs)))
     (recorded ex_json_dumps {[4%nat]} (Some "hi") ex_kwargs ex_stray_world),
   Raise (ProviderError "timeout")).
Proof.
  assert (H1 : device_type ex_stray_fields ≠ Device_APNS)
    by (vm_compute; discriminate).
  assert (H2 : device_type ex_stray_fields ≠ Device_GCM)
    by (vm_compute; discriminate).
  assert (H3 : keywords_bind ex_kwargs = true) by (vm_compute; reflexivity).
  assert (H4 : extra_is_dict ex_kwargs = true) by (vm_compute; reflexivity).
  split; [exact H1 | split; [exact H2 | split; [exact H3 | split; [exact H4|]]]].
  exact (unknown_provider_sent_as_gcm ex_json_dumps ex_failing_client
           4%nat ex_stray_fields "hi" ex_kwargs ex_stray_world H1 H2 H3 H4).
Defined.

Lemma record_precedes_provider_call_witness :
  rows_of APNSDevice_objects ex_world ≠ [] ∧
  keywords_bind ex_kwargs = true ∧
  extra_is_dict ex_kwargs = true ∧
  audit_first ex_failing_client ex_world
    (APNSDeviceQuerySet_send_message ex_json_dumps ex_failing_client
       APNSDevice_objects (Some "hi") ex_kwargs ex_world).
Proof.
  assert (H1 : rows_of APNSDevice_objects ex_world ≠ [])
    by (vm_compute; discriminate).
  assert (H2 : keywords_bind ex_kwargs = true) by (vm_compute; reflexivity).
  assert (H3 : extra_is_dict ex_kwargs = true) by (vm_compute; reflexivity).
  split; [exact H1 | split; [exact H2 | split; [exact H3|]]].
  exact (proj2 (proj2 (proj2 (proj2
           (proj2
              (record_precedes_provider_call ex_json_dumps ex_failing_client
                 ex_stray APNSDevice 1%nat
                 (ex_fields "A" "reg-a" true Device_APNS)
                 APNSDevice_objects (Some "hi") "hi" ex_kwargs ex_world)
              H1 H2 H3))))).
Defined.

(** C5 as stated fails for the Apple-style bulk send: the keyword
    arguments travel with [extra] still among them. *)
Lemma bulk_payload_counterexample :
  let out := APNSDeviceQuerySet_send_message ex_json_dumps ex_client
               APNSDevice_objects (Some "hi") ex_kwargs ex_world in
  let c := apns_send_bulk_message ["reg-a"] (Some "hi") ex_kwargs in
  w_trace (fst out) = [Recorded 0; Called c] ∧
  call_kwargs c !! "extra" = Some (PDict (<["badge" := PInt 1]> ∅)) ∧
  ¬ extra_extracted ex_kwargs c.
Proof.
  cbv zeta. split; [vm_compute; reflexivity|].
  split; [vm_compute; reflexivity|].
  unfold extra_extracted. intros H.
  apply (f_equal (λ kw : Kwargs, kw !! "extra")) in H.
  vm_compute in H. discriminate.
Qed.

Lemma bulk_payload_witness :
  rows_of GCMDevice_objects ex_world ≠ [] ∧
  keywords_bind ex_kwargs = true ∧
  extra_is_dict ex_kwargs = true ∧
  w_trace (fst (GCMDeviceQuerySet_send_message ex_json_dumps ex_client
                  GCMDevice_objects (Some "hi") ex_kwargs ex_world)) =
  [Recorded 0;
   Called (gcm_send_bulk_message ["reg-b"]
             (PDict (<["message" := PStr "hi"]> (<["badge" := PInt 1]> ∅)))
             (<["sound" := PStr "x"]> ∅))].
Proof.
  assert (H1 : rows_of GCMDevice_objects ex_world ≠ [])
    by (vm_compute; discriminate).
  assert (H2 : keywords_bind ex_kwargs = true) by (vm_compute; reflexivity).
  assert (H3 : extra_is_dict ex_kwargs = true) by (vm_compute; reflexivity).
  split; [exact H1 | split; [exact H2 | split; [exact H3|]]].
  refine (eq_trans
            (proj1 (bulk_payload ex_json_dumps ex_client GCMDevice_objects
                      "hi" ex_kwargs ex_world H1 H2 H3)) _).
  vm_compute. reflexivity.
Defined.

Lemma empty_collection_noop_witness :
  rows_of (qs_filter (device_type_is 5) Device_objects) ex_world = [] ∧
  DeviceQuerySet_send_message ex_json_dumps ex_client
    (qs_filter (device_type_is 5) Device_objects) (Some "hi") ex_kwargs
    ex_world = (ex_world, Ok PNone).
Proof.
  assert (H : rows_of (qs_filter (device_type_is 5) Device_objects) ex_world
              = []) by (vm_compute; reflexivity).
  split; [exact H|].
  exact (proj1 (empty_collection_noop ex_json_dumps ex_client _ (Some "hi")
                  ex_kwargs ex_world H)).
Defined.

Lemma generic_records_as_resolved_witness :
  w_notifications
    (fst (send_message ex_json_dumps ex_client
            (mkInstance Device (Some 2%nat)
               (ex_fields "B" "reg-b" true Device_GCM))
            (Some "hi") ex_kwargs ex_world)) =
  w_notifications
    (fst (send_message ex_json_dumps ex_client
            (mkInstance GCMDevice (Some 2%nat)
               (ex_fields "B" "reg-b" true Device_GCM))
            (Some "hi") ex_kwargs ex_world)) ∧
  w_notifications
    (fst (send_message ex_json_dumps ex_client
            (mkInstance Device (Some 2%nat)
               (ex_fields "B" "reg-b" true Device_GCM))
            (Some "hi") ex_kwargs ex_world)) =
  [mkNotification {[2%nat]} (Some "hi") (ex_json_dumps ex_kwargs) 100].
Proof.
  pose proof (generic_records_as_resolved ex_json_dumps ex_client
                (mkInstance Device (Some 2%nat)
                   (ex_fields "B" "reg-b" true Device_GCM))
                GCMDevice (Some "hi") "hi" ex_kwargs ex_world
                eq_refl eq_refl) as [H1 H2].
  split; [exact H1|]. exact (H2 2%nat eq_refl).
Defined.

(** The null model on the registry holding the stray device: the two
    known groups are served, then the lookup of tag 7 fails. *)
Example grouped_dispatch_stray :
  let out := DeviceQuerySet_send_message ex_json_dumps ex_client
               Device_objects (Some "hi") ∅ ex_stray_world in
  snd out = Raise AttributeError ∧
  length (w_notifications (fst out)) = 2%nat.
Proof. vm_compute. split; reflexivity. Qed.



(** A plain [Device] cannot be saved through a provider class. *)
Example save_stray_through_gcm :
  GCMDevice_save Model_save ex_stray ex_stray_world =
  (ex_stray_world, Raise TypeError).
Proof. reflexivity. Qed.

(** * Further properties of the code *)

Lemma str_or_nonempty (a b : string) :
  (0 < String.length b)%nat → (0 < String.length (str_or a b))%nat.
Proof.
  intros Hb. unfold str_or. destruct (decide (a = "")) as [|Ha]; [exact Hb|].
  destruct a; [congruence | cbn; lia].
Qed.

(** X1. The text of a device is never empty; a non-empty name is the
    text; without a name a non-empty device id is the text; without
    either the text is the class name, [ for ] and the user. *)
Theorem Device_str_total (user_str : nat → string) (self : Instance) :
  (0 < String.length (Device___str__ user_str self))%nat ∧
  (∀ s, name (fields self) = Some s → s ≠ "" →
        Device___str__ user_str self = s) ∧
  (∀ s, or_empty (name (fields self)) = "" →
        device_id (fields self) = Some s → s ≠ "" →
        Device___str__ user_str self = s) ∧
  (or_empty (name (fields self)) = "" →
   or_empty (device_id (fields self)) = "" →
   user (fields self) = None →
   Device___str__ user_str self =
   class_name (class_ self) +:+ " for unknown user").
Proof.
  unfold Device___str__. repeat split.
  - apply str_or_nonempty, str_or_nonempty.
    destruct (class_ self) as [|[]]; simpl; lia.
  - intros s -> Hs. cbn. unfold str_or at 1.
    destruct (decide (s = "")); [contradiction | reflexivity].
  - intros s -> -> Hs. cbn. unfold str_or.
    destruct (decide (s = "")); [contradiction | reflexivity].
  - intros -> -> ->. reflexivity.
Qed.

Section SingleSends.

Variable json_dumps : Kwargs → string.
Variable client : World → Call → Response.

Lemma unsaved_send_run c f (m : string) kwargs w :
  record_binds kwargs = true →
  send_message json_dumps client (mkInstance c None f) (Some m) kwargs w =
  (recorded json_dumps ∅ (Some m) kwargs w, Raise ValueError).
Proof.
  intros Hb.
  assert (HP : ∀ p : ProxyModel,
            send_message json_dumps client (mkInstance p None f) (Some m)
              kwargs w =
            (recorded json_dumps ∅ (Some m) kwargs w, Raise ValueError)).
  { intros p. rewrite (send_message_proxy_run json_dumps client p)
      by reflexivity.
    rewrite bind_unfold, create_text by exact Hb. reflexivity. }
  destruct c as [|p]; [|apply HP].
  rewrite send_message_generic by reflexivity.
  destruct (provider_resolved_proxy (mkInstance Device None f))
    as (p & -> & _).
  rewrite bind_unfold. unfold set_class. cbn [pk fields]. rewrite HP.
  reflexivity.
Qed.

(** X2. A send of a text message on an instance that was never saved,
    with keywords that bind at the call that makes the record, raises
    [ValueError] on every path, calls no provider, and leaves behind a
    notification that relates no device. *)
Theorem unsaved_device_send c f (m : string) kwargs w :
  record_binds kwargs = true →
  send_message json_dumps client (mkInstance c None f) (Some m) kwargs w =
  (recorded json_dumps ∅ (Some m) kwargs w, Raise ValueError).
Proof. apply unsaved_send_run. Qed.

Lemma proxy_single_effect (p : ProxyModel) self (m : string) kwargs w :
  class_ self = Proxy p →
  record_binds kwargs = true →
  let out := send_message json_dumps client self (Some m) kwargs w in
  let id := length (w_notifications w) in
  w_notifications (fst out) =
    w_notifications w ++
      [mkNotification (own_key self) (Some m) (json_dumps kwargs) (w_now w)] ∧
  w_devices (fst out) = w_devices w ∧
  ((w_trace (fst out) = w_trace w ++ [Recorded id] ∧
    ∃ e, snd out = Raise e) ∨
   (∃ c, w_trace (fst out) = w_trace w ++ [Recorded id; Called c] ∧
         call_registration_ids c = [registration_id (fields self)] ∧
         is_bulk_call c = false)).
Proof.
  intros Hc Hb out id.
  pose proof (proxy_single_outcome json_dumps client p self (Some m) kwargs w
                Hc) as H.
  cbv zeta in H. fold out in H.
  destruct H as [(_ & _ & [Hn|[=]])|(m' & [= <-] & _ & H)]; [congruence|].
  destruct H as [(-> & He)|(c & k & _ & Hr & Hk & -> & _)].
  - split; [reflexivity|]. split; [reflexivity|]. left.
    split; [reflexivity|]. destruct He as [-> | ->]; eauto.
  - split; [reflexivity|]. split; [reflexivity|]. right.
    exists c. cbn. rewrite <- app_assoc. repeat split; assumption.
Qed.

Lemma single_send_effect_facts self (m : string) kwargs w :
  record_binds kwargs = true →
  let out := send_message json_dumps client self (Some m) kwargs w in
  let id := length (w_notifications w) in
  w_notifications (fst out) =
    w_notifications w ++
      [mkNotification (own_key self) (Some m) (json_dumps kwargs) (w_now w)] ∧
  w_devices (fst out) = w_devices w ∧
  ((w_trace (fst out) = w_trace w ++ [Recorded id] ∧
    ∃ e, snd out = Raise e) ∨
   (∃ c, w_trace (fst out) = w_trace w ++ [Recorded id; Called c] ∧
         call_registration_ids c = [registration_id (fields self)] ∧
         is_bulk_call c = false)).
Proof.
  intros Hb out id. unfold out.
  destruct (class_ self) as [|p] eqn:Hc.
  - rewrite send_message_generic by exact Hc.
    destruct (provider_resolved_proxy self) as (p & -> & _).
    pose proof (proxy_single_effect p (set_class p self) m kwargs w eq_refl Hb)
      as H. cbv zeta in H.
    change (own_key (set_class p self)) with (own_key self) in H.
    change (fields (set_class p self)) with (fields self) in H.
    rewrite fst_bind_ret. destruct H as (H1 & Hd & H2).
    split; [exact H1|]. split; [exact Hd|].
    rewrite bind_unfold.
    destruct (send_message json_dumps client (set_class p self) (Some m)
                kwargs w) as [w' [v|e]]; cbn [fst snd] in *.
    + destruct H2 as [(_ & e & He)|H2]; [discriminate | right; exact H2].
    + destruct H2 as [(H2 & _)|H2]; [left; eauto | right; exact H2].
  - exact (proxy_single_effect p self m kwargs w Hc Hb).
Qed.

(** X3. A single-device send of a text message whose keywords bind at
    the call that makes the record, on any path and for any instance
    and provider behaviour, leaves exactly one new notification after
    the old ones (also when it fails), leaves the device table as it
    was, and makes at most one provider call, a single-device call with
    the instance's registration id, after the record; when it makes no
    call it raised. *)
Theorem single_send_effect self (m : string) kwargs w :
  record_binds kwargs = true →
  let out := send_message json_dumps client self (Some m) kwargs w in
  let id := length (w_notifications w) in
  w_notifications (fst out) =
    w_notifications w ++
      [mkNotification (own_key self) (Some m) (json_dumps kwargs) (w_now w)] ∧
  w_devices (fst out) = w_devices w ∧
  ((w_trace (fst out) = w_trace w ++ [Recorded id] ∧
    ∃ e, snd out = Raise e) ∨
   (∃ c, w_trace (fst out) = w_trace w ++ [Recorded id; Called c] ∧
         call_registration_ids c = [registration_id (fields self)] ∧
         is_bulk_call c = false)).
Proof. apply single_send_effect_facts. Qed.

End SingleSends.

Section SingleSendsMore.

Variable json_dumps : Kwargs → string.
Variable client : World → Call → Response.

Lemma bad_extra_merge (m : string) (kwargs : Kwargs) :
  extra_is_dict kwargs = false →
  merge_message (fst (pop_extra kwargs)) (Some m) = raise TypeError.
Proof.
  unfold extra_is_dict, pop_extra, merge_message, setitem. cbn [fst].
  destruct (kwargs !! "extra") as [[]|]; cbn; try discriminate; reflexivity.
Qed.

(** X4. When [extra] is given and is no dict (and the keywords bind), a
    Google-style single-device send of a text message (direct, or
    generic for a device whose tag is not APNS) raises [TypeError] after
    the notification is on record and calls no provider; the
    Apple-style send passes the same keyword arguments on to its client
    untouched. *)
Theorem single_send_bad_extra k f (m : string) kwargs w :
  keywords_bind kwargs = true →
  extra_is_dict kwargs = false →
  let w1 := recorded json_dumps {[k]} (Some m) kwargs w in
  send_message json_dumps client (mkInstance GCMDevice (Some k) f) (Some m)
    kwargs w = (w1, Raise TypeError) ∧
  (device_type f ≠ Device_APNS →
   send_message json_dumps client (mkInstance Device (Some k) f) (Some m)
     kwargs w = (w1, Raise TypeError)) ∧
  fst (send_message json_dumps client (mkInstance APNSDevice (Some k) f)
         (Some m) kwargs w) =
  log (Called (apns_send_message (registration_id f) (Some m) kwargs)) w1.
Proof.
  intros Hb Hx w1.
  assert (Hr := keywords_bind_record _ Hb).
  assert (HG : send_message json_dumps client
                 (mkInstance GCMDevice (Some k) f) (Some m) kwargs w =
               (w1, Raise TypeError)).
  { rewrite (send_message_proxy_run json_dumps client GCMDevice)
      by reflexivity.
    rewrite bind_unfold, create_text by exact Hr.
    cbn [related target_keys own_key pk fields].
    rewrite (bad_extra_merge m kwargs Hx). reflexivity. }
  split; [exact HG | split].
  - intros Ht. rewrite send_message_generic by reflexivity.
    rewrite (provider_resolved_unknown k f Ht), bind_unfold, HG. reflexivity.
  - rewrite (send_message_proxy_run json_dumps client APNSDevice)
      by reflexivity.
    rewrite bind_unfold, create_text by exact Hr.
    cbn [related target_keys own_key pk fields].
    rewrite call_bound; [reflexivity|].
    apply (keywords_bind_call kwargs _ Hb). left. reflexivity.
Qed.

(** X5. For a saved device whose tag is the one of the provider class
    [p], a text message and keywords that bind: the send on the
    instance of class [p] returns what the provider client returned,
    while the generic send on the same device makes the same record and
    the same call and returns [None]; a failure of the client is the
    failure of both. *)
Theorem generic_send_drops_response (p : ProxyModel) k f (m : string)
    kwargs w :
  device_type f = tag_of p →
  keywords_bind kwargs = true →
  extra_is_dict kwargs = true →
  let w1 := recorded json_dumps {[k]} (Some m) kwargs w in
  let c := single_call p f m kwargs in
  send_message json_dumps client (mkInstance p (Some k) f) (Some m) kwargs w =
    (log (Called c) w1,
     match client w1 c with
     | Returned v => Ok v
     | Failed e => Raise (ProviderError e)
     end) ∧
  send_message json_dumps client (mkInstance Device (Some k) f) (Some m)
    kwargs w =
    (log (Called c) w1,
     match client w1 c with
     | Returned _ => Ok PNone
     | Failed e => Raise (ProviderError e)
     end).
Proof.
  intros Ht Hb Hx w1 c. split.
  - exact (proxy_single_text json_dumps client p k f m kwargs w Hb Hx).
  - exact (generic_single_text json_dumps client p k f m kwargs w
             (provider_resolved_tag p k f Ht) Hb Hx).
Qed.

(** X6. A single-device send reads the instance's class, key,
    registration id and (on the generic path) tag, and nothing else: two
    instances that agree on these are sent to alike.  In particular an
    inactive device is sent to exactly like an active one. *)
Theorem single_send_ignores_other_fields c k f f' message kwargs w :
  registration_id f = registration_id f' →
  device_type f = device_type f' →
  send_message json_dumps client (mkInstance c k f) message kwargs w =
  send_message json_dumps client (mkInstance c k f') message kwargs w.
Proof.
  intros Hr Ht.
  assert (HP : ∀ p : ProxyModel,
            send_message json_dumps client (mkInstance p k f) message kwargs w =
            send_message json_dumps client (mkInstance p k f') message
              kwargs w).
  { intros p.
    rewrite !(send_message_proxy_run json_dumps client p) by reflexivity.
    rewrite !bind_unfold.
    rewrite (create_ext json_dumps (One (mkInstance p k f))
               (One (mkInstance p k f')) message kwargs w eq_refl eq_refl).
    cbn [fields]. rewrite Hr. reflexivity. }
  destruct c as [|p]; [|apply HP].
  rewrite (send_message_generic json_dumps client (mkInstance Device k f))
    by reflexivity.
  rewrite (send_message_generic json_dumps client (mkInstance Device k f'))
    by reflexivity.
  rewrite !bind_unfold. unfold provider_resolved, set_class.
  cbn [class_ pk fields]. rewrite Ht.
  destruct (decide (device_type f' = Device_APNS)); rewrite HP; reflexivity.
Qed.

(** X7. A bulk send of a text message, with keywords that bind, over a
    non-empty collection none of whose devices is active still records
    the notification for all of them and still calls the provider's
    bulk endpoint, with an empty list of registration ids. *)
Theorem bulk_send_all_inactive qs (m : string) kwargs w :
  rows_of qs w ≠ [] →
  (∀ r, In r (rows_of qs w) → active (row_fields r) = false) →
  keywords_bind kwargs = true →
  extra_is_dict kwargs = true →
  let w1 := recorded json_dumps (pks_of (rows_of qs w)) (Some m) kwargs w in
  fst (APNSDeviceQuerySet_send_message json_dumps client qs (Some m)
         kwargs w) =
    log (Called (apns_send_bulk_message [] (Some m) kwargs)) w1 ∧
  fst (GCMDeviceQuerySet_send_message json_dumps client qs (Some m)
         kwargs w) =
    log (Called (gcm_send_bulk_message [] (gcm_payload m kwargs)
                   (delete "extra" kwargs))) w1.
Proof.
  intros Hne Hin Hb Hx w1.
  assert (E : active_rows (rows_of qs w) = []).
  { unfold active_rows.
    destruct (List.filter _ _) as [|r l] eqn:Ef; [reflexivity|].
    assert (Hr : In r (List.filter (active_is true) (rows_of qs w)))
      by (rewrite Ef; left; reflexivity).
    apply filter_In in Hr as [Hr Ha]. apply bool_decide_eq_true in Ha.
    rewrite (Hin r Hr) in Ha. discriminate. }
  rewrite (APNS_bulk_text json_dumps client qs m kwargs w Hne Hb).
  rewrite (GCM_bulk_text json_dumps client qs m kwargs w Hne Hb Hx).
  cbv zeta. rewrite E. split; reflexivity.
Qed.

(** X21. Keywords that repeat a parameter of [create_notification_for]
    ([cls], [devices] or [message]) stop a send before anything is
    done: on every single-device path, and in a bulk send of one
    provider over a non-empty collection, [TypeError] is raised, no
    notification is recorded and no provider is called. *)
Theorem record_keyword_clash self (p : ProxyModel) qs message kwargs w :
  record_binds kwargs = false →
  send_message json_dumps client self message kwargs w =
    (w, Raise TypeError) ∧
  (rows_of qs w ≠ [] →
   proxy_bulk_send_message json_dumps client p qs message kwargs w =
     (w, Raise TypeError)).
Proof.
  intros Hb.
  assert (HP : ∀ (q : ProxyModel) s, class_ s = Proxy q →
            send_message json_dumps client s message kwargs w =
            (w, Raise TypeError)).
  { intros q s Hc. rewrite (send_message_proxy_run json_dumps client q)
      by exact Hc.
    rewrite bind_unfold, create_clash by exact Hb. reflexivity. }
  split.
  - destruct (class_ self) as [|q] eqn:Hc; [|exact (HP q self Hc)].
    rewrite send_message_generic by exact Hc.
    destruct (provider_resolved_proxy self) as (q & -> & _).
    rewrite bind_unfold, (HP q) by reflexivity. reflexivity.
  - intros Hne. destruct p; cbn [proxy_bulk_send_message].
    + rewrite APNS_bulk_run by exact Hne.
      rewrite bind_unfold, create_clash by exact Hb. reflexivity.
    + rewrite GCM_bulk_run by exact Hne.
      rewrite bind_unfold, create_clash by exact Hb. reflexivity.
Qed.

(** X22. Keywords that bind at the record but repeat a keyword the
    provider call names itself stop a send between the two: for a text
    message and a well-formed [extra], the notification is recorded,
    then [TypeError] is raised and the provider client is not
    entered. *)
Theorem provider_keyword_clash (p : ProxyModel) k f qs (m : string)
    kwargs w :
  record_binds kwargs = true →
  extra_is_dict kwargs = true →
  (call_binds (single_call p f m kwargs) = false →
   send_message json_dumps client (mkInstance p (Some k) f) (Some m)
     kwargs w =
   (recorded json_dumps {[k]} (Some m) kwargs w, Raise TypeError)) ∧
  (rows_of qs w ≠ [] →
   call_binds
     (bulk_call p (reg_ids_of (active_rows (rows_of qs w))) m kwargs) =
     false →
   proxy_bulk_send_message json_dumps client p qs (Some m) kwargs w =
   (recorded json_dumps (pks_of (rows_of qs w)) (Some m) kwargs w,
    Raise TypeError)).
Proof.
  intros Hb Hx. unfold call_binds. split.
  - intros Hc%negb_false_iff.
    rewrite (send_message_proxy_run json_dumps client p) by reflexivity.
    rewrite bind_unfold, create_text by exact Hb.
    cbn [related target_keys own_key pk fields].
    destruct p; cbn [single_call] in Hc.
    + rewrite call_run, Hc. reflexivity.
    + rewrite (extra_is_dict_merge m kwargs Hx).
      change (mret (gcm_payload m kwargs) ≫= ?g)
        with (g (gcm_payload m kwargs)).
      cbv beta. rewrite call_run, Hc. reflexivity.
  - intros Hne Hc%negb_false_iff.
    destruct p; cbn [proxy_bulk_send_message bulk_call] in *.
    + rewrite APNS_bulk_run by exact Hne.
      rewrite bind_unfold, create_text by exact Hb.
      cbn [related target_keys].
      rewrite bind_unfold, call_run, Hc. reflexivity.
    + rewrite GCM_bulk_run by exact Hne.
      rewrite bind_unfold, create_text by exact Hb.
      cbn [related target_keys].
      rewrite (extra_is_dict_merge m kwargs Hx).
      change (mret (gcm_payload m kwargs) ≫= ?g)
        with (g (gcm_payload m kwargs)).
      cbv beta. rewrite bind_unfold, call_run, Hc. reflexivity.
Qed.

(** X23. A send without a message ([None]) stores no notification: the
    [message] column is [NOT NULL].  With keywords that bind at the
    record, every single-device path and every bulk send of one provider
    over a non-empty collection raises [IntegrityError], leaves the
    world as it was and calls no provider. *)
Theorem send_without_message self (p : ProxyModel) qs kwargs w :
  record_binds kwargs = true →
  send_message json_dumps client self None kwargs w =
    (w, Raise IntegrityError) ∧
  (rows_of qs w ≠ [] →
   proxy_bulk_send_message json_dumps client p qs None kwargs w =
     (w, Raise IntegrityError)).
Proof.
  intros Hb.
  assert (HP : ∀ (q : ProxyModel) s, class_ s = Proxy q →
            send_message json_dumps client s None kwargs w =
            (w, Raise IntegrityError)).
  { intros q s Hc. rewrite (send_message_proxy_run json_dumps client q)
      by exact Hc.
    rewrite bind_unfold, create_None by exact Hb. reflexivity. }
  split.
  - destruct (class_ self) as [|q] eqn:Hc; [|exact (HP q self Hc)].
    rewrite send_message_generic by exact Hc.
    destruct (provider_resolved_proxy self) as (q & -> & _).
    rewrite bind_unfold, (HP q) by reflexivity. reflexivity.
  - intros Hne. destruct p; cbn [proxy_bulk_send_message].
    + rewrite APNS_bulk_run by exact Hne.
      rewrite bind_unfold, create_None by exact Hb. reflexivity.
    + rewrite GCM_bulk_run by exact Hne.
      rewrite bind_unfold, create_None by exact Hb. reflexivity.
Qed.

End SingleSendsMore.

Lemma record_first_armed (t : list Event) :
  record_first false t = true → record_first true t = true.
Proof. destruct t as [|[] t]; cbn; congruence. Qed.

Lemma NoDup_List_filter {A} (f : A → bool) (l : list A) :
  NoDup l → NoDup (List.filter f l).
Proof.
  induction l as [|x l IH]; [intros _; constructor|].
  intros [Hx Hl]%NoDup_cons. cbn. destruct (f x); [|exact (IH Hl)].
  apply NoDup_cons. split; [|exact (IH Hl)].
  intros Hin. apply Hx. apply list_elem_of_In.
  apply list_elem_of_In, filter_In in Hin. tauto.
Qed.

Lemma known_tag_cases (t : Z) :
  known_tag t = true → t = Device_APNS ∨ t = Device_GCM.
Proof.
  unfold known_tag.
  destruct (get_device_model_by_type t) as [[]|] eqn:E; [| |discriminate];
    apply get_device_model_by_type_Some in E; cbn in E; tauto.
Qed.

Lemma known_tags_le_2 (keys : list Z) :
  NoDup keys → (length (List.filter known_tag keys) ≤ 2)%nat.
Proof.
  intros Hnd. apply (NoDup_List_filter known_tag) in Hnd.
  assert (Hk : ∀ t, In t (List.filter known_tag keys) →
                    t = 0 ∨ t = 1).
  { intros t Ht. apply filter_In in Ht as [_ Ht].
    exact (known_tag_cases t Ht). }
  destruct (List.filter known_tag keys) as [|a [|b [|c l]]]; cbn; try lia.
  exfalso.
  apply NoDup_cons in Hnd as [Ha Hnd]. apply NoDup_cons in Hnd as [Hb Hnd].
  assert (a ≠ b) by (intros ->; apply Ha; left).
  assert (a ≠ c) by (intros ->; apply Ha; right; left).
  assert (b ≠ c) by (intros ->; apply Hb; left).
  assert (A : a = 0 ∨ a = 1) by (apply Hk; cbn; tauto).
  assert (B : b = 0 ∨ b = 1) by (apply Hk; cbn; tauto).
  assert (C : c = 0 ∨ c = 1) by (apply Hk; cbn; tauto).
  lia.
Qed.

Lemma bulk_call_of_is_bulk p regs c :
  bulk_call_of p regs c → is_bulk_call c = true.
Proof. destruct p, c; cbn; tauto. Qed.

Section GroupedEffects.

Variable json_dumps : Kwargs → string.
Variable client : World → Call → Response.

(** What one group's bulk send adds: nothing; a record; or a record and
    then a bulk call. *)
Lemma proxy_bulk_effect p qs message kwargs w :
  let out := proxy_bulk_send_message json_dumps client p qs message kwargs w in
  ∃ ns t,
    w_notifications (fst out) = w_notifications w ++ ns ∧
    w_trace (fst out) = w_trace w ++ t ∧
    ((ns = [] ∧ t = []) ∨
     ∃ n, ns = [n] ∧
       ((∃ id, t = [Recorded id]) ∨
        ∃ id c, t = [Recorded id; Called c] ∧ is_bulk_call c = true)).
Proof.
  intros out. unfold out.
  destruct (rows_of qs w) as [|r0 rows0] eqn:E.
  - rewrite (proxy_bulk_empty json_dumps client p qs message kwargs w E).
    exists [], []. cbn. rewrite !app_nil_r. tauto.
  - assert (Hne : rows_of qs w ≠ []) by (rewrite E; discriminate).
    pose proof (proxy_bulk_outcome json_dumps client p qs message kwargs w
                  Hne) as H.
    cbv zeta in H. rewrite E in H.
    destruct H as [(-> & _)|(m & _ & _ & [(-> & _)|(c & Hc & -> & _)])].
    + exists [], []. rewrite !app_nil_r. tauto.
    + cbn. eexists [_], [_].
      split; [reflexivity | split; [reflexivity|]].
      right. eexists. split; [reflexivity|]. left. eauto.
    + cbn. eexists [_], [_; _]. rewrite <- !app_assoc.
      split; [reflexivity | split; [reflexivity|]].
      right. eexists. split; [reflexivity|]. right.
      eexists _, c. split; [reflexivity|].
      exact (bulk_call_of_is_bulk _ _ _ Hc).
Qed.

Lemma dispatch_groups_effect devices keys message kwargs w :
  let out := dispatch_groups json_dumps client devices keys message kwargs w in
  ∃ ns t,
    w_notifications (fst out) = w_notifications w ++ ns ∧
    w_trace (fst out) = w_trace w ++ t ∧
    (length ns ≤ length (List.filter known_tag keys))%nat ∧
    (length (calls_of t) ≤ length ns)%nat ∧
    record_first false t = true ∧
    Forall (λ c, is_bulk_call c = true) (calls_of t).
Proof.
  cbv zeta. revert kwargs w.
  induction keys as [|key keys IH]; intros kwargs w.
  - exists [], []. cbn. rewrite !app_nil_r. repeat split; constructor.
  - cbn [dispatch_groups List.filter]. unfold known_tag at 1.
    destruct (get_device_model_by_type key) as [p|] eqn:Ek.
    + rewrite bind_unfold.
      pose proof (proxy_bulk_effect p
                    (qs_filter (id__in (dict_get devices key [])) (objects p))
                    message kwargs w) as H. cbv zeta in H.
      destruct (proxy_bulk_send_message _ _ _ _ _ _ _) as [w1 [r|e]];
        cbn [fst snd] in *.
      * destruct H as (ns1 & t1 & Hn1 & Ht1 & Hu).
        destruct (IH (fst r) w1) as (ns2 & t2 & Hn2 & Ht2 & Hl & Hc & Hs & Hb).
        exists (ns1 ++ ns2), (t1 ++ t2).
        rewrite Hn2, Ht2, Hn1, Ht1, <- !app_assoc.
        split; [reflexivity | split; [reflexivity|]].
        unfold calls_of in *. rewrite omap_app, !length_app.
        destruct Hu as [[-> ->]|(n & -> & [(id & ->)|(id & c & -> & Hbc)])];
          cbn; repeat split; try lia; try assumption.
        -- apply record_first_armed, Hs.
        -- constructor; assumption.
      * destruct H as (ns1 & t1 & Hn1 & Ht1 & Hu).
        exists ns1, t1. split; [exact Hn1 | split; [exact Ht1|]].
        unfold calls_of.
        destruct Hu as [[-> ->]|(n & -> & [(id & ->)|(id & c & -> & Hbc)])];
          cbn; repeat split; try lia; repeat constructor; assumption.
    + exists [], []. cbn. rewrite !app_nil_r.
      repeat split; try lia; constructor.
Qed.

(** X8. Whatever the size and the tags of the collection, the grouped
    bulk send leaves the old notifications in place, adds at most two,
    and makes at most as many provider calls as it added notifications;
    every call is a bulk call and comes right after the record of its
    group. *)
Theorem grouped_send_bounded qs message kwargs w :
  let out := DeviceQuerySet_send_message json_dumps client qs message
               kwargs w in
  ∃ ns t,
    w_notifications (fst out) = w_notifications w ++ ns ∧
    w_trace (fst out) = w_trace w ++ t ∧
    (length ns ≤ 2)%nat ∧
    (length (calls_of t) ≤ length ns)%nat ∧
    record_first false t = true ∧
    Forall (λ c, is_bulk_call c = true) (calls_of t).
Proof.
  intros out. unfold out.
  destruct (rows_of qs w) as [|r0 rows0] eqn:E.
  - unfold DeviceQuerySet_send_message.
    rewrite bind_unfold. unfold fetch. cbn beta iota.
    fold (rows_of qs w). rewrite E. cbn.
    exists [], []. rewrite !app_nil_r. cbn. repeat split; try lia; constructor.
  - assert (Hne : rows_of qs w ≠ []) by (rewrite E; discriminate).
    rewrite (DeviceQuerySet_run json_dumps client qs message kwargs w Hne).
    cbv zeta. rewrite fst_bind_ret.
    destruct (dispatch_groups_effect
                (group_by_type (values_list_pk_device_type (rows_of qs w)))
                (dict_keys
                   (group_by_type (values_list_pk_device_type (rows_of qs w))))
                message kwargs w) as (ns & t & Hn & Ht & Hl & Hc & Hs & Hb).
    exists ns, t. repeat split; try assumption.
    pose proof (known_tags_le_2 _
                  (group_by_type_NoDup
                     (values_list_pk_device_type (rows_of qs w)))).
    lia.
Qed.

End GroupedEffects.

Lemma dict_get_In {V} (d : list (Z * V)) (key : Z) (v dflt : V) :
  NoDup (dict_keys d) → In (key, v) d → dict_get d key dflt = v.
Proof.
  unfold dict_keys. induction d as [|[k v'] d IH]; [intros _ []|].
  cbn. intros [Hk Hd]%NoDup_cons [[= -> ->]|Hin].
  - rewrite decide_True by reflexivity. reflexivity.
  - destruct (decide (k = key)) as [->|]; [|exact (IH Hd Hin)].
    exfalso. apply Hk, list_elem_of_In, in_map_iff.
    exists (key, v). split; [reflexivity | exact Hin].
Qed.

(** X9. Grouping by tag (lines 49-52) loses and invents nothing: the
    keys are distinct and are exactly the tags that occur; each bucket is
    non-empty and lists, in the order of the input, exactly the ids that
    carry its tag. *)
Theorem group_by_type_partitions (pairs : list (nat * Z)) :
  NoDup (dict_keys (group_by_type pairs)) ∧
  (∀ t, In t (dict_keys (group_by_type pairs)) ↔ In t (map snd pairs)) ∧
  (∀ t ids, In (t, ids) (group_by_type pairs) →
            ids ≠ [] ∧ ids = ids_of_type t pairs) ∧
  (∀ t, ¬ In t (map snd pairs) → dict_get (group_by_type pairs) t [] = []).
Proof.
  split; [apply group_by_type_NoDup|].
  split; [apply group_by_type_keys|]. split.
  - intros t ids Hin.
    assert (E : ids = ids_of_type t pairs).
    { rewrite <- group_by_type_get. symmetry.
      apply dict_get_In; [apply group_by_type_NoDup | exact Hin]. }
    split; [|exact E]. subst ids.
    assert (Ht : In t (map snd pairs)).
    { apply group_by_type_keys. unfold dict_keys. apply in_map_iff.
      exists (t, ids_of_type t pairs). split; [reflexivity | exact Hin]. }
    apply in_map_iff in Ht as ([id t'] & Hs & Hp). cbn in Hs. subst t'.
    unfold ids_of_type. intros Hnil.
    assert (Hf : In (id, t) (List.filter (λ p, bool_decide (p.2 = t)) pairs)).
    { apply filter_In. split; [exact Hp|].
      apply bool_decide_eq_true. reflexivity. }
    apply (in_map fst) in Hf. rewrite Hnil in Hf. exact Hf.
  - intros t Ht. rewrite group_by_type_get. unfold ids_of_type.
    destruct (List.filter _ pairs) as [|[id t'] l] eqn:E; [reflexivity|].
    exfalso. apply Ht.
    assert (Hf : In (id, t') (List.filter (λ p, bool_decide (p.2 = t)) pairs))
      by (rewrite E; left; reflexivity).
    apply filter_In in Hf as [Hp Hb]. apply bool_decide_eq_true in Hb.
    cbn in Hb. subst t'. apply in_map_iff. exists (id, t). tauto.
Qed.

Lemma filter_all_true {A} (f : A → bool) (l : list A) :
  (∀ x, In x l → f x = true) → List.filter f l = l.
Proof.
  induction l as [|x l IH]; [reflexivity|]. intros H. cbn.
  rewrite (H x) by (left; reflexivity). f_equal. apply IH.
  intros y Hy. apply H. right. exact Hy.
Qed.

(** X10. The managers' views: a proxy manager selects exactly the stored
    devices carrying its tag, and filtering it further never widens it;
    no device is in both views; a device whose tag is neither APNS nor
    GCM is in neither, though [Device.objects] selects every stored
    device. *)
Theorem provider_views (w : World) :
  (∀ (p : ProxyModel) r,
     In r (rows_of (objects p) w) ↔
     In r (w_devices w) ∧ device_type (row_fields r) = tag_of p) ∧
  (∀ (p : ProxyModel) f r,
     In r (rows_of (qs_filter f (objects p)) w) →
     In r (rows_of (objects p) w) ∧ f r = true) ∧
  (∀ r, In r (rows_of APNSDevice_objects w) →
        ¬ In r (rows_of GCMDevice_objects w)) ∧
  (∀ (p : ProxyModel) r,
     device_type (row_fields r) ≠ Device_APNS →
     device_type (row_fields r) ≠ Device_GCM →
     ¬ In r (rows_of (objects p) w)) ∧
  rows_of Device_objects w = w_devices w.
Proof.
  assert (H1 : ∀ (p : ProxyModel) r,
            In r (rows_of (objects p) w) ↔
            In r (w_devices w) ∧ device_type (row_fields r) = tag_of p).
  { intros p r. unfold rows_of. rewrite filter_In.
    destruct p; cbn; unfold device_type_is;
      rewrite bool_decide_eq_true; reflexivity. }
  split; [exact H1|]. split; [|split; [|split]].
  - intros p f r Hr. unfold rows_of in *. apply filter_In in Hr as [Hr Hq].
    cbn in Hq. apply andb_true_iff in Hq as [Hq Hf].
    split; [|exact Hf]. apply filter_In. tauto.
  - intros r Ha Hg. apply (H1 APNSDevice) in Ha. apply (H1 GCMDevice) in Hg.
    cbn in *. destruct Ha as [_ Ha], Hg as [_ Hg]. rewrite Ha in Hg.
    discriminate.
  - intros p r Ha Hg Hr. apply H1 in Hr as [_ Hr]. destruct p; cbn in Hr; tauto.
  - unfold rows_of. cbn. apply filter_all_true. reflexivity.
Qed.

Lemma single_key (keys : list Z) (t : Z) :
  NoDup keys → (∀ x, In x keys ↔ x = t) → keys = [t].
Proof.
  intros Hnd Hk. destruct keys as [|a [|b l]].
  - exfalso. apply (Hk t). reflexivity.
  - f_equal. apply Hk. left. reflexivity.
  - exfalso. apply NoDup_cons in Hnd as [Ha _]. apply Ha.
    assert (a = t) as -> by (apply Hk; left; reflexivity).
    assert (b = t) as -> by (apply Hk; right; left; reflexivity).
    left.
Qed.

Section Homogeneous.

Variable json_dumps : Kwargs → string.
Variable client : World → Call → Response.

(** A proxy bulk send reads its queryset through the rows it selects. *)
Lemma proxy_bulk_rows_ext p qs1 qs2 message kwargs w :
  rows_of qs1 w = rows_of qs2 w →
  proxy_bulk_send_message json_dumps client p qs1 message kwargs w =
  proxy_bulk_send_message json_dumps client p qs2 message kwargs w.
Proof.
  intros E. destruct (rows_of qs2 w) as [|r0 rows0] eqn:E2.
  - rewrite !proxy_bulk_empty by assumption. reflexivity.
  - assert (H1 : rows_of qs1 w ≠ []) by (rewrite E; discriminate).
    assert (H2 : rows_of qs2 w ≠ []) by (rewrite E2; discriminate).
    assert (Hc : create_notification_for json_dumps (Many qs1) message kwargs w
                 = create_notification_for json_dumps (Many qs2) message
                     kwargs w).
    { apply create_ext; [|reflexivity]. cbn [target_keys].
      rewrite E, E2. reflexivity. }
    destruct p; cbn [proxy_bulk_send_message].
    + rewrite !APNS_bulk_run by assumption.
      rewrite !bind_unfold, Hc, E, E2. reflexivity.
    + rewrite !GCM_bulk_run by assumption.
      rewrite !bind_unfold, Hc, E, E2. reflexivity.
Qed.

(** X11. Over a non-empty collection all of whose devices carry the tag
    of one provider, the generic bulk send does to the world exactly what
    that provider's bulk send does on the same collection (one record
    for all the devices, one bulk call); it fails as that send fails and
    otherwise returns [None] in place of the provider's response. *)
Theorem generic_bulk_on_one_provider (p : ProxyModel) qs message kwargs w :
  NoDup (map row_pk (w_devices w)) →
  rows_of qs w ≠ [] →
  (∀ r, In r (rows_of qs w) → device_type (row_fields r) = tag_of p) →
  let out := proxy_bulk_send_message json_dumps client p qs message kwargs w in
  DeviceQuerySet_send_message json_dumps client qs message kwargs w =
  (fst out,
   match snd out with
   | Ok _ => Ok PNone
   | Raise e => Raise e
   end).
Proof.
  intros Hnd Hne Htag out.
  rewrite (DeviceQuerySet_run json_dumps client qs message kwargs w Hne).
  cbv zeta.
  assert (Hk : dict_keys
                 (group_by_type (values_list_pk_device_type (rows_of qs w)))
               = [tag_of p]).
  { apply single_key; [apply group_by_type_NoDup|].
    intros t. rewrite group_by_type_keys, types_of_pairs. split.
    - intros (r & Hr & <-). apply Htag, Hr.
    - intros ->. destruct (rows_of qs w) as [|r l] eqn:E; [congruence|].
      exists r. split; [left; reflexivity|]. apply Htag. left. reflexivity. }
  rewrite Hk. cbn [dispatch_groups].
  rewrite get_device_model_by_type_tag, !bind_unfold.
  assert (Hr : rows_of
                 (qs_filter
                    (id__in
                       (dict_get
                          (group_by_type
                             (values_list_pk_device_type (rows_of qs w)))
                          (tag_of p) []))
                    (objects p)) w = rows_of qs w).
  { rewrite (group_rows qs w w p Hnd eq_refl). unfold rows_of_type.
    apply filter_all_true. intros r Hr. unfold device_type_is.
    apply bool_decide_eq_true, Htag, Hr. }
  rewrite (proxy_bulk_rows_ext p _ qs message kwargs w Hr).
  fold out. destruct out as [w' [r|e]]; reflexivity.
Qed.

End Homogeneous.

(** ** save, further *)

Lemma save_of_class (p : ProxyModel) self w :
  class_ self = Proxy p →
  save_of p self w = Model_save (set_device_type (tag_of p) self) w.
Proof.
  intros Hc.
  destruct p; unfold save_of, GCMDevice_save, APNSDevice_save; cbv zeta;
    cbn [set_device_type class_ tag_of];
    destruct (decide _) as [_|Hn]; try contradiction; reflexivity.
Qed.

Lemma set_device_type_same t self :
  device_type (fields self) = t → set_device_type t self = self.
Proof. destruct self as [c k []]. cbn. intros ->. reflexivity. Qed.

(** X14. What is saved through a provider class is found through that
    class's manager and not through the other's, whatever tag the
    instance or the stored row carried: after a save with default
    arguments that went through, the manager of the class selects one
    row of the instance's key, holding the name, the flag, the user, the
    device id and the registration id the instance was saved with, and
    the other manager selects no row of that key. *)
Theorem save_then_manager (p : ProxyModel) self w self' :
  snd (save_of p self w) = Ok self' →
  found_by p self (fst (save_of p self w)) self'.
Proof.
  intros Hok.
  destruct (save_of_stored p self w self' Hok)
    as (_ & k & Hpk & _ & _ & Hn & Ha & Hu & Hd & Hr & Ht & _ & Hin & Hall & _).
  assert (Hsel : ∀ (q : ProxyModel) r w0,
            In r (rows_of (objects q) w0) ↔
            In r (w_devices w0) ∧ device_type (row_fields r) = tag_of q).
  { intros q r w0. unfold rows_of. rewrite filter_In.
    destruct q; cbn; unfold device_type_is;
      rewrite bool_decide_eq_true; reflexivity. }
  exists k, (mkRow k (fields self')). cbn [row_pk row_fields].
  repeat split; try assumption.
  - apply Hsel. split; [exact Hin | exact Ht].
  - intros r' Hr' Hk. apply Hsel in Hr' as [Hr' _]. exact (Hall r' Hr' Hk).
  - intros r' Hr' Hk. apply Hsel in Hr' as [Hr' Ht'].
    rewrite (Hall r' Hr' Hk) in Ht'. cbn [row_fields] in Ht'.
    rewrite Ht in Ht'. destruct p; discriminate.
Qed.

Lemma map_update_fixed k f (table : list Row) :
  (∀ r, In r table → row_pk r = k → r = mkRow k f) →
  map (λ r, if has_pk k r then mkRow k f else r) table = table.
Proof.
  intros H. rewrite <- (map_id table) at 2. apply map_ext_in.
  intros r Hr. destruct (has_pk k r) eqn:E; [|reflexivity].
  apply has_pk_true in E. symmetry. exact (H r Hr E).
Qed.

Lemma Model_save_again self w self' :
  snd (Model_save self w) = Ok self' →
  Model_save self' (fst (Model_save self w)) =
  (fst (Model_save self w), Ok self').
Proof.
  destruct (Model_save_cases self w)
    as [E|[(k & Hpk & Hu & Hex & E)|(k & Hu & Hex & Hk & E)]];
    rewrite E; cbn [fst snd insert_row]; [discriminate| |]; intros [= <-].
  - unfold Model_save. rewrite bind_unfold. cbn [get]. rewrite Hpk.
    cbn [set_devices w_devices].
    rewrite device_id_taken_update, Hu.
    assert (Hex' : existsb (has_pk k)
                     (map (λ r, if has_pk k r then mkRow k (fields self) else r)
                        (w_devices w)) = true).
    { apply existsb_exists in Hex as (r0 & Hr0 & Hk0).
      apply existsb_exists. exists (mkRow k (fields self)). split.
      - apply in_map_iff. exists r0. rewrite Hk0. tauto.
      - apply has_pk_true. reflexivity. }
    rewrite Hex', bind_unfold. cbn. unfold mret, M_ret, ret. f_equal.
    unfold set_devices. cbn. f_equal.
    apply map_update_fixed. intros r Hr Hkr.
    apply in_map_iff in Hr as (r0 & <- & _).
    destruct (has_pk k r0) eqn:E0; [reflexivity|].
    apply has_pk_true in Hkr. congruence.
  - unfold Model_save. rewrite bind_unfold. cbn [get pk fields].
    cbn [set_devices w_devices].
    rewrite device_id_taken_insert.
    change (device_id_taken k (set_date_created (w_now w) (fields self))
              (w_devices w))
      with (device_id_taken k (fields self) (w_devices w)).
    rewrite Hu.
    assert (Hex' : existsb (has_pk k)
                     (w_devices w ++
                        [mkRow k (set_date_created (w_now w) (fields self))])
                   = true).
    { apply existsb_exists. eexists. split.
      - apply in_or_app. right. left. reflexivity.
      - apply has_pk_true. reflexivity. }
    rewrite Hex', bind_unfold. cbn. unfold mret, M_ret, ret. f_equal.
    unfold set_devices. cbn. f_equal.
    apply map_update_fixed. intros r Hr Hkr.
    apply in_app_or in Hr as [Hr|[<-|[]]]; [|reflexivity].
    exfalso. exact (no_row_of_key k _ Hex r Hr Hkr).
Qed.

Lemma save_of_again (p : ProxyModel) self w self' :
  snd (save_of p self w) = Ok self' →
  save_of p self' (fst (save_of p self w)) =
  (fst (save_of p self w), Ok self').
Proof.
  intros Hok.
  destruct (save_of_stored p self w self' Hok)
    as (Hc & k & _ & _ & Hc' & _ & _ & _ & _ & _ & Ht & _).
  destruct (save_of_run p self w self' Hok) as [_ E].
  rewrite save_of_class by congruence.
  rewrite (set_device_type_same _ _ Ht).
  rewrite E in Hok |- *. exact (Model_save_again _ w self' Hok).
Qed.

(** X15. Saving again what a save returned changes nothing: the second
    save through the same provider class leaves the world as the first
    left it and returns the same instance. *)
Theorem save_twice self w :
  (∀ self', snd (GCMDevice_save Model_save self w) = Ok self' →
     GCMDevice_save Model_save self' (fst (GCMDevice_save Model_save self w)) =
     (fst (GCMDevice_save Model_save self w), Ok self')) ∧
  (∀ self', snd (APNSDevice_save Model_save self w) = Ok self' →
     APNSDevice_save Model_save self'
       (fst (APNSDevice_save Model_save self w)) =
     (fst (APNSDevice_save Model_save self w), Ok self')).
Proof.
  split; intros s1 Hok.
  - exact (save_of_again GCMDevice self w s1 Hok).
  - exact (save_of_again APNSDevice self w s1 Hok).
Qed.

Section SaveThenSend.

Variable json_dumps : Kwargs → string.
Variable client : World → Call → Response.

Lemma single_call_ext (p : ProxyModel) f f' m kwargs :
  registration_id f = registration_id f' →
  single_call p f m kwargs = single_call p f' m kwargs.
Proof. intros E. destruct p; cbn; rewrite E; reflexivity. Qed.

(** X16. Save, then send: a device saved with default arguments through
    a provider class and then sent a text message by the generic path
    (keywords that bind, a well-formed [extra]) is served by that
    provider's single-device client, with the registration id the
    instance was saved with, after one notification for its key; the
    send returns [None] unless that client raises. *)
Theorem saved_device_generic_send (p : ProxyModel) self self' (m : string)
    kwargs w :
  snd (save_of p self w) = Ok self' →
  keywords_bind kwargs = true →
  extra_is_dict kwargs = true →
  let w' := fst (save_of p self w) in
  let c := single_call p (fields self) m kwargs in
  ∃ k, pk self' = Some k ∧
    let w1 := recorded json_dumps {[k]} (Some m) kwargs w' in
    send_message json_dumps client (set_class Device self') (Some m) kwargs w'
    = (log (Called c) w1,
       match client w1 c with
       | Returned _ => Ok PNone
       | Failed e => Raise (ProviderError e)
       end).
Proof.
  intros Hok Hb Hx w' c.
  destruct (save_of_stored p self w self' Hok)
    as (_ & k & Hpk & _ & _ & _ & _ & _ & _ & Hr & Ht & _).
  exists k. split; [exact Hpk|]. cbv zeta.
  assert (Es : set_class Device self' = mkInstance Device (Some k) (fields self')).
  { unfold set_class. rewrite Hpk. reflexivity. }
  rewrite Es.
  rewrite (generic_single_text json_dumps client p k (fields self') m kwargs w'
             (provider_resolved_tag p k _ Ht) Hb Hx).
  unfold c. rewrite (single_call_ext p (fields self') (fields self) m kwargs Hr).
  reflexivity.
Qed.

(** X17. The Google-style bulk send writes the message into the very
    dict its caller passed as [extra]: after a send that went through
    (keywords that bind), the caller's [extra] holds the message under
    [message] and nothing else of the caller's keywords has changed; a
    caller that passed no [extra] sees no change.  Sending again with
    the changed mapping builds the payload a fresh mapping would
    give. *)
Theorem gcm_bulk_writes_callers_extra qs (m1 m2 : string) kwargs w :
  rows_of qs w ≠ [] →
  keywords_bind kwargs = true →
  extra_is_dict kwargs = true →
  client_returns client →
  ∃ w1 kwargs1 v,
    GCMDeviceQuerySet_send_message json_dumps client qs (Some m1) kwargs w =
      (w1, Ok (kwargs1, v)) ∧
    (∀ d, kwargs !! "extra" = Some (PDict d) →
          kwargs1 = <["extra" := PDict (<["message" := PStr m1]> d)]> kwargs) ∧
    (kwargs !! "extra" = None → kwargs1 = kwargs) ∧
    gcm_payload m2 kwargs1 = gcm_payload m2 kwargs.
Proof.
  intros Hne Hb Hx Hc.
  rewrite (GCM_bulk_text json_dumps client qs m1 kwargs w Hne Hb Hx). cbv zeta.
  destruct (Hc (recorded json_dumps (pks_of (rows_of qs w)) (Some m1) kwargs w)
              (gcm_send_bulk_message (reg_ids_of (active_rows (rows_of qs w)))
                 (gcm_payload m1 kwargs) (delete "extra" kwargs)))
    as [v ->].
  eexists _, _, v. split; [reflexivity|].
  unfold seen_by_caller, gcm_payload, extra_dict.
  destruct (kwargs !! "extra") as [x|] eqn:E.
  - repeat split.
    + intros d [= ->]. reflexivity.
    + discriminate.
    + rewrite lookup_insert_eq. unfold extra_is_dict in Hx. rewrite E in Hx.
      destruct x; try discriminate. rewrite insert_insert_eq. reflexivity.
  - repeat split; [discriminate|]. rewrite E. reflexivity.
Qed.

End SaveThenSend.

(** ** The text of recorded notifications *)

Lemma related_rows_filter (q : Row → bool) (table : list Row) :
  NoDup (map row_pk table) →
  List.filter (λ r, bool_decide (row_pk r ∈ pks_of (List.filter q table)))
    table =
  List.filter q table.
Proof.
  intros Hnd. apply filter_ext_in. intros r Hr.
  destruct (q r) eqn:Hq.
  - apply bool_decide_eq_true. unfold pks_of.
    apply elem_of_list_to_set, list_elem_of_In, in_map.
    apply filter_In. tauto.
  - apply bool_decide_eq_false. unfold pks_of.
    rewrite elem_of_list_to_set, list_elem_of_In, in_map_iff.
    intros (r' & Hpk & Hr'). apply filter_In in Hr' as [Hr' Hq'].
    assert (r' = r) by exact (pk_inj _ _ _ Hnd Hr' Hr Hpk). congruence.
Qed.

Lemma related_one_row k f0 (table : list Row) :
  NoDup (map row_pk table) →
  In (mkRow k f0) table →
  List.filter (λ r, bool_decide (row_pk r ∈ ({[k]} : gset nat))) table =
  [mkRow k f0].
Proof.
  induction table as [|x l IH]; [intros _ []|].
  cbn. intros [Hx Hl]%NoDup_cons [->|Hin].
  - cbn. rewrite bool_decide_eq_true_2 by (apply elem_of_singleton; reflexivity).
    f_equal.
    destruct (List.filter _ l) as [|y l'] eqn:Ef; [reflexivity|].
    exfalso.
    assert (Hy : In y (List.filter
                         (λ r, bool_decide (row_pk r ∈ ({[k]} : gset nat))) l))
      by (rewrite Ef; left; reflexivity).
    apply filter_In in Hy as [Hy Hb]. apply bool_decide_eq_true in Hb.
    apply elem_of_singleton in Hb. apply Hx. cbn. rewrite <- Hb.
    apply list_elem_of_In, in_map, Hy.
  - rewrite bool_decide_eq_false_2; [exact (IH Hl Hin)|].
    rewrite elem_of_singleton. intros Hk. apply Hx. rewrite Hk.
    apply list_elem_of_In, in_map_iff. exists (mkRow k f0). tauto.
Qed.

Section NotificationText.

Variable json_dumps : Kwargs → string.
Variable client : World → Call → Response.
Variable user_str : nat → string.

(** X18. The text of the notification a single-device send recorded:
    for a saved device whose row is stored (keys distinct) and keywords
    that bind at the call that makes the record, whatever the path and
    the outcome of the send, the notification relates that one row and
    reads as the stored device's text, a colon and the message.  The
    device is shown as a [Device], whatever class it was sent
    through. *)
Theorem single_send_notification_text c k f f0 (m : string) kwargs w :
  NoDup (map row_pk (w_devices w)) →
  In (mkRow k f0) (w_devices w) →
  record_binds kwargs = true →
  let w' := fst (send_message json_dumps client (mkInstance c (Some k) f)
                   (Some m) kwargs w) in
  ∃ n, w_notifications w' = w_notifications w ++ [n] ∧
       related_devices w' n = [mkRow k f0] ∧
       Notification___unicode__ user_str w' n =
       Device___str__ user_str (mkInstance Device (Some k) f0) +:+ ": " +:+ m.
Proof.
  intros Hnd Hin Hb w'.
  pose proof (single_send_effect_facts json_dumps client
                (mkInstance c (Some k) f) m kwargs w Hb) as (Hn & Hd & _).
  fold w' in Hn, Hd. cbn [own_key pk] in Hn.
  eexists. split; [exact Hn|].
  assert (Hr : related_devices w'
                 (mkNotification {[k]} (Some m) (json_dumps kwargs) (w_now w))
               = [mkRow k f0]).
  { unfold related_devices. cbn [devices]. rewrite Hd.
    exact (related_one_row k f0 _ Hnd Hin). }
  split; [exact Hr|].
  unfold Notification___unicode__. rewrite Hr. reflexivity.
Qed.

(** X19. The text of the notification a bulk send of one provider
    recorded over a non-empty collection (keys distinct, keywords that
    bind at the call that makes the record): the notification relates
    every row of the collection, and its text is the text of the row of
    least key, then [ and n-1 other] when the collection has n > 1
    devices, a colon and the message. *)
Theorem bulk_send_notification_text (p : ProxyModel) qs (m : string)
    kwargs w :
  NoDup (map row_pk (w_devices w)) →
  rows_of qs w ≠ [] →
  record_binds kwargs = true →
  let rows := rows_of qs w in
  let w' := fst (proxy_bulk_send_message json_dumps client p qs (Some m)
                   kwargs w) in
  ∃ n, w_notifications w' = w_notifications w ++ [n] ∧
       related_devices w' n = rows ∧
       Notification___unicode__ user_str w' n =
       device_text user_str (first_by_pk rows) +:+
       (if (1 <? length rows)%nat
        then " and " +:+ pretty (length rows - 1)%nat +:+ " other"
        else "") +:+
       ": " +:+ m.
Proof.
  intros Hnd Hne Hb rows w'.
  assert (H : w_notifications w' =
              w_notifications w ++
                [mkNotification (pks_of rows) (Some m) (json_dumps kwargs)
                   (w_now w)] ∧
              w_devices w' = w_devices w).
  { pose proof (proxy_bulk_outcome json_dumps client p qs (Some m) kwargs w
                  Hne) as H.
    cbv zeta in H. fold w' in H.
    destruct H as [(_ & _ & [Hn|[=]])|(m' & [= <-] & _ & H)]; [congruence|].
    destruct H as [(-> & _)|(c & _ & -> & _)]; split; reflexivity. }
  destruct H as (Hn & Hd).
  eexists. split; [exact Hn|].
  assert (Hr : related_devices w'
                 (mkNotification (pks_of rows) (Some m) (json_dumps kwargs)
                    (w_now w)) = rows).
  { unfold related_devices. cbn [devices]. rewrite Hd.
    exact (related_rows_filter (qs_where qs) _ Hnd). }
  split; [exact Hr|].
  unfold Notification___unicode__. rewrite Hr. reflexivity.
Qed.

(** X20. The notification left behind by a send on an unsaved instance
    (keywords that bind at the call that makes the record) relates no
    device, and its text starts with [None]: it reads [None: ] and the
    message. *)
Theorem unsaved_send_notification_text c f (m : string) kwargs w :
  record_binds kwargs = true →
  let w' := fst (send_message json_dumps client (mkInstance c None f)
                   (Some m) kwargs w) in
  ∃ n, w_notifications w' = w_notifications w ++ [n] ∧
       related_devices w' n = [] ∧
       Notification___unicode__ user_str w' n = "None: " +:+ m.
Proof.
  intros Hb w'. unfold w'. rewrite unsaved_send_run by exact Hb. cbn [fst].
  eexists. split; [reflexivity|].
  assert (Hr : related_devices (recorded json_dumps ∅ (Some m) kwargs w)
                 (mkNotification ∅ (Some m) (json_dumps kwargs) (w_now w))
               = []).
  { unfold related_devices. cbn [devices recorded w_devices].
    induction (w_devices w) as [|r l IH]; [reflexivity|]. cbn.
    rewrite bool_decide_eq_false_2 by apply not_elem_of_empty. exact IH. }
  split; [exact Hr|].
  unfold Notification___unicode__. rewrite Hr. reflexivity.
Qed.

End NotificationText.

(** ** The further properties on the small registry *)

Lemma ex_world_keys_distinct : NoDup (map row_pk (w_devices ex_world)).
Proof. apply (bool_decide_unpack _). vm_compute. exact I. Qed.

Lemma unsaved_device_send_witness :
  record_binds ex_kwargs = true ∧
  send_message ex_json_dumps ex_client (mkInstance GCMDevice None ex_gcm_fields)
    (Some "hi") ex_kwargs ex_world =
  (recorded ex_json_dumps ∅ (Some "hi") ex_kwargs ex_world, Raise ValueError).
Proof.
  split; [vm_compute; reflexivity|].
  exact (unsaved_device_send ex_json_dumps ex_client GCMDevice ex_gcm_fields
           "hi" ex_kwargs ex_world eq_refl).
Defined.

Lemma single_send_effect_witness :
  record_binds ex_alert_kwargs = true ∧
  w_notifications
    (fst (send_message ex_json_dumps ex_client
            (mkInstance APNSDevice (Some 1%nat)
               (ex_fields "A" "reg-a" true Device_APNS))
            (Some "hi") ex_alert_kwargs ex_world)) =
  [mkNotification {[1%nat]} (Some "hi") (ex_json_dumps ex_alert_kwargs) 100].
Proof.
  split; [vm_compute; reflexivity|].
  exact (proj1 (single_send_effect ex_json_dumps ex_client
                  (mkInstance APNSDevice (Some 1%nat)
                     (ex_fields "A" "reg-a" true Device_APNS))
                  "hi" ex_alert_kwargs ex_world eq_refl)).
Defined.

Lemma single_send_bad_extra_witness :
  keywords_bind ex_bad_kwargs = true ∧
  extra_is_dict ex_bad_kwargs = false ∧
  send_message ex_json_dumps ex_client
    (mkInstance GCMDevice (Some 2%nat) ex_gcm_fields) (Some "hi")
    ex_bad_kwargs ex_world =
  (recorded ex_json_dumps {[2%nat]} (Some "hi") ex_bad_kwargs ex_world,
   Raise TypeError).
Proof.
  split; [vm_compute; reflexivity|]. split; [vm_compute; reflexivity|].
  exact (proj1 (single_send_bad_extra ex_json_dumps ex_client 2%nat
                  ex_gcm_fields "hi" ex_bad_kwargs ex_world eq_refl eq_refl)).
Defined.

(** The client's answer comes back from the provider class's send and
    is dropped by the generic one. *)
Lemma generic_send_drops_response_witness :
  device_type ex_gcm_fields = tag_of GCMDevice ∧
  keywords_bind ex_kwargs = true ∧
  extra_is_dict ex_kwargs = true ∧
  snd (send_message ex_json_dumps ex_answering_client
         (mkInstance GCMDevice (Some 2%nat) ex_gcm_fields) (Some "hi")
         ex_kwargs ex_world) = Ok (PStr "sent") ∧
  snd (send_message ex_json_dumps ex_answering_client
         (mkInstance Device (Some 2%nat) ex_gcm_fields) (Some "hi")
         ex_kwargs ex_world) = Ok PNone.
Proof.
  split; [reflexivity|].
  split; [vm_compute; reflexivity|]. split; [vm_compute; reflexivity|].
  pose proof (generic_send_drops_response ex_json_dumps ex_answering_client
                GCMDevice 2%nat ex_gcm_fields "hi" ex_kwargs ex_world
                eq_refl eq_refl eq_refl) as H.
  cbv zeta in H. destruct H as [H1 H2]. rewrite H1, H2.
  split; reflexivity.
Defined.

Lemma single_send_ignores_other_fields_witness :
  send_message ex_json_dumps ex_client
    (mkInstance APNSDevice (Some 3%nat) ex_inactive_fields) (Some "hi")
    ex_kwargs ex_world =
  send_message ex_json_dumps ex_client
    (mkInstance APNSDevice (Some 3%nat)
       (ex_fields "C" "reg-c" true Device_APNS)) (Some "hi")
    ex_kwargs ex_world.
Proof.
  exact (single_send_ignores_other_fields ex_json_dumps ex_client APNSDevice
           (Some 3%nat) ex_inactive_fields
           (ex_fields "C" "reg-c" true Device_APNS) (Some "hi") ex_kwargs
           ex_world eq_refl eq_refl).
Defined.

Lemma bulk_send_all_inactive_witness :
  rows_of ex_inactive_only ex_world = [mkRow 3 ex_inactive_fields] ∧
  keywords_bind ex_kwargs = true ∧
  extra_is_dict ex_kwargs = true ∧
  w_trace
    (fst (APNSDeviceQuerySet_send_message ex_json_dumps ex_client
            ex_inactive_only (Some "hi") ex_kwargs ex_world)) =
  [Recorded 0; Called (apns_send_bulk_message [] (Some "hi") ex_kwargs)].
Proof.
  assert (E : rows_of ex_inactive_only ex_world = [mkRow 3 ex_inactive_fields])
    by (vm_compute; reflexivity).
  split; [exact E|].
  split; [vm_compute; reflexivity|]. split; [vm_compute; reflexivity|].
  refine (eq_trans
            (f_equal w_trace
               (proj1 (bulk_send_all_inactive ex_json_dumps ex_client
                         ex_inactive_only "hi" ex_kwargs ex_world _ _
                         eq_refl eq_refl))) _).
  - rewrite E. discriminate.
  - rewrite E. intros r [<-|[]]. reflexivity.
  - vm_compute. reflexivity.
Defined.

(** Keywords that name [devices]: nothing is recorded. *)
Lemma record_keyword_clash_witness :
  record_binds ex_devices_kwargs = false ∧
  send_message ex_json_dumps ex_client
    (mkInstance Device (Some 2%nat) ex_gcm_fields) (Some "hi")
    ex_devices_kwargs ex_world = (ex_world, Raise TypeError) ∧
  APNSDeviceQuerySet_send_message ex_json_dumps ex_client APNSDevice_objects
    (Some "hi") ex_devices_kwargs ex_world = (ex_world, Raise TypeError).
Proof.
  split; [vm_compute; reflexivity|].
  pose proof (record_keyword_clash ex_json_dumps ex_client
                (mkInstance Device (Some 2%nat) ex_gcm_fields) APNSDevice
                APNSDevice_objects (Some "hi") ex_devices_kwargs ex_world
                eq_refl) as [H1 H2].
  split; [exact H1|]. apply H2. vm_compute. discriminate.
Defined.

(** Keywords that name [alert]: the record is made, the Apple-style
    client is not entered. *)
Lemma provider_keyword_clash_witness :
  record_binds ex_alert_kwargs = true ∧
  extra_is_dict ex_alert_kwargs = true ∧
  send_message ex_json_dumps ex_client
    (mkInstance APNSDevice (Some 1%nat)
       (ex_fields "A" "reg-a" true Device_APNS))
    (Some "hi") ex_alert_kwargs ex_world =
  (recorded ex_json_dumps {[1%nat]} (Some "hi") ex_alert_kwargs ex_world,
   Raise TypeError).
Proof.
  split; [vm_compute; reflexivity|]. split; [vm_compute; reflexivity|].
  apply (proj1 (provider_keyword_clash ex_json_dumps ex_client APNSDevice
                  1%nat (ex_fields "A" "reg-a" true Device_APNS)
                  APNSDevice_objects "hi" ex_alert_kwargs ex_world
                  eq_refl eq_refl)).
  vm_compute. reflexivity.
Defined.

Lemma send_without_message_witness :
  record_binds ex_kwargs = true ∧
  send_message ex_json_dumps ex_client
    (mkInstance Device (Some 2%nat) ex_gcm_fields) None ex_kwargs ex_world =
  (ex_world, Raise IntegrityError).
Proof.
  split; [vm_compute; reflexivity|].
  exact (proj1 (send_without_message ex_json_dumps ex_client
                  (mkInstance Device (Some 2%nat) ex_gcm_fields) APNSDevice
                  APNSDevice_objects ex_kwargs ex_world eq_refl)).
Defined.

Lemma generic_bulk_on_one_provider_witness :
  DeviceQuerySet_send_message ex_json_dumps ex_client APNSDevice_objects
    (Some "hi") ex_kwargs ex_world =
  (fst (APNSDeviceQuerySet_send_message ex_json_dumps ex_client
          APNSDevice_objects (Some "hi") ex_kwargs ex_world),
   Ok PNone).
Proof.
  refine (eq_trans
            (generic_bulk_on_one_provider ex_json_dumps ex_client APNSDevice
               APNSDevice_objects (Some "hi") ex_kwargs ex_world
               ex_world_keys_distinct _ _) _).
  - vm_compute. discriminate.
  - intros r Hr. cbn in Hr. destruct Hr as [<-|[<-|[]]]; reflexivity.
  - vm_compute. reflexivity.
Defined.

Lemma save_then_manager_witness :
  snd (save_of APNSDevice (mkInstance APNSDevice None ex_gcm_fields) ex_world)
    = Ok (mkInstance APNSDevice (Some 4%nat)
            (set_date_created 100 (ex_fields "B" "reg-b" true Device_APNS))) ∧
  found_by APNSDevice (mkInstance APNSDevice None ex_gcm_fields)
    (fst (save_of APNSDevice (mkInstance APNSDevice None ex_gcm_fields)
            ex_world))
    (mkInstance APNSDevice (Some 4%nat)
       (set_date_created 100 (ex_fields "B" "reg-b" true Device_APNS))).
Proof.
  assert (H : snd (save_of APNSDevice
                     (mkInstance APNSDevice None ex_gcm_fields) ex_world)
              = Ok (mkInstance APNSDevice (Some 4%nat)
                      (set_date_created 100
                         (ex_fields "B" "reg-b" true Device_APNS))))
    by (vm_compute; reflexivity).
  split; [exact H|].
  exact (save_then_manager APNSDevice _ ex_world _ H).
Defined.

Lemma saved_device_generic_send_witness :
  snd (save_of GCMDevice ex_stray_gcm ex_stray_world) =
    Ok (set_device_type Device_GCM ex_stray_gcm) ∧
  keywords_bind ex_kwargs = true ∧
  extra_is_dict ex_kwargs = true ∧
  w_trace
    (fst (send_message ex_json_dumps ex_client
            (set_class Device (set_device_type Device_GCM ex_stray_gcm))
            (Some "hi") ex_kwargs
            (fst (save_of GCMDevice ex_stray_gcm ex_stray_world)))) =
  [Recorded 0;
   Called (gcm_send_message "reg-d" (gcm_payload "hi" ex_kwargs)
             (delete "extra" ex_kwargs))].
Proof.
  assert (H : snd (save_of GCMDevice ex_stray_gcm ex_stray_world) =
              Ok (set_device_type Device_GCM ex_stray_gcm))
    by (vm_compute; reflexivity).
  split; [exact H|].
  split; [vm_compute; reflexivity|]. split; [vm_compute; reflexivity|].
  destruct (saved_device_generic_send ex_json_dumps ex_client GCMDevice
              ex_stray_gcm _ "hi" ex_kwargs ex_stray_world H eq_refl eq_refl)
    as (k & Hk & E).
  cbv zeta in E. rewrite E. injection Hk as <-. reflexivity.
Defined.

Lemma gcm_bulk_writes_callers_extra_witness :
  ∃ w1 kwargs1 v,
    GCMDeviceQuerySet_send_message ex_json_dumps ex_client GCMDevice_objects
      (Some "hi") ex_kwargs ex_world = (w1, Ok (kwargs1, v)) ∧
    kwargs1 !! "extra" =
    Some (PDict (<["message" := PStr "hi"]> (<["badge" := PInt 1]> ∅))).
Proof.
  destruct (gcm_bulk_writes_callers_extra ex_json_dumps ex_client
              GCMDevice_objects "hi" "again" ex_kwargs ex_world
              ltac:(vm_compute; discriminate) eq_refl eq_refl
              ex_client_returns)
    as (w1 & kw1 & v & E & Hd & _).
  exists w1, kw1, v. split; [exact E|].
  assert (Hl : ex_kwargs !! "extra" =
               Some (PDict (<["badge" := PInt 1]> (∅ : gmap string pyval))))
    by (vm_compute; reflexivity).
  rewrite (Hd _ Hl). apply lookup_insert_eq.
Defined.

Lemma single_send_notification_text_witness :
  ∃ n,
    w_notifications
      (fst (send_message ex_json_dumps ex_failing_client
              (mkInstance GCMDevice (Some 2%nat) ex_gcm_fields) (Some "hi")
              ex_kwargs ex_world)) = w_notifications ex_world ++ [n] ∧
    Notification___unicode__ ex_user_str
      (fst (send_message ex_json_dumps ex_failing_client
              (mkInstance GCMDevice (Some 2%nat) ex_gcm_fields) (Some "hi")
              ex_kwargs ex_world)) n = "B: hi".
Proof.
  destruct (single_send_notification_text ex_json_dumps ex_failing_client
              ex_user_str GCMDevice 2%nat ex_gcm_fields ex_gcm_fields "hi"
              ex_kwargs ex_world ex_world_keys_distinct
              ltac:(right; left; reflexivity) eq_refl) as (n & Hn & _ & Ht).
  exists n. split; [exact Hn|]. rewrite Ht. reflexivity.
Defined.

Lemma bulk_send_notification_text_witness :
  ∃ n,
    w_notifications
      (fst (APNSDeviceQuerySet_send_message ex_json_dumps ex_client
              APNSDevice_objects (Some "hi") ex_kwargs ex_world)) =
    w_notifications ex_world ++ [n] ∧
    Notification___unicode__ ex_user_str
      (fst (APNSDeviceQuerySet_send_message ex_json_dumps ex_client
              APNSDevice_objects (Some "hi") ex_kwargs ex_world)) n =
    "A and 1 other: hi".
Proof.
  destruct (bulk_send_notification_text ex_json_dumps ex_client ex_user_str
              APNSDevice APNSDevice_objects "hi" ex_kwargs ex_world
              ex_world_keys_distinct ltac:(vm_compute; discriminate) eq_refl)
    as (n & Hn & _ & Ht).
  cbn [proxy_bulk_send_message] in Hn, Ht.
  exists n. split; [exact Hn|]. rewrite Ht. vm_compute. reflexivity.
Defined.

Lemma unsaved_send_notification_text_witness :
  ∃ n,
    w_notifications
      (fst (send_message ex_json_dumps ex_client
              (mkInstance Device None ex_gcm_fields) (Some "hi") ex_kwargs
              ex_world)) = w_notifications ex_world ++ [n] ∧
    Notification___unicode__ ex_user_str
      (fst (send_message ex_json_dumps ex_client
              (mkInstance Device None ex_gcm_fields) (Some "hi") ex_kwargs
              ex_world)) n = "None: hi".
Proof.
  destruct (unsaved_send_notification_text ex_json_dumps ex_client ex_user_str
              Device ex_gcm_fields "hi" ex_kwargs ex_world eq_refl)
    as (n & Hn & _ & Ht).
  exists n. split; [exact Hn | exact Ht].
Defined.

(** A device without name and id reads as its class and user; the
    notification of a send through [GCMDevice] still shows it as a
    [Device]. *)
Example str_of_nameless_device :
  Device___str__ ex_user_str
    (mkInstance GCMDevice (Some 9%nat)
       (mkFields None true (Some 1%nat) None (Some "") "reg" Device_GCM)) =
  "GCMDevice for user".
Proof. reflexivity. Qed.
